(** * IGD device quirks (hw/vfio/igd.c): a shallow embedding and its properties

    The development follows the C file top to bottom: the generation
    classifier [igd_gen], the stolen-memory size calculator
    [igd_stolen_memory_size], OpRegion setup, the LPC/host bridge register
    copies, and the two BAR quirk entry points.  C integers are modelled as
    [Z] with the conversions of the C abstract machine written out; bytes
    are [Z] values in [0, 256); arrays indexed by a PCI config offset are
    lists updated in place. *)

From stdpp Require Import base numbers list gmap strings.
From Stdlib Require Import ZArith Lia List.
Import ListNotations.

Local Open Scope Z_scope.

(** ** C integer conversions *)

Module CInt.

(** Conversion to [uint16_t], [uint32_t], [uint64_t]: reduction modulo 2^w. *)
Definition to_u16 (z : Z) : Z := z mod 2 ^ 16.
Definition to_u32 (z : Z) : Z := z mod 2 ^ 32.
Definition to_u64 (z : Z) : Z := z mod 2 ^ 64.

(** Conversion to [int] (two's complement, 32 bits). *)
Definition to_int (z : Z) : Z := (z + 2 ^ 31) mod 2 ^ 32 - 2 ^ 31.

Definition is_u16 (z : Z) : Prop := 0 <= z < 2 ^ 16.
Definition is_u32 (z : Z) : Prop := 0 <= z < 2 ^ 32.
Definition is_u64 (z : Z) : Prop := 0 <= z < 2 ^ 64.

(** A bit field: [width] bits of [z] starting at bit [shift]. *)
Definition field (shift width z : Z) : Z := (z / 2 ^ shift) mod 2 ^ width.

End CInt.
Import CInt.

Arguments to_u16 z : simpl never.
Arguments to_u32 z : simpl never.
Arguments to_u64 z : simpl never.
Arguments to_int z : simpl never.

(** ** Constants of headers that igd.c includes *)

(** Modelled from the spec: [MiB] of qemu/units.h (not under src/), the
    binary mebibyte the spec's "32 MiB" and "4 MiB" refer to, 1 << 20. *)
Definition MiB : Z := Z.shiftl 1 20.

(** Modelled from the spec: the PCI configuration header offsets of
    standard-headers/linux/pci_regs.h (not under src/) that the spec names
    "vendor ID, device ID, revision ID, subsystem vendor ID, subsystem ID",
    and the class word; values are those of the PCI specification. *)
Definition PCI_VENDOR_ID : Z := 0x00.
Definition PCI_DEVICE_ID : Z := 0x02.
Definition PCI_REVISION_ID : Z := 0x08.
Definition PCI_CLASS_DEVICE : Z := 0x0a.
Definition PCI_SUBSYSTEM_VENDOR_ID : Z := 0x2c.
Definition PCI_SUBSYSTEM_ID : Z := 0x2e.

(** Modelled from the spec: identifiers of hw/pci/pci_ids.h and hw/pci/pci.h
    (not under src/): the Intel vendor ID, the wildcard ID, the VGA and ISA
    bridge class codes, and the packing of a slot and function number into a
    bus address ("00:1f.0", "00:02.0"). *)
Definition PCI_VENDOR_ID_INTEL : Z := 0x8086.
Definition PCI_ANY_ID : Z := to_u32 (Z.lnot 0).
Definition PCI_CLASS_DISPLAY_VGA : Z := 0x0300.
Definition PCI_CLASS_BRIDGE_ISA : Z := 0x0601.
Definition PCI_DEVFN (slot func : Z) : Z :=
  Z.lor (Z.shiftl (Z.land slot 0x1f) 3) (Z.land func 0x07).
Definition PCI_CONFIG_SPACE_SIZE : Z := 256.

(** Modelled from the spec: region type and subtypes of linux/vfio.h (not
    under src/) for the "vendor-specific subtypes: OpRegion, LPC config,
    host-bridge config", and the index of the ROM region. *)
Definition VFIO_REGION_TYPE_PCI_VENDOR_TYPE : Z := Z.shiftl 1 31.
Definition VFIO_REGION_SUBTYPE_INTEL_IGD_OPREGION : Z := 1.
Definition VFIO_REGION_SUBTYPE_INTEL_IGD_HOST_CFG : Z := 2.
Definition VFIO_REGION_SUBTYPE_INTEL_IGD_LPC_CFG : Z := 3.
Definition VFIO_PCI_ROM_REGION_INDEX : Z := 6.
Definition ENODEV : Z := 19.

(** Register offsets and field layouts defined in igd.c itself. *)
Definition IGD_ASLS : Z := 0xfc.
Definition IGD_GMCH : Z := 0x50.
Definition IGD_BDSM : Z := 0x5c.
Definition IGD_BDSM_GEN11 : Z := 0xc0.

Definition IGD_GMCH_GEN6_GMS_SHIFT : Z := 3.
Definition IGD_GMCH_GEN6_GMS_MASK : Z := 0x1f.
Definition IGD_GMCH_GEN8_GMS_SHIFT : Z := 8.
Definition IGD_GMCH_GEN8_GMS_MASK : Z := 0xff.

Definition IGD_GGC_MMIO_OFFSET : Z := 0x108040.
Definition IGD_BDSM_MMIO_OFFSET : Z := 0x1080C0.

(** ** Data model *)

(** [struct vfio_region_info]: the two fields igd.c reads, both [__u64]. *)
Record vfio_region_info := {
  info_size : Z;
  info_offset : Z;
}.

(** [Error]: what [error_setg], [error_setg_errno] and [error_append_hint]
    build up. *)
Record Error := {
  err_msg : string;
  err_errno : option Z;
  err_hint : string;
}.

Definition error_setg (msg : string) : Error :=
  {| err_msg := msg; err_errno := None; err_hint := EmptyString |}.
Definition error_setg_errno (os_errno : Z) (msg : string) : Error :=
  {| err_msg := msg; err_errno := Some os_errno; err_hint := EmptyString |}.
Definition error_append_hint (e : Error) (hint : string) : Error :=
  {| err_msg := err_msg e; err_errno := err_errno e;
     err_hint := (err_hint e ++ hint)%string |}.

(** The outcome of a [bool f(..., Error **errp)] function: [true], or
    [false] with [*errp] set. *)
Inductive status :=
| Success
| Failure (err : Error).

(** [PCIDevice]: bus address, QOM type (own type first, then its ancestors),
    config space and write mask, and the qdev fields igd.c reads. *)
Record PCIDevice := {
  devfn : Z;
  qom_types : list string;
  config : list Z;
  wmask : list Z;
  hotplugged : bool;
  romfile : option string;
}.

Record MemoryRegion := {
  mr_name : string;
  mr_ops : string;
  mr_size : Z;
}.

(** [VFIOConfigMirrorQuirk] and [VFIOQuirk] of pci-quirks.h. *)
Record VFIOConfigMirrorQuirk := {
  mirror_mem : MemoryRegion;
  mirror_bar : Z;
  mirror_offset : Z;
  mirror_config_offset : Z;
}.

Record VFIOQuirk := {
  quirk_data : VFIOConfigMirrorQuirk;
  quirk_nr_mem : Z;
}.

(** A subregion mapped into a BAR: offset, priority and the region. *)
Record Subregion := {
  sub_offset : Z;
  sub_priority : Z;
  sub_mem : MemoryRegion;
}.

Record VFIOBAR := {
  bar_subregions : list Subregion;
  quirks : list VFIOQuirk;
}.

Record VFIOPCIDevice := {
  pdev : PCIDevice;
  vbasedev_name : string;
  vendor_id : Z;
  device_id : Z;
  emulated_config_bits : list Z;
  bars : list VFIOBAR;
  vga : bool;
  igd_opregion : option (list Z);
  igd_gms : Z;
  rom_read_failed : bool;
}.

(** What sits at a bus address of the root bus: the passthrough device
    itself (the C code compares pointers with [&vdev->pdev]) or another
    device. *)
Inductive bus_dev :=
| TheVfioDevice
| Companion (d : PCIDevice).

(** A [PCIDevice *] as returned by [pci_find_device]. *)
Inductive dev_ptr :=
| PtrVdev
| PtrBus (fn : Z).

(** Everything the quirk code does that leaves the function: calls into the
    kernel interface, device creation, diagnostics and trace points, in
    program order. *)
Inductive Event :=
| EvDevRegionInfo (type subtype : Z)
| EvRegionInfo (index : Z)
| EvPread (count offset : Z)
| EvReadConfig (addr len : Z)
| EvPopulateVga
| EvCreateSimple (fn : Z) (name : string)
| EvFatal (e : Error)
| EvErrorReport (msg : string)
| EvErrorReportErr (prefix : string) (e : Error)
| EvTrace (point : string) (name : string) (args : list Z).

Record World := {
  vdev : VFIOPCIDevice;
  bus : gmap Z bus_dev;
  fw_cfg : list (string * list Z);
  errno : Z;
  log : list Event;
}.

(** ** The kernel interface and the framework calls that consult it *)

Inductive region_query :=
| RegionFound (info : vfio_region_info)
| RegionError (ret : Z).

Inductive pread_result :=
| PreadData (data : list Z)
| PreadError (os_errno : Z).

(** The host side, fixed during device realization: the answers of the VFIO
    region queries, of raw reads on the device file, of
    [vfio_populate_vga] and of [vfio_pci_read_config]. *)
Record Kernel := {
  k_dev_region_info : Z -> Z -> region_query;
  k_region_info : Z -> region_query;
  k_pread : Z -> Z -> pread_result;
  k_populate_vga : status;
  k_read_config : Z -> Z -> Z;
}.

(** ** State passing *)

Definition M (A : Type) : Type := World -> A * World.

Definition ret {A} (a : A) : M A := fun w => (a, w).
Definition bind {A B} (m : M A) (k : A -> M B) : M B :=
  fun w => let (a, w') := m w in k a w'.
Definition gets {A} (f : World -> A) : M A := fun w => (f w, w).
Definition modify (f : World -> World) : M unit := fun w => (tt, f w).

Declare Scope io_scope.
Delimit Scope io_scope with io.
Notation "x <- m ;; k" := (bind m (fun x => k))
  (at level 100, m at next level, right associativity) : io_scope.
Notation "m ;; k" := (bind m (fun _ => k))
  (at level 100, right associativity) : io_scope.
Local Open Scope io_scope.

(** Field updates (C assignments through [vdev->...]). *)
Definition set_config (c : list Z) (d : PCIDevice) : PCIDevice :=
  {| devfn := devfn d; qom_types := qom_types d; config := c; wmask := wmask d;
     hotplugged := hotplugged d; romfile := romfile d |}.
Definition set_wmask (m : list Z) (d : PCIDevice) : PCIDevice :=
  {| devfn := devfn d; qom_types := qom_types d; config := config d; wmask := m;
     hotplugged := hotplugged d; romfile := romfile d |}.

Definition set_pdev (d : PCIDevice) (v : VFIOPCIDevice) : VFIOPCIDevice :=
  {| pdev := d; vbasedev_name := vbasedev_name v; vendor_id := vendor_id v;
     device_id := device_id v; emulated_config_bits := emulated_config_bits v;
     bars := bars v; vga := vga v; igd_opregion := igd_opregion v;
     igd_gms := igd_gms v; rom_read_failed := rom_read_failed v |}.
Definition set_emulated_config_bits (b : list Z) (v : VFIOPCIDevice) : VFIOPCIDevice :=
  {| pdev := pdev v; vbasedev_name := vbasedev_name v; vendor_id := vendor_id v;
     device_id := device_id v; emulated_config_bits := b;
     bars := bars v; vga := vga v; igd_opregion := igd_opregion v;
     igd_gms := igd_gms v; rom_read_failed := rom_read_failed v |}.
Definition set_bars (b : list VFIOBAR) (v : VFIOPCIDevice) : VFIOPCIDevice :=
  {| pdev := pdev v; vbasedev_name := vbasedev_name v; vendor_id := vendor_id v;
     device_id := device_id v; emulated_config_bits := emulated_config_bits v;
     bars := b; vga := vga v; igd_opregion := igd_opregion v;
     igd_gms := igd_gms v; rom_read_failed := rom_read_failed v |}.
Definition set_vga (b : bool) (v : VFIOPCIDevice) : VFIOPCIDevice :=
  {| pdev := pdev v; vbasedev_name := vbasedev_name v; vendor_id := vendor_id v;
     device_id := device_id v; emulated_config_bits := emulated_config_bits v;
     bars := bars v; vga := b; igd_opregion := igd_opregion v;
     igd_gms := igd_gms v; rom_read_failed := rom_read_failed v |}.
Definition set_igd_opregion (o : option (list Z)) (v : VFIOPCIDevice) : VFIOPCIDevice :=
  {| pdev := pdev v; vbasedev_name := vbasedev_name v; vendor_id := vendor_id v;
     device_id := device_id v; emulated_config_bits := emulated_config_bits v;
     bars := bars v; vga := vga v; igd_opregion := o;
     igd_gms := igd_gms v; rom_read_failed := rom_read_failed v |}.
Definition set_rom_read_failed (b : bool) (v : VFIOPCIDevice) : VFIOPCIDevice :=
  {| pdev := pdev v; vbasedev_name := vbasedev_name v; vendor_id := vendor_id v;
     device_id := device_id v; emulated_config_bits := emulated_config_bits v;
     bars := bars v; vga := vga v; igd_opregion := igd_opregion v;
     igd_gms := igd_gms v; rom_read_failed := b |}.

Definition with_vdev (f : VFIOPCIDevice -> VFIOPCIDevice) (w : World) : World :=
  {| vdev := f (vdev w); bus := bus w; fw_cfg := fw_cfg w; errno := errno w;
     log := log w |}.
Definition with_bus (f : gmap Z bus_dev -> gmap Z bus_dev) (w : World) : World :=
  {| vdev := vdev w; bus := f (bus w); fw_cfg := fw_cfg w; errno := errno w;
     log := log w |}.
Definition with_fw_cfg (f : list (string * list Z) -> list (string * list Z))
    (w : World) : World :=
  {| vdev := vdev w; bus := bus w; fw_cfg := f (fw_cfg w); errno := errno w;
     log := log w |}.
Definition with_errno (e : Z) (w : World) : World :=
  {| vdev := vdev w; bus := bus w; fw_cfg := fw_cfg w; errno := e; log := log w |}.
Definition with_log (f : list Event -> list Event) (w : World) : World :=
  {| vdev := vdev w; bus := bus w; fw_cfg := fw_cfg w; errno := errno w;
     log := f (log w) |}.

Definition emit (e : Event) : M unit := modify (with_log (fun l => l ++ [e])).
Definition modify_vdev (f : VFIOPCIDevice -> VFIOPCIDevice) : M unit :=
  modify (with_vdev f).

(** ** Byte arrays *)

(** The [n] low bytes of [v], least significant first. *)
Fixpoint le_bytes (n : nat) (v : Z) : list Z :=
  match n with
  | O => []
  | S n' => v mod 256 :: le_bytes n' (v / 256)
  end.

(** [memcpy]-like store of [bs] at index [addr]. *)
Fixpoint store_bytes (mem : list Z) (addr : nat) (bs : list Z) : list Z :=
  match bs with
  | [] => mem
  | b :: bs' => store_bytes (<[addr := b]> mem) (S addr) bs'
  end.

(** Little-endian load of [n] bytes at index [addr]; [None] out of range. *)
Fixpoint load_le (mem : list Z) (addr : nat) (n : nat) : option Z :=
  match n with
  | O => Some 0
  | S n' =>
      match mem !! addr, load_le mem (S addr) n' with
      | Some b, Some hi => Some (b + 256 * hi)
      | _, _ => None
      end
  end.

(** Modelled from the spec: the config-space accessors of hw/pci/pci.h (not
    under src/); PCI config space is little-endian, [pci_set_long] stores 4
    bytes and [pci_set_quad] 8 ("width 4 or 8 bytes"). *)
Definition pci_set_long (mem : list Z) (addr : Z) (val : Z) : list Z :=
  store_bytes mem (Z.to_nat addr) (le_bytes 4 (to_u32 val)).
Definition pci_set_quad (mem : list Z) (addr : Z) (val : Z) : list Z :=
  store_bytes mem (Z.to_nat addr) (le_bytes 8 (to_u64 val)).
Definition pci_get_word (mem : list Z) (addr : Z) : option Z :=
  load_le mem (Z.to_nat addr) 2.
Definition pci_get_long (mem : list Z) (addr : Z) : option Z :=
  load_le mem (Z.to_nat addr) 4.
Definition pci_get_quad (mem : list Z) (addr : Z) : option Z :=
  load_le mem (Z.to_nat addr) 8.

(** Modelled from the spec: [cpu_to_le64] of qemu/bswap.h (not under src/)
    followed by the store through [uint64_t *]: the 8 bytes in memory are
    the "little-endian 64-bit value". *)
Definition cpu_to_le64 (v : Z) : list Z := le_bytes 8 (to_u64 v).

(** Modelled from the spec: [fw_cfg_add_file] of hw/nvram/fw_cfg.c (not under
    src/): a "firmware configuration file entry (name to byte blob)" of [len]
    bytes is added. *)
Definition fw_cfg_add_file (name : string) (data : list Z) (len : Z) : M unit :=
  modify (with_fw_cfg (fun f => f ++ [(name, take (Z.to_nat len) data)])).

(** ** Calls into the kernel interface *)

(** [pread(vdev->vbasedev.fd, buf, count, offset)]: the return value and the
    bytes transferred (at most [count]); a failure returns -1 and sets
    [errno]. *)
Definition pread (K : Kernel) (count offset : Z) : M (Z * list Z) :=
  emit (EvPread count offset);;
  match k_pread K offset count with
  | PreadData data =>
      let got := take (Z.to_nat count) data in
      ret (Z.of_nat (length got), got)
  | PreadError e =>
      modify (with_errno e);;
      ret (-1, [])
  end.

(** [vfio_get_dev_region_info]: 0 and a descriptor, or a nonzero error
    code ([RegionError] carries that code). *)
Definition vfio_get_dev_region_info (K : Kernel) (type subtype : Z) : M region_query :=
  emit (EvDevRegionInfo type subtype);;
  ret (k_dev_region_info K type subtype).

Definition vfio_get_region_info (K : Kernel) (index : Z) : M region_query :=
  emit (EvRegionInfo index);;
  ret (k_region_info K index).

(** [vfio_pci_read_config], whose result is a [uint32_t]. *)
Definition vfio_pci_read_config (K : Kernel) (addr len : Z) : M Z :=
  emit (EvReadConfig addr len);;
  ret (to_u32 (k_read_config K addr len)).

(** [vfio_populate_vga]: on success [vdev->vga] is set. *)
Definition vfio_populate_vga (K : Kernel) : M status :=
  emit EvPopulateVga;;
  match k_populate_vga K with
  | Success => modify_vdev (set_vga true);; ret Success
  | Failure e => ret (Failure e)
  end.

(** ** igd.c *)

(** [igd_gen]: the device is presumed to be an Intel VGA device; bits 11:1
    are matched first, then the top byte. *)
Definition igd_gen (vdev : VFIOPCIDevice) : Z :=
  if Z.land (device_id vdev) 0xffe =? 0xa84 then 9
  else
    match Z.land (device_id vdev) 0xff00 with
    | 0x0100 => 6
    | 0x0400 | 0x0a00 | 0x0c00 | 0x0d00 | 0x0f00 => 7
    | 0x1600 | 0x2200 => 8
    | 0x1900 | 0x3100 | 0x5900 | 0x3e00 | 0x9B00 => 9
    | 0x8A00 | 0x4500 | 0x4E00 => 11
    | 0x9A00 | 0x4C00 | 0x4600 | 0xA700 => 12
    | _ => -1
    end.

(** [igd_stolen_memory_size]: [gms] is a [uint64_t], so every product and
    sum is reduced modulo 2^64. *)
Definition igd_stolen_memory_size (gen : Z) (gmch : Z) : Z :=
  let gms :=
    if gen <? 8
    then to_u64 (Z.land (Z.shiftr gmch IGD_GMCH_GEN6_GMS_SHIFT) IGD_GMCH_GEN6_GMS_MASK)
    else to_u64 (Z.land (Z.shiftr gmch IGD_GMCH_GEN8_GMS_SHIFT) IGD_GMCH_GEN8_GMS_MASK) in
  if gen <? 9 then
    to_u64 (to_u64 (gms * 32) * MiB)
  else if gms <? 0xf0 then
    to_u64 (to_u64 (gms * 32) * MiB)
  else
    to_u64 (to_u64 (to_u64 (to_u64 (gms - 0xf0) + 1) * 4) * MiB).

(** Writing [data] over the start of [buf], as a read into [buf] does. *)
Definition overwrite (data buf : list Z) : list Z :=
  data ++ drop (length data) buf.

(** [g_malloc0] of GLib (a library, not code of this repository): a buffer of
    [n] zero bytes, and [NULL] when [n] is 0. *)
Definition g_malloc0 (n : Z) : option (list Z) :=
  if n =? 0 then None else Some (replicate (Z.to_nat n) 0).

Section WithKernel.

Variable K : Kernel.

Definition vfio_pci_igd_opregion_init (info : vfio_region_info) : M status :=
  modify_vdev (set_igd_opregion (g_malloc0 (info_size info)));;
  r <- pread K (info_size info) (info_offset info);;
  modify_vdev (fun v => set_igd_opregion (overwrite (snd r) <$> igd_opregion v) v);;
  let ret_ := to_int (fst r) in
  if negb (to_u64 ret_ =? info_size info) then
    modify_vdev (set_igd_opregion None);;
    ret (Failure (error_setg "failed to read IGD OpRegion"))
  else
    buf <- gets (fun w => igd_opregion (vdev w));;
    fw_cfg_add_file "etc/igd-opregion" (default [] buf) (info_size info);;
    name <- gets (fun w => vbasedev_name (vdev w));;
    emit (EvTrace "vfio_pci_igd_opregion_enabled" name []);;
    modify_vdev (fun v =>
      set_pdev (set_config (pci_set_long (config (pdev v)) IGD_ASLS 0) (pdev v)) v);;
    modify_vdev (fun v =>
      set_pdev (set_wmask (pci_set_long (wmask (pdev v)) IGD_ASLS (Z.lnot 0)) (pdev v)) v);;
    modify_vdev (fun v =>
      set_emulated_config_bits
        (pci_set_long (emulated_config_bits v) IGD_ASLS (Z.lnot 0)) v);;
    ret Success.

Definition vfio_pci_igd_setup_opregion : M status :=
  hp <- gets (fun w => hotplugged (pdev (vdev w)));;
  if hp then
    ret (Failure (error_setg "IGD OpRegion is not supported on hotplugged device"))
  else
    q <- vfio_get_dev_region_info K
           (Z.lor VFIO_REGION_TYPE_PCI_VENDOR_TYPE PCI_VENDOR_ID_INTEL)
           VFIO_REGION_SUBTYPE_INTEL_IGD_OPREGION;;
    match q with
    | RegionError r =>
        ret (Failure (error_setg_errno (- r)
               "Device does not supports IGD OpRegion feature"))
    | RegionFound opregion =>
        s <- vfio_pci_igd_opregion_init opregion;;
        match s with
        | Failure e => ret (Failure e)
        | Success => ret Success
        end
    end.

(** [IGDHostInfo] and the two register lists. *)
Record IGDHostInfo := {
  hi_offset : Z;
  hi_len : Z;
}.

Definition igd_host_bridge_infos : list IGDHostInfo :=
  [ {| hi_offset := PCI_REVISION_ID; hi_len := 2 |};
    {| hi_offset := PCI_SUBSYSTEM_VENDOR_ID; hi_len := 2 |};
    {| hi_offset := PCI_SUBSYSTEM_ID; hi_len := 2 |} ].

Definition igd_lpc_bridge_infos : list IGDHostInfo :=
  [ {| hi_offset := PCI_VENDOR_ID; hi_len := 2 |};
    {| hi_offset := PCI_DEVICE_ID; hi_len := 2 |};
    {| hi_offset := PCI_REVISION_ID; hi_len := 2 |};
    {| hi_offset := PCI_SUBSYSTEM_VENDOR_ID; hi_len := 2 |};
    {| hi_offset := PCI_SUBSYSTEM_ID; hi_len := 2 |} ].

(** Modelled from the spec: [pci_find_device] of hw/pci/pci.c (not under
    src/), the "bus topology lookup: find device at (bus, device-function)
    address" on the root bus (bus number 0). *)
Definition pci_find_device (fn : Z) : M (option dev_ptr) :=
  gets (fun w =>
    match bus w !! fn with
    | Some TheVfioDevice => Some PtrVdev
    | Some (Companion _) => Some (PtrBus fn)
    | None => None
    end).

(** The device a pointer designates. *)
Definition deref (w : World) (p : dev_ptr) : option PCIDevice :=
  match p with
  | PtrVdev => Some (pdev (vdev w))
  | PtrBus fn =>
      match bus w !! fn with
      | Some (Companion d) => Some d
      | _ => None
      end
  end.

(** Modelled from the spec: [object_dynamic_cast] of qom/object.c (not
    under src/): whether the object "is an instance of" the named type. *)
Definition object_dynamic_cast (p : dev_ptr) (typename : string) : M bool :=
  gets (fun w =>
    match deref w p with
    | Some d => bool_decide (typename ∈ qom_types d)
    | None => false
    end).

(** A store of [data] at [pdev->config + off] through a device pointer. *)
Definition write_config (p : dev_ptr) (off : Z) (data : list Z) : M unit :=
  match p with
  | PtrVdev =>
      modify_vdev (fun v =>
        set_pdev (set_config (store_bytes (config (pdev v)) (Z.to_nat off) data)
                    (pdev v)) v)
  | PtrBus fn =>
      modify (with_bus (alter (fun b =>
        match b with
        | Companion d =>
            Companion (set_config (store_bytes (config d) (Z.to_nat off) data) d)
        | TheVfioDevice => TheVfioDevice
        end) fn))
  end.

Fixpoint vfio_pci_igd_copy (p : dev_ptr) (info : vfio_region_info)
    (list_ : list IGDHostInfo) : M Z :=
  match list_ with
  | [] => ret 0
  | e :: rest =>
      r <- pread K (hi_len e) (to_u64 (info_offset info + hi_offset e));;
      write_config p (hi_offset e) (snd r);;
      if negb (to_int (fst r) =? hi_len e) then
        emit (EvErrorReport "IGD copy failed: %m");;
        en <- gets errno;;
        ret (to_int (- en))
      else
        vfio_pci_igd_copy p info rest
  end.

Definition vfio_pci_igd_host_init (info : vfio_region_info) : M Z :=
  host_bridge <- pci_find_device (PCI_DEVFN 0 0);;
  match host_bridge with
  | None =>
      emit (EvErrorReport "Can't find host bridge");;
      ret (- ENODEV)
  | Some hb =>
      r <- vfio_pci_igd_copy hb info igd_host_bridge_infos;;
      (if r =? 0 then
         name <- gets (fun w => vbasedev_name (vdev w));;
         emit (EvTrace "vfio_pci_igd_host_bridge_enabled" name [])
       else ret tt);;
      ret r
  end.

(** [vfio_pci_igd_lpc_bridge_realize]. *)
Definition vfio_pci_igd_lpc_bridge_realize (pd : PCIDevice) : status :=
  if negb (devfn pd =? PCI_DEVFN 0x1f 0) then
    Failure (error_setg "VFIO dummy ISA/LPC bridge must have address 1f.0")
  else Success.

(** [vfio_pci_igd_lpc_bridge_info]: the type name, then its parent
    [TYPE_PCI_DEVICE] and that type's ancestors. *)
Definition vfio_pci_igd_lpc_bridge_info : list string :=
  ["vfio-pci-igd-lpc-bridge"; "pci-device"; "device"; "object"].

(** Modelled from the spec: [pci_create_simple] of hw/pci/pci.c (not under
    src/), "create device of a named type at that address": a device of
    the one type igd.c registers, with a zeroed config space carrying the
    class code of the type, is realized and plugged; a realize error is
    fatal. *)
Definition pci_create_simple (fn : Z) (name : string) : M dev_ptr :=
  emit (EvCreateSimple fn name);;
  let size := Z.to_nat PCI_CONFIG_SPACE_SIZE in
  let d := {| devfn := fn; qom_types := vfio_pci_igd_lpc_bridge_info;
              config := store_bytes (replicate size 0)
                          (Z.to_nat PCI_CLASS_DEVICE)
                          (le_bytes 2 PCI_CLASS_BRIDGE_ISA);
              wmask := replicate size 0;
              hotplugged := false; romfile := None |} in
  match vfio_pci_igd_lpc_bridge_realize d with
  | Failure e => emit (EvFatal e);; ret (PtrBus fn)
  | Success => modify (with_bus (insert fn (Companion d)));; ret (PtrBus fn)
  end.

Definition vfio_pci_igd_lpc_init (info : vfio_region_info) : M Z :=
  found <- pci_find_device (PCI_DEVFN 0x1f 0);;
  lpc_bridge <-
    match found with
    | Some p => ret p
    | None => pci_create_simple (PCI_DEVFN 0x1f 0) "vfio-pci-igd-lpc-bridge"
    end;;
  r <- vfio_pci_igd_copy lpc_bridge info igd_lpc_bridge_infos;;
  (if r =? 0 then
     name <- gets (fun w => vbasedev_name (vdev w));;
     emit (EvTrace "vfio_pci_igd_lpc_bridge_enabled" name [])
   else ret tt);;
  ret r.

Definition vfio_pci_igd_setup_lpc_bridge : M status :=
  hp <- gets (fun w => hotplugged (pdev (vdev w)));;
  if hp then
    ret (Failure (error_setg "IGD LPC is not supported on hotplugged device"))
  else
    lpc_bridge <- pci_find_device (PCI_DEVFN 0x1f 0);;
    foreign <-
      match lpc_bridge with
      | Some p =>
          is_ours <- object_dynamic_cast p "vfio-pci-igd-lpc-bridge";;
          ret (negb is_ours)
      | None => ret false
      end;;
    if foreign then
      ret (Failure (error_setg
             "Cannot create LPC bridge due to existing device at 1f.0"))
    else
      ql <- vfio_get_dev_region_info K
              (Z.lor VFIO_REGION_TYPE_PCI_VENDOR_TYPE PCI_VENDOR_ID_INTEL)
              VFIO_REGION_SUBTYPE_INTEL_IGD_LPC_CFG;;
      match ql with
      | RegionError _ =>
          ret (Failure (error_setg
                 "IGD LPC bridge access is not supported by kernel"))
      | RegionFound lpc =>
          qh <- vfio_get_dev_region_info K
                  (Z.lor VFIO_REGION_TYPE_PCI_VENDOR_TYPE PCI_VENDOR_ID_INTEL)
                  VFIO_REGION_SUBTYPE_INTEL_IGD_HOST_CFG;;
          match qh with
          | RegionError _ =>
              ret (Failure (error_setg
                     "IGD host bridge access is not supported by kernel"))
          | RegionFound host =>
              r <- vfio_pci_igd_lpc_init lpc;;
              if negb (r =? 0) then
                ret (Failure (error_setg
                       "Failed to create/modify LPC bridge for IGD"))
              else
                r' <- vfio_pci_igd_host_init host;;
                if negb (r' =? 0) then
                  ret (Failure (error_setg "Failed to modify host bridge for IGD"))
                else ret Success
          end
      end.

(** Modelled from the spec: [vfio_pci_is] and [vfio_is_vga] of
    hw/vfio/pci.h (not under src/): "device must be Intel-vendor,
    VGA-class"; an ID matches when it is the wildcard or the device's own,
    and the class is the class word of config space. *)
Definition vfio_pci_is (v : VFIOPCIDevice) (vendor device : Z) : bool :=
  ((vendor =? PCI_ANY_ID) || (vendor =? vendor_id v)) &&
  ((device =? PCI_ANY_ID) || (device =? device_id v)).

Definition vfio_is_vga (v : VFIOPCIDevice) : bool :=
  bool_decide (pci_get_word (config (pdev v)) PCI_CLASS_DEVICE
               = Some PCI_CLASS_DISPLAY_VGA).

(** [&vdev->pdev == p]. *)
Definition is_vdev (p : option dev_ptr) : bool :=
  match p with
  | Some PtrVdev => true
  | _ => false
  end.

(** [memory_region_add_subregion_overlap] on a BAR's region and
    [QLIST_INSERT_HEAD] on its quirk list. *)
Definition add_subregion_overlap (off : Z) (mr : MemoryRegion) (prio : Z)
    (b : VFIOBAR) : VFIOBAR :=
  {| bar_subregions :=
       bar_subregions b ++
         [{| sub_offset := off; sub_priority := prio; sub_mem := mr |}];
     quirks := quirks b |}.

Definition quirk_insert_head (q : VFIOQuirk) (b : VFIOBAR) : VFIOBAR :=
  {| bar_subregions := bar_subregions b; quirks := q :: quirks b |}.

Definition modify_bar (nr : Z) (f : VFIOBAR -> VFIOBAR) : M unit :=
  modify_vdev (fun v => set_bars (alter f (Z.to_nat nr) (bars v)) v).

(** The first checks of both BAR quirks: an Intel VGA device, the expected
    BAR, and the device found at 00:02.0 is [vdev] itself. *)
Definition igd_legacy_candidate (expected_nr nr : Z) : M bool :=
  v <- gets vdev;;
  at_02 <- pci_find_device (PCI_DEVFN 0x2 0);;
  ret (negb (negb (vfio_pci_is v PCI_VENDOR_ID_INTEL PCI_ANY_ID) ||
             negb (vfio_is_vga v) || negb (nr =? expected_nr) ||
             negb (is_vdev at_02))).

Definition vfio_probe_igd_bar0_quirk (nr : Z) : M unit :=
  ok <- igd_legacy_candidate 0 nr;;
  if negb ok then ret tt
  else
    v <- gets vdev;;
    let gen := igd_gen v in
    if gen <? 6 then ret tt
    else
      let ggc_mem := {| mr_name := "vfio-igd-ggc-quirk";
                        mr_ops := "vfio_generic_mirror_quirk";
                        mr_size := 2 |} in
      let ggc_mirror := {| mirror_mem := ggc_mem; mirror_bar := nr;
                           mirror_offset := IGD_GGC_MMIO_OFFSET;
                           mirror_config_offset := IGD_GMCH |} in
      let ggc_quirk := {| quirk_data := ggc_mirror; quirk_nr_mem := 1 |} in
      modify_bar nr (add_subregion_overlap (mirror_offset ggc_mirror) ggc_mem 1);;
      modify_bar nr (quirk_insert_head ggc_quirk);;
      let bdsm_mem := {| mr_name := "vfio-igd-bdsm-quirk";
                         mr_ops := "vfio_generic_mirror_quirk";
                         mr_size := if gen <? 11 then 4 else 8 |} in
      let bdsm_mirror := {| mirror_mem := bdsm_mem; mirror_bar := nr;
                            mirror_offset := IGD_BDSM_MMIO_OFFSET;
                            mirror_config_offset :=
                              if gen <? 11 then IGD_BDSM else IGD_BDSM_GEN11 |} in
      let bdsm_quirk := {| quirk_data := bdsm_mirror; quirk_nr_mem := 1 |} in
      modify_bar nr (add_subregion_overlap (mirror_offset bdsm_mirror) bdsm_mem 1);;
      modify_bar nr (quirk_insert_head bdsm_quirk).

Definition newline : string := String (Ascii.ascii_of_nat 10) EmptyString.

(** [vfio_probe_igd_bar4_quirk], first part (the checks and the setup
    steps, up to the LPC bridge): [Some (gen, gmch)] when the function goes
    on to the [x-igd-gms] override, [None] when it has returned. *)
Definition igd_bar4_setup (nr : Z) : M (option (Z * Z)) :=
  ok <- igd_legacy_candidate 4 nr;;
  if negb ok then ret None
  else
    v <- gets vdev;;
    let name := vbasedev_name v in
    let gen := igd_gen v in
    if gen =? -1 then
      emit (EvErrorReport ("IGD device " ++ name ++
              " is unsupported in legacy mode, try SandyBridge or newer"));;
      ret None
    else
      rom <- vfio_get_region_info K VFIO_PCI_ROM_REGION_INDEX;;
      let no_rom := match rom with
                    | RegionError _ => true
                    | RegionFound info => info_size info =? 0
                    end in
      if no_rom && negb (bool_decide (is_Some (romfile (pdev v)))) then
        emit (EvErrorReport ("IGD device " ++ name ++
                " has no ROM, legacy mode disabled"));;
        ret None
      else if hotplugged (pdev v) then
        emit (EvErrorReport ("IGD device " ++ name ++
                " hotplugged, ROM disabled, legacy mode disabled"));;
        modify_vdev (set_rom_read_failed true);;
        ret None
      else
        gmch <- vfio_pci_read_config K IGD_GMCH 4;;
        has_vga <- gets (fun w => vga (vdev w));;
        vga_st <- (if (Z.land gmch 0x2 =? 0) && negb has_vga
                   then vfio_populate_vga K else ret Success);;
        match vga_st with
        | Failure err =>
            emit (EvErrorReportErr ("vfio " ++ name ++ ": ") err);;
            emit (EvErrorReport ("IGD device " ++ name ++
                    " failed to enable VGA access, legacy mode disabled"));;
            ret None
        | Success =>
            op <- vfio_pci_igd_setup_opregion;;
            match op with
            | Failure err =>
                emit (EvErrorReportErr EmptyString
                        (error_append_hint err
                           ("IGD legacy mode disabled" ++ newline)));;
                ret None
            | Success =>
                lpc <- vfio_pci_igd_setup_lpc_bridge;;
                match lpc with
                | Failure err =>
                    emit (EvErrorReportErr EmptyString
                            (error_append_hint err
                               ("IGD legacy mode disabled" ++ newline)));;
                    ret None
                | Success => ret (Some (gen, gmch))
                end
            end
        end.

(** Second part: the [x-igd-gms] override of the GMS field of [gmch]
    ([vdev->igd_gms] and [gmch] are [uint32_t]). *)
Definition igd_bar4_override (gen gmch : Z) : M Z :=
  gms <- gets (fun w => igd_gms (vdev w));;
  if negb (gms =? 0) then
    if gen <? 8 then
      if gms <=? 0x10 then
        let gmch1 := Z.land gmch (to_u32 (Z.lnot
                       (Z.shiftl IGD_GMCH_GEN6_GMS_MASK IGD_GMCH_GEN6_GMS_SHIFT))) in
        ret (Z.lor gmch1 (to_u32 (Z.shiftl gms IGD_GMCH_GEN6_GMS_SHIFT)))
      else
        emit (EvErrorReport "Parameter 'x-igd-gms' expects 0~0x10");;
        ret gmch
    else
      if gms <=? 0x40 then
        let gmch1 := Z.land gmch (to_u32 (Z.lnot
                       (Z.shiftl IGD_GMCH_GEN8_GMS_MASK IGD_GMCH_GEN8_GMS_SHIFT))) in
        ret (Z.lor gmch1 (to_u32 (Z.shiftl gms IGD_GMCH_GEN8_GMS_SHIFT)))
      else
        emit (EvErrorReport "Parameter 'x-igd-gms' expects 0~0x40");;
        ret gmch
  else ret gmch.

(** Third part: the stolen-memory size goes to fw_cfg, GMCH becomes
    read-only and emulated, BDSM read-write and emulated. *)
Definition igd_bar4_publish (gen gmch : Z) : M unit :=
  let gms_size := igd_stolen_memory_size gen gmch in
  fw_cfg_add_file "etc/igd-bdsm-size" (cpu_to_le64 gms_size) 8;;
  modify_vdev (fun v =>
    set_pdev (set_config (pci_set_long (config (pdev v)) IGD_GMCH gmch) (pdev v)) v);;
  modify_vdev (fun v =>
    set_pdev (set_wmask (pci_set_long (wmask (pdev v)) IGD_GMCH 0) (pdev v)) v);;
  modify_vdev (fun v =>
    set_emulated_config_bits
      (pci_set_long (emulated_config_bits v) IGD_GMCH (Z.lnot 0)) v);;
  (if gen <? 11 then
     modify_vdev (fun v =>
       set_pdev (set_config (pci_set_long (config (pdev v)) IGD_BDSM 0) (pdev v)) v);;
     modify_vdev (fun v =>
       set_pdev (set_wmask (pci_set_long (wmask (pdev v)) IGD_BDSM (Z.lnot 0))
                   (pdev v)) v);;
     modify_vdev (fun v =>
       set_emulated_config_bits
         (pci_set_long (emulated_config_bits v) IGD_BDSM (Z.lnot 0)) v)
   else
     modify_vdev (fun v =>
       set_pdev (set_config (pci_set_quad (config (pdev v)) IGD_BDSM_GEN11 0)
                   (pdev v)) v);;
     modify_vdev (fun v =>
       set_pdev (set_wmask (pci_set_quad (wmask (pdev v)) IGD_BDSM_GEN11 (Z.lnot 0))
                   (pdev v)) v);;
     modify_vdev (fun v =>
       set_emulated_config_bits
         (pci_set_quad (emulated_config_bits v) IGD_BDSM_GEN11 (Z.lnot 0)) v));;
  name <- gets (fun w => vbasedev_name (vdev w));;
  emit (EvTrace "vfio_pci_igd_bdsm_enabled" name [gms_size / MiB]).

Definition vfio_probe_igd_bar4_quirk (nr : Z) : M unit :=
  st <- igd_bar4_setup nr;;
  match st with
  | None => ret tt
  | Some (gen, gmch) =>
      gmch' <- igd_bar4_override gen gmch;;
      igd_bar4_publish gen gmch'
  end.

End WithKernel.

(** ** A concrete machine, used to run the model *)

Module Sample.

(** A 256-byte config space whose class word says VGA. *)
Definition vga_config : list Z :=
  store_bytes (replicate 256 0) (Z.to_nat PCI_CLASS_DEVICE)
    (le_bytes 2 PCI_CLASS_DISPLAY_VGA).

Definition igd_pdev (hot : bool) : PCIDevice :=
  {| devfn := PCI_DEVFN 0x2 0; qom_types := ["vfio-pci"; "pci-device"; "device"; "object"];
     config := vga_config; wmask := replicate 256 0;
     hotplugged := hot; romfile := None |}.

Definition igd (id gms : Z) (hot : bool) : VFIOPCIDevice :=
  {| pdev := igd_pdev hot; vbasedev_name := "0000:00:02.0";
     vendor_id := PCI_VENDOR_ID_INTEL; device_id := id;
     emulated_config_bits := replicate 256 0;
     bars := replicate 6 {| bar_subregions := []; quirks := [] |};
     vga := false; igd_opregion := None; igd_gms := gms;
     rom_read_failed := false |}.

Definition bridge (fn : Z) (types : list string) : PCIDevice :=
  {| devfn := fn; qom_types := types; config := replicate 256 0;
     wmask := replicate 256 0; hotplugged := false; romfile := None |}.

Definition host_bridge : PCIDevice :=
  bridge (PCI_DEVFN 0 0) ["i440FX"; "pci-device"; "device"; "object"].

(** An ISA bridge that is not the companion type (as on Q35). *)
Definition foreign_lpc : PCIDevice :=
  bridge (PCI_DEVFN 0x1f 0) ["ICH9-LPC"; "pci-device"; "device"; "object"].

(** A machine with the IGD at 00:02.0 and a host bridge at 00:00.0. *)
Definition machine (id gms : Z) (hot : bool) : World :=
  {| vdev := igd id gms hot;
     bus := <[PCI_DEVFN 0x2 0 := TheVfioDevice]>
              (<[PCI_DEVFN 0 0 := Companion host_bridge]> ∅);
     fw_cfg := []; errno := 0; log := [] |}.

(** The same machine with a foreign device at 00:1f.0. *)
Definition machine_q35 (id gms : Z) : World :=
  with_bus (insert (PCI_DEVFN 0x1f 0) (Companion foreign_lpc)) (machine id gms false).

(** A host kernel that has every region (16 bytes each, a 64 KiB ROM),
    whose reads return the byte 0xAB, and whose GMCH register reads
    [gmch]. *)
Definition kernel (gmch : Z) : Kernel :=
  {| k_dev_region_info := fun _ subtype =>
       RegionFound {| info_size := 16; info_offset := 0x1000 * subtype |};
     k_region_info := fun _ =>
       RegionFound {| info_size := 0x10000; info_offset := 0 |};
     k_pread := fun _ count => PreadData (replicate (Z.to_nat count) 0xAB);
     k_populate_vga := Success;
     k_read_config := fun _ _ => gmch |}.

(** A host kernel whose raw reads come back one byte short. *)
Definition short_kernel (gmch : Z) : Kernel :=
  {| k_dev_region_info := k_dev_region_info (kernel gmch);
     k_region_info := k_region_info (kernel gmch);
     k_pread := fun _ count =>
       PreadData (replicate (Z.to_nat (count - 1)) 0xAB);
     k_populate_vga := Success;
     k_read_config := k_read_config (kernel gmch) |}.

End Sample.

(** ** The generation table of the specification *)

(** Top byte of the device ID and the generation listed for it. *)
Definition generation_table : list (Z * Z) :=
  [ (0x01, 6);
    (0x04, 7); (0x0a, 7); (0x0c, 7); (0x0d, 7); (0x0f, 7);
    (0x16, 8); (0x22, 8);
    (0x19, 9); (0x31, 9); (0x59, 9); (0x3e, 9); (0x9B, 9);
    (0x8A, 11); (0x45, 11); (0x4E, 11);
    (0x9A, 12); (0x4C, 12); (0x46, 12); (0xA7, 12) ].

Fixpoint table_lookup (t : list (Z * Z)) (key : Z) : option Z :=
  match t with
  | [] => None
  | (k, g) :: t' => if k =? key then Some g else table_lookup t' key
  end.

(** The listed generation of a top byte, or the unsupported sentinel. *)
Definition listed_generation (top : Z) : Z :=
  default (-1) (table_lookup generation_table top).

(** A classifier with a priority rule [special] ahead of the table. *)
Definition classify_with (special : Z -> bool) (id : Z) : Z :=
  if special id then 9 else listed_generation (Z.shiftr id 8).

(** The priority rule as the specification words it: the low [n] bits of the
    ID equal 0xa84 (the text says [n] = 11). *)
Definition low_bits_rule (n : Z) (id : Z) : bool := id mod 2 ^ n =? 0xa84.

(** The priority rule of the code: bits 11:1 of the ID are those of 0xa84,
    bit 0 is not looked at. *)
Definition bits_11_1_rule (id : Z) : bool := field 1 11 id =? field 1 11 0xa84.

(** The generations [igd_gen] can return. *)
Definition igd_generations : list Z := [-1; 6; 7; 8; 9; 11; 12].

(** The [switch] of [igd_gen], as a function of the masked ID. *)
Definition igd_gen_switch (masked : Z) : Z :=
  match masked with
  | 0x0100 => 6
  | 0x0400 | 0x0a00 | 0x0c00 | 0x0d00 | 0x0f00 => 7
  | 0x1600 | 0x2200 => 8
  | 0x1900 | 0x3100 | 0x5900 | 0x3e00 | 0x9B00 => 9
  | 0x8A00 | 0x4500 | 0x4E00 => 11
  | 0x9A00 | 0x4C00 | 0x4600 | 0xA700 => 12
  | _ => -1
  end.

(** ** Vocabulary of the stateful claims *)

(** The identity of the device, the user's override and the sizes of the
    three config-space arrays. *)
Record same_device (w w' : World) : Prop := {
  sd_device_id : device_id (vdev w') = device_id (vdev w);
  sd_vendor_id : vendor_id (vdev w') = vendor_id (vdev w);
  sd_name : vbasedev_name (vdev w') = vbasedev_name (vdev w);
  sd_igd_gms : igd_gms (vdev w') = igd_gms (vdev w);
  sd_hotplugged : hotplugged (pdev (vdev w')) = hotplugged (pdev (vdev w));
  sd_config : length (config (pdev (vdev w'))) = length (config (pdev (vdev w)));
  sd_wmask : length (wmask (pdev (vdev w'))) = length (wmask (pdev (vdev w)));
  sd_emulated : length (emulated_config_bits (vdev w'))
                = length (emulated_config_bits (vdev w));
}.

(** A computation that keeps them, from any world. *)
Definition keeps_device {A} (m : M A) : Prop :=
  forall w, same_device w (snd (m w)).

(** A size [g_malloc0] can satisfy on a 64-bit host (at most PTRDIFF_MAX);
    the program does not get past the allocation otherwise. *)
Definition allocatable (n : Z) : Prop := 0 <= n < 2 ^ 63.

(** A register-mirror binding of BAR 0: the name and width of its MMIO
    region, its offset in the BAR and the config register it mirrors. *)
Definition mirror_binding (name : string) (width mmio_offset config_offset : Z)
    : VFIOQuirk :=
  {| quirk_data :=
       {| mirror_mem := {| mr_name := name; mr_ops := "vfio_generic_mirror_quirk";
                           mr_size := width |};
          mirror_bar := 0; mirror_offset := mmio_offset;
          mirror_config_offset := config_offset |};
     quirk_nr_mem := 1 |}.

Definition ggc_binding : VFIOQuirk :=
  mirror_binding "vfio-igd-ggc-quirk" 2 0x108040 0x50.

Definition bdsm_binding (gen : Z) : VFIOQuirk :=
  if gen <? 11
  then mirror_binding "vfio-igd-bdsm-quirk" 4 0x1080C0 0x5C
  else mirror_binding "vfio-igd-bdsm-quirk" 8 0x1080C0 0xC0.

(** The overlay a binding adds to the BAR's memory region. *)
Definition binding_subregion (q : VFIOQuirk) : Subregion :=
  {| sub_offset := mirror_offset (quirk_data q); sub_priority := 1;
     sub_mem := mirror_mem (quirk_data q) |}.

(** A 32-bit word with the field of [width] bits at [shift] cleared and
    [v << shift] or-ed in, as the override does with [gmch]. *)
Definition replace_field (shift width x v : Z) : Z :=
  Z.lor (Z.land x (to_u32 (Z.lnot (Z.shiftl (Z.ones width) shift))))
        (to_u32 (Z.shiftl v shift)).

(** Position, width and largest accepted override of the GMS field, by
    generation. *)
Definition gms_shift (gen : Z) : Z := if gen <? 8 then 3 else 8.
Definition gms_width (gen : Z) : Z := if gen <? 8 then 5 else 8.
Definition gms_limit (gen : Z) : Z := if gen <? 8 then 0x10 else 0x40.

(** The diagnostic of a rejected override, the trace point of a finished
    BAR 4 quirk, and the fw_cfg entry it adds. *)
Definition gms_range_report (gen : Z) : Event :=
  EvErrorReport (if gen <? 8 then "Parameter 'x-igd-gms' expects 0~0x10"
                 else "Parameter 'x-igd-gms' expects 0~0x40").
Definition bdsm_enabled_trace (w : World) (gms_size : Z) : Event :=
  EvTrace "vfio_pci_igd_bdsm_enabled" (vbasedev_name (vdev w)) [gms_size / MiB].
Definition bdsm_size_entry (gms_size : Z) : string * list Z :=
  ("etc/igd-bdsm-size", cpu_to_le64 gms_size).

(** The three arrays cover a conventional config space. *)
Definition config_space_ok (v : VFIOPCIDevice) : Prop :=
  (Z.to_nat PCI_CONFIG_SPACE_SIZE <= length (config (pdev v)))%nat /\
  (Z.to_nat PCI_CONFIG_SPACE_SIZE <= length (wmask (pdev v)))%nat /\
  (Z.to_nat PCI_CONFIG_SPACE_SIZE <= length (emulated_config_bits v))%nat.

(** ** Vocabulary for the behaviour of the OpRegion, copy and bridge steps *)

(** The region type and subtype [vfio_pci_igd_setup_opregion] asks the
    kernel for. *)
Definition opregion_query : Z * Z :=
  (Z.lor VFIO_REGION_TYPE_PCI_VENDOR_TYPE PCI_VENDOR_ID_INTEL,
   VFIO_REGION_SUBTYPE_INTEL_IGD_OPREGION).

(** The two queries of [vfio_pci_igd_setup_lpc_bridge], in the order of the
    code. *)
Definition lpc_query : Z * Z :=
  (Z.lor VFIO_REGION_TYPE_PCI_VENDOR_TYPE PCI_VENDOR_ID_INTEL,
   VFIO_REGION_SUBTYPE_INTEL_IGD_LPC_CFG).

Definition host_query : Z * Z :=
  (Z.lor VFIO_REGION_TYPE_PCI_VENDOR_TYPE PCI_VENDOR_ID_INTEL,
   VFIO_REGION_SUBTYPE_INTEL_IGD_HOST_CFG).

(** Byte [i] of a config space lies in the register [e] of an
    [IGDHostInfo] list. *)
Definition register_bytes (e : IGDHostInfo) (i : nat) : Prop :=
  (Z.to_nat (hi_offset e) <= i < Z.to_nat (hi_offset e) + Z.to_nat (hi_len e))%nat.

(** The bytes of register [e] in a config space. *)
Definition register_of (e : IGDHostInfo) (cfg : list Z) : list Z :=
  take (Z.to_nat (hi_len e)) (drop (Z.to_nat (hi_offset e)) cfg).

(** Register [e] has an [int]-sized length and lies inside the config
    space. *)
Definition register_fits (cfg : list Z) (e : IGDHostInfo) : Prop :=
  0 <= hi_len e < 2 ^ 31 /\
  (Z.to_nat (hi_offset e) + Z.to_nat (hi_len e) <= length cfg)%nat.

(** No two registers of the list share a byte. *)
Fixpoint disjoint_registers (l : list IGDHostInfo) : Prop :=
  match l with
  | [] => True
  | e :: rest =>
      Forall (fun e' => forall i, ~ (register_bytes e i /\ register_bytes e' i)) rest /\
      disjoint_registers rest
  end.

(** The host kernel answers the read of register [e] of the region [info]
    with at least [hi_len e] bytes. *)
Definition full_read (K : Kernel) (info : vfio_region_info) (e : IGDHostInfo) : Prop :=
  exists data,
    k_pread K (to_u64 (info_offset info + hi_offset e)) (hi_len e) = PreadData data /\
    (Z.to_nat (hi_len e) <= length data)%nat.

(** The bytes the host kernel hands out for register [e]. *)
Definition kernel_bytes (K : Kernel) (info : vfio_region_info) (e : IGDHostInfo)
    : list Z :=
  match k_pread K (to_u64 (info_offset info + hi_offset e)) (hi_len e) with
  | PreadData data => take (Z.to_nat (hi_len e)) data
  | PreadError _ => []
  end.

(** The [pread] calls [vfio_pci_igd_copy] makes for a list, as log events. *)
Definition copy_reads (info : vfio_region_info) (l : list IGDHostInfo) : list Event :=
  map (fun e => EvPread (hi_len e) (to_u64 (info_offset info + hi_offset e))) l.

(** A full read of a register whose length fits [int]. *)
Definition readable (K : Kernel) (info : vfio_region_info) (e : IGDHostInfo) : Prop :=
  full_read K info e /\ 0 <= hi_len e < 2 ^ 31.

(** The read of register [e] fails or comes back short. *)
Definition bad_read (K : Kernel) (info : vfio_region_info) (e : IGDHostInfo) : Prop :=
  0 <= hi_len e < 2 ^ 31 /\
  match k_pread K (to_u64 (info_offset info + hi_offset e)) (hi_len e) with
  | PreadData data => (length data < Z.to_nat (hi_len e))%nat
  | PreadError _ => True
  end.

(** The device [pci_create_simple] puts at 00:1f.0, and the world after that
    call. *)
Definition fresh_lpc_bridge : PCIDevice :=
  {| devfn := PCI_DEVFN 0x1f 0; qom_types := vfio_pci_igd_lpc_bridge_info;
     config := store_bytes (replicate (Z.to_nat PCI_CONFIG_SPACE_SIZE) 0)
                 (Z.to_nat PCI_CLASS_DEVICE) (le_bytes 2 PCI_CLASS_BRIDGE_ISA);
     wmask := replicate (Z.to_nat PCI_CONFIG_SPACE_SIZE) 0;
     hotplugged := false; romfile := None |}.

Definition lpc_created (w : World) : World :=
  with_bus (insert (PCI_DEVFN 0x1f 0) (Companion fresh_lpc_bridge))
    (with_log (fun l => l ++ [EvCreateSimple (PCI_DEVFN 0x1f 0)
                                "vfio-pci-igd-lpc-bridge"]) w).

(** The world after a trace point, and after a device region query. *)
Definition traced (point : string) (w : World) : World :=
  with_log (fun l => l ++ [EvTrace point (vbasedev_name (vdev w)) []]) w.

Definition queried (q : Z * Z) (w : World) : World :=
  with_log (fun l => l ++ [EvDevRegionInfo (fst q) (snd q)]) w.

(** The slot test of bridge setup: a device is at 00:1f.0 and it is not of
    the companion bridge type. *)
Definition lpc_slot_foreign (w : World) : bool :=
  match bus w !! PCI_DEVFN 0x1f 0 with
  | Some TheVfioDevice =>
      negb (bool_decide ("vfio-pci-igd-lpc-bridge" ∈ qom_types (pdev (vdev w))))
  | Some (Companion d) =>
      negb (bool_decide ("vfio-pci-igd-lpc-bridge" ∈ qom_types d))
  | None => false
  end.

(** A log event of a device region query; a query the kernel refuses. *)
Definition is_region_query (ev : Event) : Prop :=
  match ev with
  | EvDevRegionInfo _ _ => True
  | _ => False
  end.

Definition region_missing (K : Kernel) (q : Z * Z) : Prop :=
  match k_dev_region_info K (fst q) (snd q) with
  | RegionError _ => True
  | RegionFound _ => False
  end.

(** Everything a successful bridge setup logs when the bridge at 00:1f.0 is
    already there: the two queries, the reads of the LPC registers, its trace
    point, the reads of the host bridge registers, its trace point. *)
Definition lpc_bridge_steps (name : string) (lpc host : vfio_region_info)
    : list Event :=
  [EvDevRegionInfo (fst lpc_query) (snd lpc_query);
   EvDevRegionInfo (fst host_query) (snd host_query)]
  ++ copy_reads lpc igd_lpc_bridge_infos
  ++ [EvTrace "vfio_pci_igd_lpc_bridge_enabled" name []]
  ++ copy_reads host igd_host_bridge_infos
  ++ [EvTrace "vfio_pci_igd_host_bridge_enabled" name []].

(** ** Vocabulary for the stages of the BAR 4 quirk *)

(** The ROM test of the BAR 4 quirk: the ROM region query fails or reports
    size 0, and no [romfile] is set. *)
Definition rom_missing (K : Kernel) (w : World) : bool :=
  match k_region_info K VFIO_PCI_ROM_REGION_INDEX with
  | RegionError _ => true
  | RegionFound info => info_size info =? 0
  end && negb (bool_decide (is_Some (romfile (pdev (vdev w))))).

(** The report of a failed OpRegion or bridge step. *)
Definition legacy_hint (err : Error) : Event :=
  EvErrorReportErr EmptyString
    (error_append_hint err ("IGD legacy mode disabled" ++ newline)).

(** The world once the ROM region was queried and GMCH was read from the
    host, and the value read. *)
Definition gmch_read (K : Kernel) (w : World) : World :=
  with_log (fun l => l ++ [EvRegionInfo VFIO_PCI_ROM_REGION_INDEX;
                           EvReadConfig IGD_GMCH 4]) w.

Definition host_gmch (K : Kernel) : Z := to_u32 (k_read_config K IGD_GMCH 4).

(** The VGA step: [vfio_populate_vga] is called when GMCH bit 1 is clear and
    the device has no VGA state yet. *)
Definition vga_step (K : Kernel) (w : World) : status * World :=
  if (Z.land (host_gmch K) 0x2 =? 0) && negb (vga (vdev w))
  then vfio_populate_vga K (gmch_read K w)
  else (Success, gmch_read K w).

(** The VGA step cannot fail. *)
Definition vga_available (K : Kernel) (w : World) : Prop :=
  Z.land (host_gmch K) 0x2 <> 0 \/ vga (vdev w) = true \/ k_populate_vga K = Success.

(** The GMCH value after the [x-igd-gms] step: the GMS field is replaced when
    the property is nonzero and within the limit of the generation. *)
Definition gmch_after_override (gen gmch gms : Z) : Z :=
  if gms =? 0 then gmch
  else if gms <=? gms_limit gen
       then replace_field (gms_shift gen) (gms_width gen) gmch gms
       else gmch.

(** The conditions under which the BAR 4 quirk gets through its OpRegion
    step: the first checks pass, the generation is supported, a ROM is there,
    the device is cold-plugged, VGA can be enabled, and the kernel hands out
    the whole OpRegion (smaller than 2 GiB). *)
Record opregion_ready (K : Kernel) (w : World) (opregion : vfio_region_info)
    (data : list Z) : Prop := {
  or_candidate : fst (igd_legacy_candidate 4 4 w) = true;
  or_generation : igd_gen (vdev w) <> -1;
  or_rom : rom_missing K w = false;
  or_coldplug : hotplugged (pdev (vdev w)) = false;
  or_vga : vga_available K w;
  or_region : k_dev_region_info K (fst opregion_query) (snd opregion_query)
              = RegionFound opregion;
  or_size : 0 <= info_size opregion < 2 ^ 31;
  or_read : k_pread K (info_offset opregion) (info_size opregion) = PreadData data;
  or_full : (Z.to_nat (info_size opregion) <= length data)%nat;
}.

(** The conditions under which the bridge step goes through on a machine
    with nothing at 00:1f.0: a host bridge with a config space at 00:00.0,
    both regions, and full reads of every listed register. *)
Record bridges_ready (K : Kernel) (w : World) (lpc host : vfio_region_info)
    (hb : PCIDevice) : Prop := {
  br_lpc_slot : bus w !! PCI_DEVFN 0x1f 0 = None;
  br_host_bridge : bus w !! PCI_DEVFN 0 0 = Some (Companion hb);
  br_host_config : (48 <= length (config hb))%nat;
  br_lpc : k_dev_region_info K (fst lpc_query) (snd lpc_query) = RegionFound lpc;
  br_host : k_dev_region_info K (fst host_query) (snd host_query) = RegionFound host;
  br_lpc_reads : Forall (readable K lpc) igd_lpc_bridge_infos;
  br_host_reads : Forall (readable K host) igd_host_bridge_infos;
}.

(** A device the legacy quirks are not for: not Intel, not VGA class, or not
    the device at 00:02.0. *)
Definition other_device (w : World) : Prop :=
  vendor_id (vdev w) <> PCI_VENDOR_ID_INTEL \/
  vfio_is_vga (vdev w) = false \/
  bus w !! PCI_DEVFN 0x2 0 <> Some TheVfioDevice.

(** ** More machines and kernels to run the model on *)

(** A host kernel whose raw reads fail with [errno] [en]. *)
Definition failing_kernel (en : Z) : Kernel :=
  {| k_dev_region_info := k_dev_region_info (Sample.kernel 0x1000);
     k_region_info := k_region_info (Sample.kernel 0x1000);
     k_pread := fun _ _ => PreadError en;
     k_populate_vga := Success;
     k_read_config := k_read_config (Sample.kernel 0x1000) |}.

(** A host kernel without the host bridge config region. *)
Definition kernel_without_host_region : Kernel :=
  {| k_dev_region_info := fun type subtype =>
       if subtype =? VFIO_REGION_SUBTYPE_INTEL_IGD_HOST_CFG then RegionError (- ENODEV)
       else k_dev_region_info (Sample.kernel 0x1000) type subtype;
     k_region_info := k_region_info (Sample.kernel 0x1000);
     k_pread := k_pread (Sample.kernel 0x1000);
     k_populate_vga := Success;
     k_read_config := k_read_config (Sample.kernel 0x1000) |}.

(** The sample machine with nothing at 00:00.0. *)
Definition machine_without_host_bridge (id gms : Z) : World :=
  with_bus (delete (PCI_DEVFN 0 0)) (Sample.machine id gms false).

(** The sample machine with a companion LPC bridge already at 00:1f.0. *)
Definition machine_with_lpc_bridge (id gms : Z) : World :=
  with_bus (insert (PCI_DEVFN 0x1f 0)
              (Companion (Sample.bridge (PCI_DEVFN 0x1f 0) vfio_pci_igd_lpc_bridge_info)))
    (Sample.machine id gms false).

(** ** Facts about the integer conversions *)

Lemma to_u64_small z : 0 <= z < 2 ^ 64 -> to_u64 z = z.
Proof. intros H. unfold to_u64. apply Z.mod_small. exact H. Qed.

Lemma to_u32_small z : 0 <= z < 2 ^ 32 -> to_u32 z = z.
Proof. intros H. unfold to_u32. apply Z.mod_small. exact H. Qed.

Lemma to_u32_range z : 0 <= to_u32 z < 2 ^ 32.
Proof. unfold to_u32. apply Z.mod_pos_bound. lia. Qed.

Lemma to_int_small z : - 2 ^ 31 <= z < 2 ^ 31 -> to_int z = z.
Proof. intros H. unfold to_int. rewrite Z.mod_small; lia. Qed.

Lemma land_ones_field z shift width :
  0 <= shift -> 0 <= width ->
  Z.land (Z.shiftr z shift) (Z.ones width) = field shift width z.
Proof.
  intros Hs Hw. unfold field.
  rewrite Z.land_ones by exact Hw.
  rewrite Z.shiftr_div_pow2 by exact Hs. reflexivity.
Qed.

Lemma field_range shift width z :
  0 <= width -> 0 <= field shift width z < 2 ^ width.
Proof.
  intros Hw. unfold field. apply Z.mod_pos_bound.
  apply Z.pow_pos_nonneg; lia.
Qed.

(** Masking with a shifted mask is masking the shifted value. *)
Lemma land_shifted_mask a m k :
  0 <= k -> Z.land a (Z.shiftl m k) = Z.shiftl (Z.land (Z.shiftr a k) m) k.
Proof.
  intros Hk. apply Z.bits_inj'. intros n Hn.
  rewrite Z.land_spec.
  destruct (Z.lt_ge_cases n k) as [Hlt | Hge].
  - rewrite !Z.shiftl_spec_low by exact Hlt. apply andb_false_r.
  - rewrite !Z.shiftl_spec by exact Hn.
    rewrite Z.land_spec, Z.shiftr_spec by lia.
    replace (n - k + k) with n by lia. reflexivity.
Qed.

(** Checking a decidable property on every integer of [0, n). *)
Lemma range_check (P : Z -> bool) (n : Z) :
  forallb P (seqZ 0 n) = true -> forall z, 0 <= z < n -> P z = true.
Proof.
  intros Hall z Hz.
  rewrite forallb_forall in Hall. apply Hall.
  apply list_elem_of_In. apply elem_of_seqZ. lia.
Qed.

(** ** The generation classifier *)

Lemma igd_gen_unfold v :
  igd_gen v =
    if Z.land (device_id v) 0xffe =? 0xa84 then 9
    else igd_gen_switch (Z.land (device_id v) 0xff00).
Proof. reflexivity. Qed.

Lemma igd_gen_switch_top top :
  0 <= top < 256 -> igd_gen_switch (Z.shiftl top 8) = listed_generation top.
Proof.
  intros H.
  apply Z.eqb_eq.
  apply (range_check (fun t => igd_gen_switch (Z.shiftl t 8) =? listed_generation t) 256);
    [ vm_compute; reflexivity | exact H ].
Qed.

Lemma top_byte_land id :
  Z.land id 0xff00 = Z.shiftl (Z.land (Z.shiftr id 8) 0xff) 8.
Proof. apply (land_shifted_mask id 0xff 8). lia. Qed.

Lemma top_byte_u16 id : is_u16 id -> Z.land (Z.shiftr id 8) 0xff = Z.shiftr id 8.
Proof.
  intros [Hlo Hhi].
  change 0xff with (Z.ones 8). rewrite Z.land_ones by lia.
  rewrite Z.shiftr_div_pow2 by lia.
  apply Z.mod_small. split.
  - apply Z.div_pos; lia.
  - apply Z.div_lt_upper_bound; lia.
Qed.

(** The code's mask test is the bits-11:1 rule. *)
Lemma mask_ffe_rule id : (Z.land id 0xffe =? 0xa84) = bits_11_1_rule id.
Proof.
  unfold bits_11_1_rule.
  change 0xffe with (Z.shiftl (Z.ones 11) 1).
  rewrite land_shifted_mask by lia.
  rewrite land_ones_field by lia.
  pose proof (field_range 1 11 id ltac:(lia)) as Hr.
  change (field 1 11 0xa84) with 0x542.
  rewrite Z.shiftl_mul_pow2 by lia.
  destruct (Z.eqb_spec (field 1 11 id) 0x542) as [-> | Hne].
  - reflexivity.
  - apply Z.eqb_neq. lia.
Qed.

(** [igd_gen] on any ID, by the top byte of its low 16 bits. *)
Lemma igd_gen_by_top_byte v :
  igd_gen v =
    if bits_11_1_rule (device_id v) then 9
    else listed_generation (Z.land (Z.shiftr (device_id v) 8) 0xff).
Proof.
  rewrite igd_gen_unfold, mask_ffe_rule.
  destruct (bits_11_1_rule (device_id v)); [reflexivity |].
  rewrite top_byte_land. apply igd_gen_switch_top.
  change 0xff with (Z.ones 8). rewrite Z.land_ones by lia.
  apply Z.mod_pos_bound. lia.
Qed.

Lemma listed_generation_codomain top : In (listed_generation top) igd_generations.
Proof.
  unfold listed_generation, generation_table, table_lookup.
  repeat match goal with
         | |- context [if ?k =? top then _ else _] => destruct (k =? top)
         end; simpl; tauto.
Qed.

(** C1 (as amended): [igd_gen] is a total function of the 16-bit device ID
    alone.  An ID whose bits 11:1 equal those of 0xa84 (bit 0 and the top
    nibble are not looked at) is generation 9, ahead of the top-byte rules;
    otherwise an ID whose top byte is in the table has the listed generation;
    every other ID gives the unsupported sentinel -1. *)
Theorem igd_gen_classifies (v : VFIOPCIDevice) :
  is_u16 (device_id v) ->
  igd_gen v = classify_with bits_11_1_rule (device_id v).
Proof.
  intros Hid. unfold classify_with.
  rewrite igd_gen_by_top_byte, top_byte_u16 by exact Hid.
  reflexivity.
Qed.

Lemma igd_gen_classifies_witness :
  is_u16 (device_id (Sample.igd 0x0a84 0 false)) /\
  igd_gen (Sample.igd 0x0a84 0 false) = classify_with bits_11_1_rule 0x0a84.
Proof.
  split.
  - unfold is_u16; simpl; lia.
  - apply (igd_gen_classifies (Sample.igd 0x0a84 0 false)).
    unfold is_u16; simpl; lia.
Defined.

(** C1 as stated fails: 0x1a85 (a Broxton ID named in igd.c) has low 11 bits
    0x285 and low 12 bits 0xa85, neither equal to 0xa84, and its top byte
    0x1a is not in the table, so the stated rules give -1; [igd_gen] gives 9. *)
Lemma igd_gen_low_bits_counterexample :
  is_u16 0x1a85 /\
  igd_gen (Sample.igd 0x1a85 0 false) = 9 /\
  classify_with (low_bits_rule 11) 0x1a85 = -1 /\
  classify_with (low_bits_rule 12) 0x1a85 = -1.
Proof. unfold is_u16. repeat split; try reflexivity; lia. Qed.

(** C9: the values [igd_gen] returns are exactly -1, 6, 7, 8, 9, 11 and 12:
    every device ID gives one of them, each of them is the generation of some
    16-bit device ID, and no device ID gives 10. *)
Theorem igd_gen_codomain :
  (forall v : VFIOPCIDevice, In (igd_gen v) igd_generations) /\
  Forall (fun g => exists v : VFIOPCIDevice, is_u16 (device_id v) /\ igd_gen v = g)
         igd_generations /\
  (forall v : VFIOPCIDevice, igd_gen v <> 10).
Proof.
  assert (Hin : forall v : VFIOPCIDevice, In (igd_gen v) igd_generations).
  { intros v. rewrite igd_gen_by_top_byte.
    destruct (bits_11_1_rule (device_id v)).
    - simpl; tauto.
    - apply listed_generation_codomain. }
  split; [exact Hin | split].
  - unfold igd_generations.
    repeat apply Forall_cons_2; [ .. | apply Forall_nil_2 ].
    + exists (Sample.igd 0x0000 0 false). unfold is_u16. repeat split; simpl; lia.
    + exists (Sample.igd 0x0102 0 false). unfold is_u16. repeat split; simpl; lia.
    + exists (Sample.igd 0x0412 0 false). unfold is_u16. repeat split; simpl; lia.
    + exists (Sample.igd 0x1616 0 false). unfold is_u16. repeat split; simpl; lia.
    + exists (Sample.igd 0x1912 0 false). unfold is_u16. repeat split; simpl; lia.
    + exists (Sample.igd 0x8A52 0 false). unfold is_u16. repeat split; simpl; lia.
    + exists (Sample.igd 0x9A49 0 false). unfold is_u16. repeat split; simpl; lia.
  - intros v H10. specialize (Hin v). rewrite H10 in Hin.
    simpl in Hin. lia.
Qed.

(** ** The stolen-memory size *)

Lemma gms_product_exact gms k :
  0 <= gms < 256 -> 0 <= k <= 32 ->
  to_u64 (to_u64 (gms * k) * MiB) = gms * (k * MiB).
Proof.
  intros Hg Hk. change MiB with 1048576.
  rewrite (to_u64_small (gms * k)) by nia.
  rewrite to_u64_small by nia. lia.
Qed.

(** The size in closed form, without the modular reductions. *)
Lemma igd_stolen_memory_size_formula (gen gmch : Z) :
  igd_stolen_memory_size gen gmch =
    let gms := if gen <? 8 then field 3 5 gmch else field 8 8 gmch in
    if gen <? 9 then gms * (32 * MiB)
    else if gms <? 0xF0 then gms * (32 * MiB)
    else (gms - 0xF0 + 1) * (4 * MiB).
Proof.
  unfold igd_stolen_memory_size.
  unfold IGD_GMCH_GEN6_GMS_SHIFT, IGD_GMCH_GEN6_GMS_MASK,
         IGD_GMCH_GEN8_GMS_SHIFT, IGD_GMCH_GEN8_GMS_MASK.
  change 0x1f with (Z.ones 5). change 0xff with (Z.ones 8).
  rewrite !land_ones_field by lia.
  pose proof (field_range 3 5 gmch ltac:(lia)) as H5.
  pose proof (field_range 8 8 gmch ltac:(lia)) as H8.
  rewrite (to_u64_small (field 3 5 gmch)) by lia.
  rewrite (to_u64_small (field 8 8 gmch)) by lia.
  cbv zeta.
  set (gms := if gen <? 8 then field 3 5 gmch else field 8 8 gmch).
  assert (Hg : 0 <= gms < 256) by (subst gms; destruct (gen <? 8); lia).
  destruct (gen <? 9); [apply gms_product_exact; lia |].
  destruct (Z.ltb_spec gms 0xF0) as [Hlt | Hge];
    [apply gms_product_exact; lia |].
  rewrite (to_u64_small (gms - 0xF0)) by lia.
  rewrite (to_u64_small (gms - 0xF0 + 1)) by lia.
  rewrite gms_product_exact by lia. reflexivity.
Qed.

(** C2: for every generation and every register value, the GMS field is the
    5-bit field at bit 3 below generation 8 and the 8-bit field at bit 8 from
    generation 8 on; the size is field * 32 MiB below generation 9, and from
    generation 9 on field * 32 MiB for a field below 0xF0 and
    (field - 0xF0 + 1) * 4 MiB otherwise, with no wrap-around; a generation-9
    register with field 0xF5 gives 24 MiB. *)
Theorem igd_stolen_memory_size_exact (gen gmch : Z) :
  let gms := if gen <? 8 then field 3 5 gmch else field 8 8 gmch in
  igd_stolen_memory_size gen gmch =
    (if gen <? 9 then gms * (32 * MiB)
     else if gms <? 0xF0 then gms * (32 * MiB)
     else (gms - 0xF0 + 1) * (4 * MiB)) /\
  (forall g : Z, field 8 8 g = 0xF5 -> igd_stolen_memory_size 9 g = 24 * MiB).
Proof.
  split.
  - apply igd_stolen_memory_size_formula.
  - intros g Hg. rewrite igd_stolen_memory_size_formula. cbv zeta.
    change (9 <? 8) with false. change (9 <? 9) with false. cbv iota.
    rewrite Hg. change (0xF5 <? 0xF0) with false. cbv iota.
    change MiB with 1048576. lia.
Qed.

(** ** What the quirk code never changes *)

Lemma same_device_refl w : same_device w w.
Proof. split; reflexivity. Qed.

Lemma same_device_trans w1 w2 w3 :
  same_device w1 w2 -> same_device w2 w3 -> same_device w1 w3.
Proof. intros [] []. split; congruence. Qed.

Lemma keeps_ret {A} (a : A) : keeps_device (ret a).
Proof. intros w. apply same_device_refl. Qed.

Lemma keeps_gets {A} (f : World -> A) : keeps_device (gets f).
Proof. intros w. apply same_device_refl. Qed.

Lemma keeps_bind {A B} (m : M A) (k : A -> M B) :
  keeps_device m -> (forall a, keeps_device (k a)) -> keeps_device (bind m k).
Proof.
  intros Hm Hk w. unfold bind.
  specialize (Hm w). destruct (m w) as [a w']. simpl in Hm.
  eapply same_device_trans; [exact Hm | apply Hk].
Qed.

Lemma keeps_emit e : keeps_device (emit e).
Proof. intros w. split; reflexivity. Qed.

Lemma keeps_with_errno e : keeps_device (modify (with_errno e)).
Proof. intros w. split; reflexivity. Qed.

Lemma keeps_with_fw_cfg f : keeps_device (modify (with_fw_cfg f)).
Proof. intros w. split; reflexivity. Qed.

Lemma keeps_with_bus f : keeps_device (modify (with_bus f)).
Proof. intros w. split; reflexivity. Qed.

Lemma length_store_bytes bs : forall mem addr,
  length (store_bytes mem addr bs) = length mem.
Proof.
  induction bs as [| b bs IH]; intros mem addr; simpl.
  - reflexivity.
  - rewrite IH. apply length_insert.
Qed.

Lemma length_pci_set_long mem addr val : length (pci_set_long mem addr val) = length mem.
Proof. apply length_store_bytes. Qed.

Lemma length_pci_set_quad mem addr val : length (pci_set_quad mem addr val) = length mem.
Proof. apply length_store_bytes. Qed.

(** Field updates of [vdev] that keep the device: a new config, write mask
    or emulated-bits array of the same length, and the fields the relation
    does not mention. *)
Lemma keeps_set_config (f : VFIOPCIDevice -> list Z) :
  (forall v, length (f v) = length (config (pdev v))) ->
  keeps_device (modify_vdev (fun v => set_pdev (set_config (f v) (pdev v)) v)).
Proof. intros Hf w. split; simpl; auto. Qed.

Lemma keeps_set_wmask (f : VFIOPCIDevice -> list Z) :
  (forall v, length (f v) = length (wmask (pdev v))) ->
  keeps_device (modify_vdev (fun v => set_pdev (set_wmask (f v) (pdev v)) v)).
Proof. intros Hf w. split; simpl; auto. Qed.

Lemma keeps_set_emulated (f : VFIOPCIDevice -> list Z) :
  (forall v, length (f v) = length (emulated_config_bits v)) ->
  keeps_device (modify_vdev (fun v => set_emulated_config_bits (f v) v)).
Proof. intros Hf w. split; simpl; auto. Qed.

Lemma keeps_set_igd_opregion (f : VFIOPCIDevice -> option (list Z)) :
  keeps_device (modify_vdev (fun v => set_igd_opregion (f v) v)).
Proof. intros w. split; reflexivity. Qed.

Lemma keeps_set_igd_opregion_const o : keeps_device (modify_vdev (set_igd_opregion o)).
Proof. intros w. split; reflexivity. Qed.

Lemma keeps_set_vga b : keeps_device (modify_vdev (set_vga b)).
Proof. intros w. split; reflexivity. Qed.

Lemma keeps_set_rom_read_failed b : keeps_device (modify_vdev (set_rom_read_failed b)).
Proof. intros w. split; reflexivity. Qed.

Lemma keeps_modify_bar nr f : keeps_device (modify_bar nr f).
Proof. intros w. split; reflexivity. Qed.

Lemma keeps_fw_cfg_add_file name data len : keeps_device (fw_cfg_add_file name data len).
Proof. apply keeps_with_fw_cfg. Qed.

Create HintDb keeps.
#[local] Hint Resolve keeps_ret keeps_gets keeps_emit keeps_with_errno
  keeps_with_fw_cfg keeps_with_bus keeps_set_igd_opregion
  keeps_set_igd_opregion_const keeps_set_vga keeps_set_rom_read_failed
  keeps_modify_bar keeps_fw_cfg_add_file : keeps.
#[local] Hint Resolve length_pci_set_long length_pci_set_quad length_store_bytes : keeps.

(** Walks a computation along its binds and case distinctions. *)
Ltac keeps_step :=
  match goal with
  | |- keeps_device (bind _ _) => apply keeps_bind; [| intros ?]
  | |- keeps_device (if ?b then _ else _) => destruct b
  | |- keeps_device (match ?x with _ => _ end) => destruct x
  | |- keeps_device (modify_vdev (fun v => set_pdev (set_config _ _) _)) =>
      apply keeps_set_config; intros ?
  | |- keeps_device (modify_vdev (fun v => set_pdev (set_wmask _ _) _)) =>
      apply keeps_set_wmask; intros ?
  | |- keeps_device (modify_vdev (fun v => set_emulated_config_bits _ _)) =>
      apply keeps_set_emulated; intros ?
  | |- keeps_device _ => solve [auto with keeps]
  | |- length _ = length _ => solve [auto with keeps]
  end.

Ltac keeps_tac := repeat keeps_step.

Lemma keeps_pread K count offset : keeps_device (pread K count offset).
Proof. unfold pread. keeps_tac. Qed.

Lemma keeps_dev_region_info K type subtype :
  keeps_device (vfio_get_dev_region_info K type subtype).
Proof. unfold vfio_get_dev_region_info. keeps_tac. Qed.

Lemma keeps_region_info K index : keeps_device (vfio_get_region_info K index).
Proof. unfold vfio_get_region_info. keeps_tac. Qed.

Lemma keeps_read_config K addr len : keeps_device (vfio_pci_read_config K addr len).
Proof. unfold vfio_pci_read_config. keeps_tac. Qed.

Lemma keeps_populate_vga K : keeps_device (vfio_populate_vga K).
Proof. unfold vfio_populate_vga. keeps_tac. Qed.

Lemma keeps_pci_find_device fn : keeps_device (pci_find_device fn).
Proof. unfold pci_find_device. keeps_tac. Qed.

Lemma keeps_object_dynamic_cast p t : keeps_device (object_dynamic_cast p t).
Proof. unfold object_dynamic_cast. keeps_tac. Qed.

Lemma keeps_write_config p off data : keeps_device (write_config p off data).
Proof. unfold write_config. keeps_tac. Qed.

Lemma keeps_pci_create_simple fn name : keeps_device (pci_create_simple fn name).
Proof. unfold pci_create_simple. keeps_tac. Qed.

#[local] Hint Resolve keeps_pread keeps_dev_region_info keeps_region_info
  keeps_read_config keeps_populate_vga keeps_pci_find_device
  keeps_object_dynamic_cast keeps_write_config keeps_pci_create_simple : keeps.

Lemma keeps_opregion_init K info : keeps_device (vfio_pci_igd_opregion_init K info).
Proof. unfold vfio_pci_igd_opregion_init. keeps_tac. Qed.

#[local] Hint Resolve keeps_opregion_init : keeps.

Lemma keeps_setup_opregion K : keeps_device (vfio_pci_igd_setup_opregion K).
Proof. unfold vfio_pci_igd_setup_opregion. keeps_tac. Qed.

Lemma keeps_igd_copy K p info l : keeps_device (vfio_pci_igd_copy K p info l).
Proof.
  induction l as [| e rest IH]; simpl.
  - apply keeps_ret.
  - keeps_tac.
Qed.

#[local] Hint Resolve keeps_setup_opregion keeps_igd_copy : keeps.

Lemma keeps_host_init K info : keeps_device (vfio_pci_igd_host_init K info).
Proof. unfold vfio_pci_igd_host_init. keeps_tac. Qed.

Lemma keeps_lpc_init K info : keeps_device (vfio_pci_igd_lpc_init K info).
Proof. unfold vfio_pci_igd_lpc_init. keeps_tac. Qed.

#[local] Hint Resolve keeps_host_init keeps_lpc_init : keeps.

Lemma keeps_setup_lpc_bridge K : keeps_device (vfio_pci_igd_setup_lpc_bridge K).
Proof. unfold vfio_pci_igd_setup_lpc_bridge. keeps_tac. Qed.

Lemma keeps_legacy_candidate expected nr : keeps_device (igd_legacy_candidate expected nr).
Proof. unfold igd_legacy_candidate. keeps_tac. Qed.

#[local] Hint Resolve keeps_setup_lpc_bridge keeps_legacy_candidate : keeps.

Lemma keeps_bar4_setup K nr : keeps_device (igd_bar4_setup K nr).
Proof. unfold igd_bar4_setup. keeps_tac. Qed.

Lemma keeps_bar4_override gen gmch : keeps_device (igd_bar4_override gen gmch).
Proof. unfold igd_bar4_override. keeps_tac. Qed.

Lemma keeps_bar4_publish gen gmch : keeps_device (igd_bar4_publish gen gmch).
Proof. unfold igd_bar4_publish. keeps_tac. Qed.

(** ** OpRegion setup *)

(** A count below an allocatable size never compares equal to it, also after
    the conversions [ssize_t] to [int] to [uint64_t] of the C comparison. *)
Lemma short_count_differs r sz :
  allocatable sz -> -1 <= r < sz -> to_u64 (to_int r) <> sz.
Proof.
  unfold allocatable, to_u64, to_int. intros Hsz Hr Heq.
  assert (Hlo : - 2 ^ 31 <= (r + 2 ^ 31) mod 2 ^ 32 - 2 ^ 31 < 2 ^ 31).
  { pose proof (Z.mod_pos_bound (r + 2 ^ 31) (2 ^ 32) ltac:(lia)). lia. }
  set (i := (r + 2 ^ 31) mod 2 ^ 32 - 2 ^ 31) in *.
  destruct (Z.lt_ge_cases i 0) as [Hneg | Hpos].
  - (* a negative int converts to at least 2^64 - 2^31 *)
    replace (i mod 2 ^ 64) with (i + 2 ^ 64) in Heq.
    + lia.
    + apply Z.mod_unique with (q := -1); lia.
  - rewrite Z.mod_small in Heq by lia.
    (* i = sz < 2^31, and r < sz with r = i modulo 2^32 *)
    assert (Hr31 : r < 2 ^ 31) by lia.
    destruct (Z.eq_dec r (-1)) as [-> | Hne].
    + subst i. change ((-1 + 2 ^ 31) mod 2 ^ 32 - 2 ^ 31) with (-1) in Hpos. lia.
    + subst i. rewrite Z.mod_small in Heq by lia. lia.
Qed.

Lemma pread_count_lower K count offset w :
  -1 <= fst (fst (pread K count offset w)).
Proof.
  unfold pread, bind, emit, modify, ret. simpl.
  destruct (k_pread K offset count); simpl; lia.
Qed.

(** C5: on a hot-added device OpRegion setup fails with the hotplug error,
    whatever the kernel would answer, and returns the world as it found it:
    no region query and no raw read is issued (the log is unchanged). *)
Theorem setup_opregion_hotplugged (K : Kernel) (w : World) :
  hotplugged (pdev (vdev w)) = true ->
  vfio_pci_igd_setup_opregion K w =
    (Failure (error_setg "IGD OpRegion is not supported on hotplugged device"), w)
  /\ log (snd (vfio_pci_igd_setup_opregion K w)) = log w.
Proof.
  intros Hhot.
  assert (Hrun : vfio_pci_igd_setup_opregion K w =
    (Failure (error_setg "IGD OpRegion is not supported on hotplugged device"), w)).
  { unfold vfio_pci_igd_setup_opregion, bind, gets. rewrite Hhot. reflexivity. }
  split; [exact Hrun | rewrite Hrun; reflexivity].
Qed.

Lemma setup_opregion_hotplugged_witness :
  vfio_pci_igd_setup_opregion (Sample.kernel 0x1000) (Sample.machine 0x1912 0 true) =
    (Failure (error_setg "IGD OpRegion is not supported on hotplugged device"),
     Sample.machine 0x1912 0 true)
  /\ log (snd (vfio_pci_igd_setup_opregion (Sample.kernel 0x1000)
                 (Sample.machine 0x1912 0 true))) = [].
Proof.
  apply (setup_opregion_hotplugged (Sample.kernel 0x1000) (Sample.machine 0x1912 0 true)).
  reflexivity.
Defined.

(** C6: when the raw read of the OpRegion returns fewer bytes than the
    region size (a short read, or -1), [vfio_pci_igd_opregion_init] fails
    with the read error, the buffer is freed and the device's OpRegion
    pointer is NULL again, no fw_cfg entry is added, and config space, the
    write mask (both in [pdev]) and the emulated bits are as before. *)
Theorem opregion_init_short_read (K : Kernel) (info : vfio_region_info) (w : World) :
  allocatable (info_size info) ->
  fst (fst (pread K (info_size info) (info_offset info) w)) < info_size info ->
  let r := vfio_pci_igd_opregion_init K info w in
  fst r = Failure (error_setg "failed to read IGD OpRegion") /\
  igd_opregion (vdev (snd r)) = None /\
  fw_cfg (snd r) = fw_cfg w /\
  pdev (vdev (snd r)) = pdev (vdev w) /\
  emulated_config_bits (vdev (snd r)) = emulated_config_bits (vdev w).
Proof.
  intros Halloc Hshort.
  pose proof (pread_count_lower K (info_size info) (info_offset info) w) as Hlow.
  unfold vfio_pci_igd_opregion_init, pread, bind, emit, modify, modify_vdev, ret in *.
  cbv beta iota zeta delta [fst snd] in *.
  destruct (k_pread K (info_offset info) (info_size info)) as [data | e];
    cbv beta iota zeta delta [fst snd] in *.
  - destruct (Z.eqb_spec
      (to_u64 (to_int (Z.of_nat (length (take (Z.to_nat (info_size info)) data)))))
      (info_size info)) as [Heq | Hne]; cbv beta iota zeta delta [negb fst snd].
    + exfalso. revert Heq. apply short_count_differs; [exact Halloc | lia].
    + repeat split; reflexivity.
  - destruct (Z.eqb_spec (to_u64 (to_int (-1))) (info_size info)) as [Heq | Hne];
      cbv beta iota zeta delta [negb fst snd].
    + exfalso. revert Heq. apply short_count_differs; [exact Halloc | lia].
    + repeat split; reflexivity.
Qed.

Lemma opregion_init_short_read_witness :
  let info := {| info_size := 16; info_offset := 0x1000 |} in
  let r := vfio_pci_igd_opregion_init (Sample.short_kernel 0x1000) info
             (Sample.machine 0x1912 0 false) in
  fst r = Failure (error_setg "failed to read IGD OpRegion") /\
  igd_opregion (vdev (snd r)) = None /\
  fw_cfg (snd r) = [] /\
  pdev (vdev (snd r)) = Sample.igd_pdev false /\
  emulated_config_bits (vdev (snd r)) = replicate 256 0.
Proof.
  apply (opregion_init_short_read (Sample.short_kernel 0x1000)
           {| info_size := 16; info_offset := 0x1000 |}
           (Sample.machine 0x1912 0 false)).
  - unfold allocatable. simpl. lia.
  - vm_compute. reflexivity.
Defined.

(** ** LPC bridge setup *)

(** C7: on a device that is not hot-added, when [pci_find_device] finds a
    device at 00:1f.0 that is not an instance of vfio-pci-igd-lpc-bridge,
    bridge setup fails with the address-conflict error and returns the world
    as it found it: no device on the bus is written (host bridge included)
    and no register copy is read (the log is unchanged). *)
Theorem setup_lpc_bridge_conflict (K : Kernel) (w : World) (p : dev_ptr) :
  hotplugged (pdev (vdev w)) = false ->
  fst (pci_find_device (PCI_DEVFN 0x1f 0) w) = Some p ->
  fst (object_dynamic_cast p "vfio-pci-igd-lpc-bridge" w) = false ->
  vfio_pci_igd_setup_lpc_bridge K w =
    (Failure (error_setg "Cannot create LPC bridge due to existing device at 1f.0"), w)
  /\ bus (snd (vfio_pci_igd_setup_lpc_bridge K w)) = bus w
  /\ log (snd (vfio_pci_igd_setup_lpc_bridge K w)) = log w.
Proof.
  intros Hhot Hfind Hcast.
  assert (Hrun : vfio_pci_igd_setup_lpc_bridge K w =
    (Failure (error_setg "Cannot create LPC bridge due to existing device at 1f.0"), w)).
  { unfold vfio_pci_igd_setup_lpc_bridge, bind.
    unfold gets at 1. rewrite Hhot.
    destruct (pci_find_device (PCI_DEVFN 0x1f 0) w) as [found w1] eqn:Efind.
    assert (w1 = w) as -> by (unfold pci_find_device, gets in Efind; congruence).
    simpl in Hfind. subst found.
    destruct (object_dynamic_cast p "vfio-pci-igd-lpc-bridge" w) as [ours w2] eqn:Ecast.
    assert (w2 = w) as -> by (unfold object_dynamic_cast, gets in Ecast; congruence).
    simpl in Hcast. subst ours. reflexivity. }
  rewrite Hrun. repeat split; reflexivity.
Qed.

Lemma setup_lpc_bridge_conflict_witness :
  vfio_pci_igd_setup_lpc_bridge (Sample.kernel 0x1000) (Sample.machine_q35 0x1912 0) =
    (Failure (error_setg "Cannot create LPC bridge due to existing device at 1f.0"),
     Sample.machine_q35 0x1912 0)
  /\ bus (snd (vfio_pci_igd_setup_lpc_bridge (Sample.kernel 0x1000)
                 (Sample.machine_q35 0x1912 0))) = bus (Sample.machine_q35 0x1912 0)
  /\ log (snd (vfio_pci_igd_setup_lpc_bridge (Sample.kernel 0x1000)
                 (Sample.machine_q35 0x1912 0))) = [].
Proof.
  apply (setup_lpc_bridge_conflict (Sample.kernel 0x1000) (Sample.machine_q35 0x1912 0)
           (PtrBus (PCI_DEVFN 0x1f 0))).
  - reflexivity.
  - vm_compute. reflexivity.
  - vm_compute. reflexivity.
Defined.

(** ** The BAR 0 quirk *)

Lemma legacy_candidate_run expected nr w :
  igd_legacy_candidate expected nr w =
    (vfio_pci_is (vdev w) PCI_VENDOR_ID_INTEL PCI_ANY_ID && vfio_is_vga (vdev w) &&
     (nr =? expected) && is_vdev (fst (pci_find_device (PCI_DEVFN 0x2 0) w)), w).
Proof.
  unfold igd_legacy_candidate, bind, gets, ret, pci_find_device.
  f_equal.
  destruct (vfio_pci_is _ _ _), (vfio_is_vga _), (nr =? expected); try reflexivity.
  cbn [fst]. destruct (is_vdev _); reflexivity.
Qed.

(** C8: [vfio_probe_igd_bar0_quirk] leaves the world as it is when the
    generation is below 6.  When the first checks pass (Intel, VGA, BAR 0,
    the device at 00:02.0) and the generation is at least 6, BAR 0 gains
    exactly two mirror bindings and nothing else changes: the GGC binding,
    2 bytes at MMIO offset 0x108040 mirroring config offset 0x50 (GMCH), and
    the BDSM binding at MMIO offset 0x1080C0, 4 bytes from config offset 0x5C
    below generation 11 and 8 bytes from config offset 0xC0 from generation
    11 on. *)
Theorem bar0_quirk_installs (nr : Z) (w : World) (b : VFIOBAR) :
  bars (vdev w) !! 0%nat = Some b ->
  let gen := igd_gen (vdev w) in
  let w' := snd (vfio_probe_igd_bar0_quirk nr w) in
  (gen < 6 -> w' = w) /\
  (fst (igd_legacy_candidate 0 nr w) = true -> 6 <= gen ->
     bars (vdev w') =
       <[0%nat := {| bar_subregions :=
                       bar_subregions b ++ [binding_subregion ggc_binding;
                                            binding_subregion (bdsm_binding gen)];
                     quirks := bdsm_binding gen :: ggc_binding :: quirks b |}]>
         (bars (vdev w))
     /\ w' = with_vdev (set_bars (bars (vdev w'))) w).
Proof.
  intros Hb gen w'. subst gen w'.
  unfold vfio_probe_igd_bar0_quirk, bind.
  rewrite legacy_candidate_run. cbv beta iota zeta.
  split.
  - intros Hlt.
    destruct (_ && _); [| reflexivity]. unfold negb, gets.
    destruct (Z.ltb_spec (igd_gen (vdev w)) 6); [reflexivity | lia].
  - intros Hcand Hge. cbn [fst] in Hcand. rewrite Hcand. unfold negb, gets.
    destruct (Z.ltb_spec (igd_gen (vdev w)) 6) as [Hlt | _]; [lia |].
    assert (Hnr : nr = 0).
    { apply andb_prop in Hcand as [Hcand _]. apply andb_prop in Hcand as [_ Hnr].
      apply Z.eqb_eq. exact Hnr. }
    subst nr. clear Hcand.
    set (gen := igd_gen (vdev w)) in *. clearbody gen.
    destruct w as [v bs fw en lg]. destruct v. cbn [vdev bars] in Hb.
    destruct bars0 as [| b0 rest]; [discriminate |].
    injection Hb as ->.
    unfold modify_bar, modify_vdev, modify, with_vdev, set_bars.
    cbn [snd vdev bars].
    change (Z.to_nat 0) with 0%nat.
    unfold bdsm_binding, ggc_binding, mirror_binding, binding_subregion,
      quirk_insert_head, add_subregion_overlap.
    unfold IGD_GGC_MMIO_OFFSET, IGD_BDSM_MMIO_OFFSET, IGD_GMCH, IGD_BDSM, IGD_BDSM_GEN11.
    destruct (gen <? 11); simpl; rewrite <- app_assoc; split; reflexivity.
Qed.

Lemma bar0_quirk_installs_witness :
  let w := Sample.machine 0x1912 0 false in
  bars (vdev w) !! 0%nat = Some {| bar_subregions := []; quirks := [] |} /\
  bars (vdev (snd (vfio_probe_igd_bar0_quirk 0 w))) =
    <[0%nat := {| bar_subregions := [binding_subregion ggc_binding;
                                     binding_subregion (bdsm_binding 9)];
                  quirks := [bdsm_binding 9; ggc_binding] |}]> (bars (vdev w)).
Proof.
  intros w. split; [reflexivity |].
  destruct (bar0_quirk_installs 0 w {| bar_subregions := []; quirks := [] |})
    as [_ Hinstall].
  - reflexivity.
  - destruct Hinstall as [Hbars _].
    + vm_compute. reflexivity.
    + vm_compute. discriminate.
    + exact Hbars.
Defined.

(** ** The BAR 4 quirk *)

(** When the first part goes on to the override, BAR 4 was probed, the
    generation is the classified one and is supported, and [gmch] is what
    [vfio_pci_read_config] returned. *)
Lemma bar4_setup_some K nr w gen gmch w1 :
  igd_bar4_setup K nr w = (Some (gen, gmch), w1) ->
  nr = 4 /\ gen = igd_gen (vdev w) /\ gen <> -1 /\
  gmch = to_u32 (k_read_config K IGD_GMCH 4).
Proof.
  unfold igd_bar4_setup, bind. rewrite legacy_candidate_run.
  unfold gets at 1, vfio_get_region_info, vfio_pci_read_config, bind, emit, modify, ret.
  cbv beta iota zeta.
  intros H.
  destruct (_ && is_vdev _) eqn:Hcand; cbn [negb] in H; [| discriminate].
  destruct (Z.eqb_spec (igd_gen (vdev w)) (-1)) as [| Hgen]; [discriminate |].
  destruct (_ && negb _) in H; [discriminate |].
  destruct (hotplugged _) in H; [discriminate |].
  unfold gets in H.
  match type of H with
  | context [if ?c then vfio_populate_vga K else _] => destruct c
  end.
  - destruct (vfio_populate_vga K _) as [[| e] w2]; [| discriminate].
    destruct (vfio_pci_igd_setup_opregion K w2) as [[| e] w3]; [| discriminate].
    destruct (vfio_pci_igd_setup_lpc_bridge K w3) as [[| e] w4]; [| discriminate].
    inversion H; subst.
    apply andb_prop in Hcand as [Hcand _]. apply andb_prop in Hcand as [_ Hnr].
    apply Z.eqb_eq in Hnr. auto.
  - match type of H with
    | context [vfio_pci_igd_setup_opregion K ?w2] =>
        destruct (vfio_pci_igd_setup_opregion K w2) as [[| e] w3]; [| discriminate]
    end.
    destruct (vfio_pci_igd_setup_lpc_bridge K w3) as [[| e] w4]; [| discriminate].
    inversion H; subst.
    apply andb_prop in Hcand as [Hcand _]. apply andb_prop in Hcand as [_ Hnr].
    apply Z.eqb_eq in Hnr. auto.
Qed.

(** *** Replacing a bit field of a 32-bit word *)

Lemma testbit_above v width n :
  0 <= v < 2 ^ width -> 0 <= width <= n -> Z.testbit v n = false.
Proof.
  intros Hv Hn. rewrite <- (Z.mod_small v (2 ^ width)) by exact Hv.
  apply Z.mod_pow2_bits_high. exact Hn.
Qed.

Lemma testbit_shifted_ones width shift n :
  0 <= shift -> 0 <= width -> 0 <= n ->
  Z.testbit (Z.shiftl (Z.ones width) shift) n = (shift <=? n) && (n <? shift + width).
Proof.
  intros Hs Hw Hn.
  destruct (Z.leb_spec shift n) as [Hle | Hlt].
  - rewrite Z.shiftl_spec by exact Hn.
    rewrite Z.testbit_ones_nonneg by lia.
    simpl. destruct (Z.ltb_spec (n - shift) width), (Z.ltb_spec n (shift + width));
      try reflexivity; lia.
  - rewrite Z.shiftl_spec_low by lia. reflexivity.
Qed.

Lemma replace_field_testbit shift width x v n :
  0 <= shift -> 0 <= width -> shift + width <= 32 -> 0 <= v < 2 ^ width -> 0 <= n ->
  Z.testbit (replace_field shift width x v) n =
    if (shift <=? n) && (n <? shift + width) then Z.testbit v (n - shift)
    else (n <? 32) && Z.testbit x n.
Proof.
  intros Hs Hw H32 Hv Hn. unfold replace_field, to_u32.
  rewrite Z.lor_spec, Z.land_spec, !Z.testbit_mod_pow2 by lia.
  rewrite Z.lnot_spec by exact Hn.
  rewrite testbit_shifted_ones by lia.
  destruct (Z.leb_spec shift n) as [Hle | Hlt]; simpl.
  - rewrite Z.shiftl_spec by exact Hn.
    destruct (Z.ltb_spec n (shift + width)) as [Hin | Hout]; simpl.
    + destruct (Z.ltb_spec n 32); [| lia].
      rewrite andb_false_r. reflexivity.
    + rewrite (testbit_above v width (n - shift)) by lia.
      rewrite andb_true_r, andb_false_r, orb_false_r. apply andb_comm.
  - rewrite Z.shiftl_spec_low by exact Hlt.
    rewrite andb_true_r, andb_false_r, orb_false_r. apply andb_comm.
Qed.

Lemma field_replace_field shift width x v :
  0 <= shift -> 0 <= width -> shift + width <= 32 -> 0 <= v < 2 ^ width ->
  field shift width (replace_field shift width x v) = v.
Proof.
  intros Hs Hw H32 Hv.
  rewrite <- land_ones_field by lia.
  apply Z.bits_inj'. intros n Hn.
  rewrite Z.land_spec, Z.shiftr_spec by exact Hn.
  rewrite Z.testbit_ones_nonneg by lia.
  rewrite replace_field_testbit by lia.
  destruct (Z.ltb_spec n width) as [Hin | Hout].
  - destruct (Z.leb_spec shift (n + shift)); [| lia].
    destruct (Z.ltb_spec (n + shift) (shift + width)); [| lia].
    simpl. rewrite andb_true_r. f_equal. lia.
  - rewrite andb_false_r. symmetry. apply (testbit_above v width); lia.
Qed.

Lemma ldiff_replace_field shift width x v :
  0 <= shift -> 0 <= width -> shift + width <= 32 -> 0 <= v < 2 ^ width ->
  is_u32 x ->
  Z.ldiff (replace_field shift width x v) (Z.shiftl (Z.ones width) shift)
  = Z.ldiff x (Z.shiftl (Z.ones width) shift).
Proof.
  intros Hs Hw H32 Hv Hx.
  apply Z.bits_inj'. intros n Hn.
  rewrite !Z.ldiff_spec, testbit_shifted_ones by lia.
  rewrite replace_field_testbit by lia.
  destruct ((shift <=? n) && (n <? shift + width)); simpl.
  - rewrite !andb_false_r. reflexivity.
  - rewrite !andb_true_r.
    rewrite <- (Z.mod_small x (2 ^ 32)) at 2 by exact Hx.
    rewrite Z.testbit_mod_pow2 by lia. reflexivity.
Qed.

(** *** Reading back a little-endian store *)

Lemma store_bytes_lookup_below bs : forall mem a a',
  (a < a')%nat -> store_bytes mem a' bs !! a = mem !! a.
Proof.
  induction bs as [| b bs IH]; intros mem a a' Hlt; simpl.
  - reflexivity.
  - rewrite IH by lia. apply list_lookup_insert_ne. lia.
Qed.

Lemma load_store_le n : forall mem a v,
  (a + n <= length mem)%nat ->
  load_le (store_bytes mem a (le_bytes n v)) a n = Some (v mod 256 ^ Z.of_nat n).
Proof.
  induction n as [| n IH]; intros mem a v Hlen.
  - simpl. rewrite Z.mod_1_r. reflexivity.
  - cbn [le_bytes store_bytes load_le].
    rewrite store_bytes_lookup_below by lia.
    rewrite list_lookup_insert_eq by lia.
    rewrite IH by (rewrite length_insert; lia).
    f_equal. rewrite Nat2Z.inj_succ, Z.pow_succ_r by lia.
    rewrite Z.rem_mul_r by lia. reflexivity.
Qed.

Lemma pci_get_set_long mem addr val :
  0 <= addr -> (Z.to_nat addr + 4 <= length mem)%nat ->
  pci_get_long (pci_set_long mem addr val) addr = Some (to_u32 val).
Proof.
  intros Ha Hlen. unfold pci_get_long, pci_set_long.
  rewrite load_store_le by exact Hlen.
  f_equal. change (256 ^ Z.of_nat 4) with (2 ^ 32).
  apply Z.mod_small. apply to_u32_range.
Qed.

(** *** The three parts of the quirk, run one after the other *)

Lemma bar4_run K nr w gen gmch w1 :
  igd_bar4_setup K nr w = (Some (gen, gmch), w1) ->
  vfio_probe_igd_bar4_quirk K nr w =
    igd_bar4_publish gen (fst (igd_bar4_override gen gmch w1))
      (snd (igd_bar4_override gen gmch w1)).
Proof.
  intros H. unfold vfio_probe_igd_bar4_quirk, bind. rewrite H.
  destruct (igd_bar4_override gen gmch w1). reflexivity.
Qed.

Lemma bar4_override_zero gen gmch w :
  igd_gms (vdev w) = 0 -> igd_bar4_override gen gmch w = (gmch, w).
Proof. intros H. unfold igd_bar4_override, bind, gets. rewrite H. reflexivity. Qed.

Lemma bar4_override_accept gen gmch w :
  igd_gms (vdev w) <> 0 -> igd_gms (vdev w) <= gms_limit gen ->
  igd_bar4_override gen gmch w =
    (replace_field (gms_shift gen) (gms_width gen) gmch (igd_gms (vdev w)), w).
Proof.
  intros Hnz Hle. unfold igd_bar4_override, bind, gets, gms_limit, gms_shift, gms_width in *.
  destruct (Z.eqb_spec (igd_gms (vdev w)) 0) as [| _]; [contradiction |].
  cbn [negb].
  destruct (gen <? 8).
  - destruct (Z.leb_spec (igd_gms (vdev w)) 0x10); [reflexivity | lia].
  - destruct (Z.leb_spec (igd_gms (vdev w)) 0x40); [reflexivity | lia].
Qed.

Lemma bar4_override_reject gen gmch w :
  gms_limit gen < igd_gms (vdev w) -> 0 <= gms_limit gen ->
  igd_bar4_override gen gmch w = (gmch, with_log (fun l => l ++ [gms_range_report gen]) w).
Proof.
  intros Hgt _. unfold igd_bar4_override, bind, gets, gms_limit, gms_range_report in *.
  destruct (Z.eqb_spec (igd_gms (vdev w)) 0) as [Hz | _].
  - destruct (gen <? 8); lia.
  - cbn [negb]. destruct (gen <? 8).
    + destruct (Z.leb_spec (igd_gms (vdev w)) 0x10); [lia | reflexivity].
    + destruct (Z.leb_spec (igd_gms (vdev w)) 0x40); [lia | reflexivity].
Qed.

Lemma publish_fw_cfg gen gmch w :
  fw_cfg (snd (igd_bar4_publish gen gmch w)) =
    fw_cfg w ++ [bdsm_size_entry (igd_stolen_memory_size gen gmch)].
Proof.
  unfold igd_bar4_publish, bind, fw_cfg_add_file, modify_vdev, modify, gets, emit, ret.
  destruct (gen <? 11); reflexivity.
Qed.

Lemma publish_log gen gmch w :
  log (snd (igd_bar4_publish gen gmch w)) =
    log w ++ [bdsm_enabled_trace w (igd_stolen_memory_size gen gmch)].
Proof.
  unfold igd_bar4_publish, bind, fw_cfg_add_file, modify_vdev, modify, gets, emit, ret.
  destruct (gen <? 11); reflexivity.
Qed.

Lemma publish_bdsm_long gen gmch w :
  gen < 11 ->
  let v' := vdev (snd (igd_bar4_publish gen gmch w)) in
  config (pdev v') = pci_set_long (pci_set_long (config (pdev (vdev w))) IGD_GMCH gmch) IGD_BDSM 0 /\
  wmask (pdev v') = pci_set_long (pci_set_long (wmask (pdev (vdev w))) IGD_GMCH 0) IGD_BDSM (Z.lnot 0) /\
  emulated_config_bits v' =
    pci_set_long (pci_set_long (emulated_config_bits (vdev w)) IGD_GMCH (Z.lnot 0))
      IGD_BDSM (Z.lnot 0).
Proof.
  intros Hlt.
  unfold igd_bar4_publish, bind, fw_cfg_add_file, modify_vdev, modify, gets, emit, ret.
  destruct (Z.ltb_spec gen 11); [| lia]. repeat split; reflexivity.
Qed.

Lemma accepted_override_size gen x gms :
  0 <= gms <= gms_limit gen ->
  igd_stolen_memory_size gen (replace_field (gms_shift gen) (gms_width gen) x gms)
  = gms * (32 * MiB).
Proof.
  intros Hg. rewrite igd_stolen_memory_size_formula. cbv zeta.
  unfold gms_limit, gms_shift, gms_width in *.
  destruct (Z.ltb_spec gen 8) as [H8 | H8].
  - rewrite field_replace_field by lia.
    destruct (Z.ltb_spec gen 9); [reflexivity | lia].
  - rewrite field_replace_field by lia.
    destruct (gen <? 9); [reflexivity |].
    destruct (Z.ltb_spec gms 0xF0); [reflexivity | lia].
Qed.

Lemma gms_limit_nonneg gen : 0 <= gms_limit gen.
Proof. unfold gms_limit. destruct (gen <? 8); lia. Qed.

Lemma gms_field_in_word gen :
  0 <= gms_shift gen /\ 0 <= gms_width gen /\ gms_shift gen + gms_width gen <= 32 /\
  gms_limit gen < 2 ^ gms_width gen.
Proof. unfold gms_shift, gms_width, gms_limit. destruct (gen <? 8); lia. Qed.

(** C4: once the setup steps have succeeded and the user gave a nonzero
    [x-igd-gms], the override is accepted exactly when it is at most 0x10
    (generation below 8) or 0x40 (generation 8 and later).  Accepted: the
    GMS field of the register value becomes the override, its other bits
    stay, no error is reported, and the size published is override * 32 MiB.
    Rejected: the invalid-parameter error is reported, the function carries
    on, and the size published is that of the unmodified register value. *)
Theorem bar4_override_validation (K : Kernel) (nr : Z) (w : World)
    (gen gmch : Z) (w1 : World) :
  igd_bar4_setup K nr w = (Some (gen, gmch), w1) ->
  is_u32 (igd_gms (vdev w)) ->
  igd_gms (vdev w) <> 0 ->
  let gms := igd_gms (vdev w) in
  let field_bits := Z.shiftl (Z.ones (gms_width gen)) (gms_shift gen) in
  let wf := snd (vfio_probe_igd_bar4_quirk K nr w) in
  (gms <= gms_limit gen ->
     exists gmch',
       field (gms_shift gen) (gms_width gen) gmch' = gms /\
       Z.ldiff gmch' field_bits = Z.ldiff gmch field_bits /\
       wf = snd (igd_bar4_publish gen gmch' w1) /\
       fw_cfg wf = fw_cfg w1 ++ [bdsm_size_entry (gms * (32 * MiB))] /\
       log wf = log w1 ++ [bdsm_enabled_trace w1 (gms * (32 * MiB))])
  /\
  (gms_limit gen < gms ->
     wf = snd (igd_bar4_publish gen gmch
                 (with_log (fun l => l ++ [gms_range_report gen]) w1)) /\
     fw_cfg wf = fw_cfg w1 ++ [bdsm_size_entry (igd_stolen_memory_size gen gmch)] /\
     log wf = log w1 ++ [gms_range_report gen;
                         bdsm_enabled_trace w1 (igd_stolen_memory_size gen gmch)]).
Proof.
  intros Hsetup Hu32 Hnz gms field_bits wf.
  pose proof (keeps_bar4_setup K nr w) as Hkeep. rewrite Hsetup in Hkeep.
  cbn [snd] in Hkeep. destruct Hkeep as [_ _ _ Hgms _ _ _ _].
  destruct (bar4_setup_some _ _ _ _ _ _ Hsetup) as (_ & _ & _ & Hgmch).
  assert (Hword : is_u32 gmch) by (rewrite Hgmch; apply to_u32_range).
  destruct (gms_field_in_word gen) as (Hs & Hw & H32 & Hlim).
  subst wf. rewrite (bar4_run _ _ _ _ _ _ Hsetup).
  split; intros Hcmp.
  - rewrite bar4_override_accept by (rewrite Hgms; assumption).
    cbn [fst snd]. rewrite Hgms. fold gms.
    assert (Hv : 0 <= gms < 2 ^ gms_width gen) by (unfold is_u32 in Hu32; lia).
    exists (replace_field (gms_shift gen) (gms_width gen) gmch gms).
    split; [apply field_replace_field; assumption |].
    split; [apply ldiff_replace_field; assumption |].
    split; [reflexivity |].
    rewrite publish_fw_cfg, publish_log, accepted_override_size
      by (unfold is_u32 in Hu32; lia).
    split; reflexivity.
  - rewrite bar4_override_reject by (rewrite ?Hgms; auto using gms_limit_nonneg).
    cbn [fst snd].
    split; [reflexivity |].
    rewrite publish_fw_cfg, publish_log. cbn [fw_cfg log with_log].
    rewrite <- app_assoc. split; reflexivity.
Qed.

Lemma bar4_override_validation_witness :
  (let K := Sample.kernel 0x1000 in
   let w := Sample.machine 0x1912 0x40 false in
   fw_cfg (snd (vfio_probe_igd_bar4_quirk K 4 w)) =
     fw_cfg (snd (igd_bar4_setup K 4 w)) ++ [bdsm_size_entry (0x40 * (32 * MiB))]) /\
  (let K := Sample.kernel 0x1000 in
   let w := Sample.machine 0x0412 0x11 false in
   log (snd (vfio_probe_igd_bar4_quirk K 4 w)) =
     log (snd (igd_bar4_setup K 4 w)) ++
       [gms_range_report 7;
        bdsm_enabled_trace (snd (igd_bar4_setup K 4 w))
          (igd_stolen_memory_size 7 0x1000)]).
Proof.
  split; intros K w.
  - destruct (bar4_override_validation K 4 w 9 0x1000 (snd (igd_bar4_setup K 4 w)))
      as [Haccepted _].
    + vm_compute. reflexivity.
    + subst K w. unfold is_u32. simpl. lia.
    + subst K w. simpl. lia.
    + destruct Haccepted as (gmch' & _ & _ & _ & Hfw & _).
      * subst K w. unfold gms_limit. simpl. lia.
      * exact Hfw.
  - destruct (bar4_override_validation K 4 w 7 0x1000 (snd (igd_bar4_setup K 4 w)))
      as [_ Hrejected].
    + vm_compute. reflexivity.
    + subst K w. unfold is_u32. simpl. lia.
    + subst K w. simpl. lia.
    + destruct Hrejected as (_ & _ & Hlog).
      * subst K w. unfold gms_limit. simpl. lia.
      * exact Hlog.
Defined.

Lemma igd_gen_skylake v : device_id v = 0x1912 -> igd_gen v = 9.
Proof. intros H. unfold igd_gen. rewrite H. reflexivity. Qed.

Lemma skylake_override gmch w :
  field 8 8 gmch = 0x10 ->
  igd_gms (vdev w) = 0 \/ igd_gms (vdev w) = 0x10 \/ 0x40 < igd_gms (vdev w) ->
  let r := igd_bar4_override 9 gmch w in
  igd_stolen_memory_size 9 (fst r) = 512 * MiB /\
  vdev (snd r) = vdev w /\ fw_cfg (snd r) = fw_cfg w.
Proof.
  intros Hfield Hgms.
  assert (Hsize : igd_stolen_memory_size 9 gmch = 512 * MiB).
  { rewrite igd_stolen_memory_size_formula. cbv zeta.
    change (9 <? 8) with false. change (9 <? 9) with false. cbv iota.
    rewrite Hfield. reflexivity. }
  destruct Hgms as [H0 | [H10 | Hbig]].
  - rewrite bar4_override_zero by exact H0. auto.
  - rewrite bar4_override_accept by (rewrite H10; unfold gms_limit; simpl; lia).
    cbn [fst snd]. rewrite H10.
    rewrite (accepted_override_size 9 gmch 0x10) by (unfold gms_limit; simpl; lia).
    auto.
  - rewrite bar4_override_reject by (unfold gms_limit; simpl; lia).
    cbn [fst snd]. auto.
Qed.

Lemma bar4_override_vdev gen gmch w :
  vdev (snd (igd_bar4_override gen gmch w)) = vdev w.
Proof.
  unfold igd_bar4_override, bind, gets, emit, modify, ret.
  destruct (igd_gms (vdev w) =? 0); cbn [negb fst snd]; [reflexivity |].
  destruct (gen <? 8).
  - destruct (igd_gms (vdev w) <=? 0x10); reflexivity.
  - destruct (igd_gms (vdev w) <=? 0x40); reflexivity.
Qed.

(** C3 (as amended): device ID 0x1912 is generation 9; when all setup steps
    succeed and the GMCH register read carries 0x10 in its 8-bit GMS field,
    the 4-byte BDSM register at 0x5C reads 0 in config space and 0xffffffff in
    the write mask and in the emulated bits, whatever the user override is;
    and when the user override leaves the field at 0x10 (no override, an
    override of 0x10, or one above 0x40, which is rejected), the quirk adds
    the fw_cfg file etc/igd-bdsm-size holding 512 MiB as 8 little-endian
    bytes. *)
Theorem bar4_skylake_end_to_end (K : Kernel) (nr : Z) (w : World)
    (gen gmch : Z) (w1 : World) :
  device_id (vdev w) = 0x1912 ->
  config_space_ok (vdev w) ->
  igd_bar4_setup K nr w = (Some (gen, gmch), w1) ->
  field 8 8 gmch = 0x10 ->
  let wf := snd (vfio_probe_igd_bar4_quirk K nr w) in
  gen = 9 /\
  pci_get_long (config (pdev (vdev wf))) IGD_BDSM = Some 0 /\
  pci_get_long (wmask (pdev (vdev wf))) IGD_BDSM = Some 0xffffffff /\
  pci_get_long (emulated_config_bits (vdev wf)) IGD_BDSM = Some 0xffffffff /\
  bdsm_size_entry (512 * MiB) = ("etc/igd-bdsm-size", [0; 0; 0; 0x20; 0; 0; 0; 0]) /\
  (igd_gms (vdev w) = 0 \/ igd_gms (vdev w) = 0x10 \/ 0x40 < igd_gms (vdev w) ->
   fw_cfg wf = fw_cfg w1 ++ [bdsm_size_entry (512 * MiB)]).
Proof.
  intros Hid (Hcfg & Hwm & Hemu) Hsetup Hfield wf.
  pose proof (keeps_bar4_setup K nr w) as Hkeep. rewrite Hsetup in Hkeep.
  cbn [snd] in Hkeep. destruct Hkeep as [_ _ _ Hsame _ Hlc Hlw Hle].
  destruct (bar4_setup_some _ _ _ _ _ _ Hsetup) as (_ & Hgen & _ & _).
  rewrite (igd_gen_skylake _ Hid) in Hgen. subst gen.
  subst wf. rewrite (bar4_run _ _ _ _ _ _ Hsetup).
  set (r := igd_bar4_override 9 gmch w1).
  assert (Hvdev : vdev (snd r) = vdev w1) by apply bar4_override_vdev.
  destruct (publish_bdsm_long 9 (fst r) (snd r) ltac:(lia)) as (Hc & Hm & He).
  rewrite publish_fw_cfg, Hc, Hm, He, Hvdev.
  change (Z.to_nat PCI_CONFIG_SPACE_SIZE) with 256%nat in *.
  rewrite !pci_get_set_long
    by (unfold IGD_BDSM; rewrite ?length_pci_set_long; simpl; lia).
  repeat split; try reflexivity.
  intros Hgms. rewrite <- Hsame in Hgms.
  destruct (skylake_override gmch w1 Hfield Hgms) as (Hsize & _ & Hfw).
  fold r in Hsize, Hfw. rewrite Hsize, Hfw. reflexivity.
Qed.

Lemma bar4_skylake_end_to_end_witness :
  let K := Sample.kernel 0x1000 in
  let w := Sample.machine 0x1912 0 false in
  let wf := snd (vfio_probe_igd_bar4_quirk K 4 w) in
  9 = 9 /\
  pci_get_long (config (pdev (vdev wf))) IGD_BDSM = Some 0 /\
  pci_get_long (wmask (pdev (vdev wf))) IGD_BDSM = Some 0xffffffff /\
  pci_get_long (emulated_config_bits (vdev wf)) IGD_BDSM = Some 0xffffffff /\
  bdsm_size_entry (512 * MiB) = ("etc/igd-bdsm-size", [0; 0; 0; 0x20; 0; 0; 0; 0]) /\
  fw_cfg wf = fw_cfg (snd (igd_bar4_setup K 4 w)) ++ [bdsm_size_entry (512 * MiB)].
Proof.
  intros K w.
  destruct (bar4_skylake_end_to_end K 4 w 9 0x1000 (snd (igd_bar4_setup K 4 w)))
    as (Hgen & Hc & Hm & He & Hentry & Hsize).
  - reflexivity.
  - unfold config_space_ok. repeat split; apply Nat.leb_le; vm_compute; reflexivity.
  - vm_compute. reflexivity.
  - reflexivity.
  - exact (conj Hgen (conj Hc (conj Hm (conj He (conj Hentry
             (Hsize (or_introl eq_refl))))))).
Defined.

(** C3 as stated fails: the same device and register with the override
    [x-igd-gms] = 0x20, which is in range for generation 9.  All setup steps
    succeed, the register field is 0x10, and the entry published is 1024 MiB;
    no entry of 512 MiB exists. *)
Lemma bar4_skylake_override_counterexample :
  let K := Sample.kernel 0x1000 in
  let w := Sample.machine 0x1912 0x20 false in
  let wf := snd (vfio_probe_igd_bar4_quirk K 4 w) in
  device_id (vdev w) = 0x1912 /\
  fst (igd_bar4_setup K 4 w) = Some (9, 0x1000) /\
  field 8 8 0x1000 = 0x10 /\
  fw_cfg wf = fw_cfg (snd (igd_bar4_setup K 4 w)) ++ [bdsm_size_entry (1024 * MiB)] /\
  ~ In (bdsm_size_entry (512 * MiB)) (fw_cfg wf).
Proof.
  cbv zeta. repeat split; try (vm_compute; reflexivity).
  vm_compute. intros [H | [H | []]]; discriminate H.
Qed.

(** C10: with [x-igd-gms] equal to 0 the override block is skipped: the
    register value read by [vfio_pci_read_config] is used as it is, no
    parameter error is reported, and the size published is that of the
    register's own GMS field, whatever it is; the field cannot be forced to
    zero this way. *)
Theorem bar4_zero_override_ignored (K : Kernel) (nr : Z) (w : World)
    (gen gmch : Z) (w1 : World) :
  igd_bar4_setup K nr w = (Some (gen, gmch), w1) ->
  igd_gms (vdev w) = 0 ->
  let wf := snd (vfio_probe_igd_bar4_quirk K nr w) in
  igd_bar4_override gen gmch w1 = (gmch, w1) /\
  gmch = to_u32 (k_read_config K IGD_GMCH 4) /\
  wf = snd (igd_bar4_publish gen gmch w1) /\
  fw_cfg wf = fw_cfg w1 ++ [bdsm_size_entry (igd_stolen_memory_size gen gmch)] /\
  log wf = log w1 ++ [bdsm_enabled_trace w1 (igd_stolen_memory_size gen gmch)].
Proof.
  intros Hsetup Hzero wf.
  pose proof (keeps_bar4_setup K nr w) as Hkeep. rewrite Hsetup in Hkeep.
  cbn [snd] in Hkeep. destruct Hkeep as [_ _ _ Hsame _ _ _ _].
  destruct (bar4_setup_some _ _ _ _ _ _ Hsetup) as (_ & _ & _ & Hgmch).
  assert (Hskip : igd_bar4_override gen gmch w1 = (gmch, w1))
    by (apply bar4_override_zero; congruence).
  subst wf. rewrite (bar4_run _ _ _ _ _ _ Hsetup), Hskip. cbn [fst snd].
  rewrite publish_fw_cfg, publish_log. auto.
Qed.

Lemma bar4_zero_override_ignored_witness :
  let K := Sample.kernel 0x1000 in
  let w := Sample.machine 0x1912 0 false in
  let w1 := snd (igd_bar4_setup K 4 w) in
  let wf := snd (vfio_probe_igd_bar4_quirk K 4 w) in
  igd_bar4_override 9 0x1000 w1 = (0x1000, w1) /\
  0x1000 = to_u32 (k_read_config K IGD_GMCH 4) /\
  wf = snd (igd_bar4_publish 9 0x1000 w1) /\
  fw_cfg wf = fw_cfg w1 ++ [bdsm_size_entry (igd_stolen_memory_size 9 0x1000)] /\
  log wf = log w1 ++ [bdsm_enabled_trace w1 (igd_stolen_memory_size 9 0x1000)].
Proof.
  intros K w w1 wf.
  apply (bar4_zero_override_ignored K 4 w 9 0x1000 w1).
  - vm_compute. reflexivity.
  - reflexivity.
Defined.

(** ** The OpRegion step *)

Lemma pread_run K count offset w :
  pread K count offset w =
    match k_pread K offset count with
    | PreadData data =>
        ((Z.of_nat (length (take (Z.to_nat count) data)), take (Z.to_nat count) data),
         with_log (fun l => l ++ [EvPread count offset]) w)
    | PreadError e =>
        ((-1, []),
         with_errno e (with_log (fun l => l ++ [EvPread count offset]) w))
    end.
Proof.
  unfold pread, bind, emit, modify, ret.
  destruct (k_pread K offset count); reflexivity.
Qed.

Lemma overwrite_full (data : list Z) n :
  length data = n -> overwrite data (replicate n 0) = data.
Proof.
  intros H. unfold overwrite. rewrite drop_ge by (rewrite length_replicate; lia).
  apply app_nil_r.
Qed.

Lemma opregion_init_full_read K info w data :
  0 <= info_size info < 2 ^ 31 ->
  k_pread K (info_offset info) (info_size info) = PreadData data ->
  (Z.to_nat (info_size info) <= length data)%nat ->
  let blob := take (Z.to_nat (info_size info)) data in
  vfio_pci_igd_opregion_init K info w =
    (Success,
     with_vdev (fun v =>
         set_emulated_config_bits
           (pci_set_long (emulated_config_bits v) IGD_ASLS (Z.lnot 0))
           (set_pdev (set_wmask (pci_set_long (wmask (pdev v)) IGD_ASLS (Z.lnot 0))
                        (set_config (pci_set_long (config (pdev v)) IGD_ASLS 0) (pdev v)))
              (set_igd_opregion
                 (if info_size info =? 0 then None else Some blob) v)))
       (with_log (fun l => l ++ [EvPread (info_size info) (info_offset info);
                                 EvTrace "vfio_pci_igd_opregion_enabled"
                                   (vbasedev_name (vdev w)) []])
          (with_fw_cfg (fun f => f ++ [("etc/igd-opregion", blob)]) w))).
Proof.
  intros Hsize Hread Hlen blob.
  assert (Hblob : length blob = Z.to_nat (info_size info))
    by (subst blob; rewrite length_take; lia).
  unfold vfio_pci_igd_opregion_init, g_malloc0, bind, modify_vdev, modify.
  rewrite pread_run, Hread. fold blob.
  unfold gets, emit, modify, ret, fw_cfg_add_file.
  cbv beta iota zeta delta [fst snd].
  rewrite Hblob. rewrite Z2Nat.id by lia.
  rewrite (to_int_small (info_size info)) by lia.
  rewrite (to_u64_small (info_size info)) by lia.
  rewrite Z.eqb_refl. cbv beta iota delta [negb].
  destruct (Z.eqb_spec (info_size info) 0) as [Hzero | Hpos].
  - assert (Hnil : blob = []).
    { apply length_zero_iff_nil. rewrite Hblob, Hzero. reflexivity. }
    rewrite Hnil, Hzero.
    cbn -[pci_set_long to_u64 to_int Z.lnot].
    unfold with_vdev, with_log, with_fw_cfg.
    cbn -[pci_set_long to_u64 to_int Z.lnot].
    rewrite <- app_assoc. reflexivity.
  - cbn -[pci_set_long to_u64 to_int take replicate overwrite Z.to_nat Z.lnot].
    unfold with_vdev, with_log, with_fw_cfg.
    cbn -[pci_set_long to_u64 to_int take replicate overwrite Z.to_nat Z.lnot].
    rewrite !overwrite_full by exact Hblob.
    rewrite take_ge by lia.
    rewrite <- app_assoc. reflexivity.
Qed.

Lemma setup_opregion_run K w :
  hotplugged (pdev (vdev w)) = false ->
  vfio_pci_igd_setup_opregion K w =
    let w1 := with_log (fun l => l ++ [EvDevRegionInfo (fst opregion_query)
                                         (snd opregion_query)]) w in
    match k_dev_region_info K (fst opregion_query) (snd opregion_query) with
    | RegionError r =>
        (Failure (error_setg_errno (- r)
                    "Device does not supports IGD OpRegion feature"), w1)
    | RegionFound info => vfio_pci_igd_opregion_init K info w1
    end.
Proof.
  intros Hhot.
  unfold vfio_pci_igd_setup_opregion, vfio_get_dev_region_info, bind, gets,
    emit, modify, ret.
  rewrite Hhot. cbv beta iota zeta. unfold opregion_query. cbn [fst snd].
  destruct (k_dev_region_info K _ _) as [info | r]; [| reflexivity].
  destruct (vfio_pci_igd_opregion_init K info _) as [[| e] w2]; reflexivity.
Qed.

(** X1: on a cold-plugged device whose kernel has the OpRegion region,
    smaller than 2 GiB, and hands it out in full, [vfio_pci_igd_setup_opregion]
    succeeds: the device keeps the bytes read as its OpRegion (for a region of
    size 0 it keeps no buffer, the allocation of 0 bytes being [NULL]), fw_cfg
    gains the file "etc/igd-opregion" with exactly these bytes as its last
    entry, the ASLS register at 0xFC reads 0 and is fully writable and fully
    emulated, and no device on the bus changes. *)
Theorem setup_opregion_publishes (K : Kernel) (w : World)
    (info : vfio_region_info) (data : list Z) :
  hotplugged (pdev (vdev w)) = false ->
  k_dev_region_info K (fst opregion_query) (snd opregion_query) = RegionFound info ->
  0 <= info_size info < 2 ^ 31 ->
  k_pread K (info_offset info) (info_size info) = PreadData data ->
  (Z.to_nat (info_size info) <= length data)%nat ->
  config_space_ok (vdev w) ->
  let blob := take (Z.to_nat (info_size info)) data in
  let r := vfio_pci_igd_setup_opregion K w in
  fst r = Success /\
  igd_opregion (vdev (snd r)) = (if info_size info =? 0 then None else Some blob) /\
  fw_cfg (snd r) = fw_cfg w ++ [("etc/igd-opregion", blob)] /\
  pci_get_long (config (pdev (vdev (snd r)))) IGD_ASLS = Some 0 /\
  pci_get_long (wmask (pdev (vdev (snd r)))) IGD_ASLS = Some 0xffffffff /\
  pci_get_long (emulated_config_bits (vdev (snd r))) IGD_ASLS = Some 0xffffffff /\
  bus (snd r) = bus w.
Proof.
  intros Hhot Hq Hsize Hread Hlen (Hc & Hm & He) blob r. subst r.
  rewrite setup_opregion_run by exact Hhot. cbv zeta. rewrite Hq.
  rewrite (opregion_init_full_read K info _ data Hsize Hread Hlen).
  change (Z.to_nat PCI_CONFIG_SPACE_SIZE) with 256%nat in *.
  cbn [fst snd with_vdev with_log with_fw_cfg vdev fw_cfg bus
       set_emulated_config_bits set_pdev set_wmask set_config set_igd_opregion
       igd_opregion pdev config wmask emulated_config_bits].
  rewrite !pci_get_set_long by (unfold IGD_ASLS; simpl; lia).
  repeat split; reflexivity.
Qed.

Lemma setup_opregion_publishes_witness :
  let K := Sample.kernel 0x1000 in
  let w := Sample.machine 0x1912 0 false in
  let r := vfio_pci_igd_setup_opregion K w in
  fst r = Success /\
  igd_opregion (vdev (snd r)) = Some (replicate 16 0xAB) /\
  fw_cfg (snd r) = [("etc/igd-opregion", replicate 16 0xAB)] /\
  pci_get_long (config (pdev (vdev (snd r)))) IGD_ASLS = Some 0 /\
  pci_get_long (wmask (pdev (vdev (snd r)))) IGD_ASLS = Some 0xffffffff /\
  pci_get_long (emulated_config_bits (vdev (snd r))) IGD_ASLS = Some 0xffffffff /\
  bus (snd r) = bus w.
Proof.
  intros K w.
  apply (setup_opregion_publishes K w {| info_size := 16; info_offset := 0x1000 |}
           (replicate 16 0xAB)).
  - reflexivity.
  - reflexivity.
  - simpl. lia.
  - reflexivity.
  - simpl. lia.
  - unfold config_space_ok. repeat split; apply Nat.leb_le; vm_compute; reflexivity.
Defined.

(** X2: whenever [vfio_pci_igd_setup_opregion] fails, for whatever reason,
    it has published nothing and armed nothing: fw_cfg, the config space and
    write mask of the device, its emulated bits and the bus are as before, and
    the OpRegion buffer of the device is either untouched or freed. *)
Theorem setup_opregion_failure_is_clean (K : Kernel) (w : World) (e : Error) :
  fst (vfio_pci_igd_setup_opregion K w) = Failure e ->
  let w' := snd (vfio_pci_igd_setup_opregion K w) in
  fw_cfg w' = fw_cfg w /\
  pdev (vdev w') = pdev (vdev w) /\
  emulated_config_bits (vdev w') = emulated_config_bits (vdev w) /\
  bus w' = bus w /\
  (igd_opregion (vdev w') = igd_opregion (vdev w) \/ igd_opregion (vdev w') = None).
Proof.
  intros Hfail w'. subst w'.
  destruct (hotplugged (pdev (vdev w))) eqn:Hhot.
  - unfold vfio_pci_igd_setup_opregion, bind, gets. rewrite Hhot.
    cbn [snd ret]. repeat split; auto.
  - revert Hfail. rewrite setup_opregion_run by exact Hhot. cbv zeta.
    destruct (k_dev_region_info K _ _) as [info | r].
    + unfold vfio_pci_igd_opregion_init, bind, modify_vdev, modify.
      rewrite pread_run.
      destruct (k_pread K _ _) as [data | en];
        cbv beta iota zeta delta [fst snd];
        match goal with
        | |- context [negb ?c] => destruct c
        end; cbv beta iota delta [negb].
      all: cbn -[pci_set_long Z.lnot]; intros Hfail; try discriminate Hfail.
      all: repeat split; auto.
    + cbn. intros _. repeat split; auto.
Qed.

(** X3: [vfio_pci_igd_opregion_init] keeps the result of [pread] in an
    [int]; for an OpRegion of 2 GiB or more (below 2^63) the comparison with
    the 64-bit size can never hold, so the function fails with "failed to read
    IGD OpRegion" whatever the kernel returns. *)
Theorem opregion_init_two_gib_limit (K : Kernel) (info : vfio_region_info) (w : World) :
  2 ^ 31 <= info_size info < 2 ^ 63 ->
  fst (vfio_pci_igd_opregion_init K info w)
  = Failure (error_setg "failed to read IGD OpRegion").
Proof.
  intros Hsize.
  assert (Hne : forall r, -1 <= r <= info_size info ->
                          to_u64 (to_int r) <> info_size info).
  { intros r Hr.
    destruct (Z.eq_dec r (info_size info)) as [-> | Hlt].
    - unfold to_u64, to_int.
      pose proof (Z.mod_pos_bound (info_size info + 2 ^ 31) (2 ^ 32) ltac:(lia)).
      set (i := (info_size info + 2 ^ 31) mod 2 ^ 32 - 2 ^ 31) in *.
      destruct (Z.lt_ge_cases i 0).
      + replace (i mod 2 ^ 64) with (i + 2 ^ 64); [lia |].
        apply Z.mod_unique with (q := -1); lia.
      + rewrite Z.mod_small by lia. lia.
    - apply short_count_differs; [unfold allocatable | ]; lia. }
  unfold vfio_pci_igd_opregion_init, bind, modify_vdev, modify.
  rewrite pread_run.
  destruct (k_pread K _ _) as [data | en]; cbv beta iota zeta delta [fst snd].
  - destruct (Z.eqb_spec
      (to_u64 (to_int (Z.of_nat (length (take (Z.to_nat (info_size info)) data)))))
      (info_size info)) as [Heq | _]; [| reflexivity].
    exfalso. revert Heq. apply Hne. rewrite length_take. lia.
  - destruct (Z.eqb_spec (to_u64 (to_int (-1))) (info_size info)) as [Heq | _];
      [| reflexivity].
    exfalso. revert Heq. apply Hne. lia.
Qed.

Lemma opregion_init_two_gib_limit_witness :
  fst (vfio_pci_igd_opregion_init (Sample.kernel 0x1000)
         {| info_size := 2 ^ 31; info_offset := 0 |} (Sample.machine 0x1912 0 false))
  = Failure (error_setg "failed to read IGD OpRegion").
Proof.
  apply (opregion_init_two_gib_limit (Sample.kernel 0x1000)
           {| info_size := 2 ^ 31; info_offset := 0 |} (Sample.machine 0x1912 0 false)).
  simpl. lia.
Defined.

(** ** What [vfio_pci_igd_copy] writes *)

Lemma store_bytes_lookup_above bs : forall mem a i,
  (a + length bs <= i)%nat -> store_bytes mem a bs !! i = mem !! i.
Proof.
  induction bs as [| b bs IH]; intros mem a i Hi; simpl in *.
  - reflexivity.
  - rewrite IH by lia. apply list_lookup_insert_ne. lia.
Qed.

Lemma store_bytes_lookup_outside bs mem a i :
  ~ (a <= i < a + length bs)%nat -> store_bytes mem a bs !! i = mem !! i.
Proof.
  intros Hout. destruct (Nat.lt_ge_cases i a).
  - apply store_bytes_lookup_below. assumption.
  - apply store_bytes_lookup_above. lia.
Qed.

Lemma deref_with_log f w p : deref (with_log f w) p = deref w p.
Proof. destruct p; reflexivity. Qed.

Lemma deref_with_errno e w p : deref (with_errno e w) p = deref w p.
Proof. destruct p; reflexivity. Qed.

Lemma write_config_deref p off data w d :
  deref w p = Some d ->
  let w' := snd (write_config p off data w) in
  deref w' p = Some (set_config (store_bytes (config d) (Z.to_nat off) data) d) /\
  (forall q, q <> p -> deref w' q = deref w q) /\
  fw_cfg w' = fw_cfg w /\ log w' = log w /\ errno w' = errno w.
Proof.
  intros Hd w'. subst w'. destruct p as [| fn].
  - simpl in *. injection Hd as <-. split; [reflexivity |].
    split; [| auto]. intros [| fn'] Hq; [contradiction | reflexivity].
  - unfold write_config, modify, with_bus, deref in *. cbn [snd bus fw_cfg log errno].
    destruct (bus w !! fn) as [[| d0] |] eqn:Hfn; try discriminate.
    injection Hd as ->.
    split; [| split; [| auto]].
    + rewrite lookup_alter_eq, Hfn. reflexivity.
    + intros [| fn'] Hq; [reflexivity |].
      rewrite lookup_alter_ne by congruence. reflexivity.
Qed.

Lemma pread_data_length K count offset w :
  (length (snd (fst (pread K count offset w))) <= Z.to_nat count)%nat.
Proof.
  rewrite pread_run. destruct (k_pread K offset count); cbn [fst snd].
  - rewrite length_take. lia.
  - simpl. lia.
Qed.

Lemma pread_world K count offset w p :
  deref (snd (pread K count offset w)) p = deref w p /\
  fw_cfg (snd (pread K count offset w)) = fw_cfg w.
Proof.
  rewrite pread_run. destruct (k_pread K offset count); cbn [snd];
    rewrite ?deref_with_errno, ?deref_with_log; auto.
Qed.

Lemma igd_copy_frame (K : Kernel) (info : vfio_region_info)
    (l : list IGDHostInfo) (p : dev_ptr) (w : World) (d : PCIDevice) :
  deref w p = Some d ->
  let w' := snd (vfio_pci_igd_copy K p info l w) in
  exists d',
    deref w' p = Some d' /\
    devfn d' = devfn d /\ qom_types d' = qom_types d /\ wmask d' = wmask d /\
    length (config d') = length (config d) /\
    (forall i : nat, ~ Exists (fun e => register_bytes e i) l ->
                     config d' !! i = config d !! i) /\
    (forall q, q <> p -> deref w' q = deref w q) /\
    fw_cfg w' = fw_cfg w.
Proof.
  revert w d. induction l as [| e rest IH]; intros w d Hd; cbn zeta.
  - exists d. simpl. repeat split; auto.
  - cbn [vfio_pci_igd_copy]. unfold bind.
    pose proof (pread_data_length K (hi_len e) (to_u64 (info_offset info + hi_offset e)) w)
      as Hlen.
    destruct (pread_world K (hi_len e) (to_u64 (info_offset info + hi_offset e)) w p)
      as [Hp1 Hfw1].
    assert (Hq1 : forall q, deref (snd (pread K (hi_len e)
                     (to_u64 (info_offset info + hi_offset e)) w)) q = deref w q)
      by (intros q; apply pread_world).
    destruct (pread K (hi_len e) (to_u64 (info_offset info + hi_offset e)) w)
      as [[r data] w1].
    cbn [fst snd] in *.
    rewrite <- Hp1 in Hd.
    destruct (write_config_deref p (hi_offset e) data w1 d Hd)
      as (Hd2 & Hq2 & Hfw2 & _ & _).
    destruct (write_config p (hi_offset e) data w1) as [[] w2]. cbn [snd] in *.
    set (d2 := set_config (store_bytes (config d) (Z.to_nat (hi_offset e)) data) d) in *.
    assert (Hstep : forall i : nat, ~ register_bytes e i -> config d2 !! i = config d !! i).
    { intros i Hi. subst d2. cbn [config set_config].
      apply store_bytes_lookup_outside. unfold register_bytes in Hi. lia. }
    assert (Hlen2 : length (config d2) = length (config d))
      by (subst d2; cbn [config set_config]; apply length_store_bytes).
    destruct (negb (to_int r =? hi_len e)).
    + unfold emit, modify, gets, ret. cbn [snd].
      exists d2.
      assert (forall q, q <> p -> deref (with_log (fun l => l ++
                [EvErrorReport "IGD copy failed: %m"]) w2) q = deref w q)
        by (intros q Hq; rewrite deref_with_log, Hq2, Hq1 by exact Hq; reflexivity).
      assert (forall i : nat, ~ Exists (fun e0 => register_bytes e0 i) (e :: rest) ->
                config d2 !! i = config d !! i)
        by (intros i Hi; apply Hstep; intros He; apply Hi, Exists_cons_hd, He).
      rewrite deref_with_log. cbn [fw_cfg with_log].
      repeat split; auto; congruence.
    + destruct (IH w2 d2 Hd2) as (d' & Hd' & Hfn & Hty & Hwm & Hlen' & Hout & Hq' & Hfw').
      exists d'.
      assert (forall q, q <> p -> deref (snd (vfio_pci_igd_copy K p info rest w2)) q
                                  = deref w q)
        by (intros q Hq; rewrite Hq', Hq2, Hq1 by exact Hq; reflexivity).
      assert (forall i : nat, ~ Exists (fun e0 => register_bytes e0 i) (e :: rest) ->
                config d' !! i = config d !! i).
      { intros i Hi. rewrite Hout, Hstep; [reflexivity | |].
        - intros He. apply Hi, Exists_cons_hd, He.
        - intros He. apply Hi, Exists_cons_tl, He. }
      repeat split; auto; congruence.
Qed.

(** X4: [vfio_pci_igd_copy] into a device changes nothing but config bytes
    of that device inside the listed registers: its address, type, write mask
    and config length stay, every config byte outside the listed registers
    stays, every other device stays, and fw_cfg stays; this holds whether the
    reads succeed or not. *)
Theorem igd_copy_writes_only_listed (K : Kernel) (info : vfio_region_info)
    (l : list IGDHostInfo) (p : dev_ptr) (w : World) (d : PCIDevice) :
  deref w p = Some d ->
  let w' := snd (vfio_pci_igd_copy K p info l w) in
  exists d',
    deref w' p = Some d' /\
    devfn d' = devfn d /\ qom_types d' = qom_types d /\ wmask d' = wmask d /\
    length (config d') = length (config d) /\
    (forall i : nat, ~ Exists (fun e => register_bytes e i) l ->
                     config d' !! i = config d !! i) /\
    (forall q, q <> p -> deref w' q = deref w q) /\
    fw_cfg w' = fw_cfg w.
Proof. apply igd_copy_frame. Qed.

Lemma igd_copy_writes_only_listed_witness :
  let w := Sample.machine 0x1912 0 false in
  let w' := snd (vfio_pci_igd_copy (Sample.kernel 0x1000) (PtrBus 0)
                   {| info_size := 16; info_offset := 0x2000 |}
                   igd_host_bridge_infos w) in
  exists d',
    deref w' (PtrBus 0) = Some d' /\
    devfn d' = devfn Sample.host_bridge /\
    qom_types d' = qom_types Sample.host_bridge /\
    wmask d' = wmask Sample.host_bridge /\
    length (config d') = length (config Sample.host_bridge) /\
    (forall i : nat, ~ Exists (fun e => register_bytes e i) igd_host_bridge_infos ->
                     config d' !! i = config Sample.host_bridge !! i) /\
    (forall q, q <> PtrBus 0 -> deref w' q = deref w q) /\
    fw_cfg w' = fw_cfg w.
Proof.
  intros w.
  apply (igd_copy_writes_only_listed (Sample.kernel 0x1000)
           {| info_size := 16; info_offset := 0x2000 |} igd_host_bridge_infos
           (PtrBus 0) w Sample.host_bridge).
  vm_compute. reflexivity.
Defined.

Lemma take_drop_store_bytes bs : forall mem a,
  (a + length bs <= length mem)%nat ->
  take (length bs) (drop a (store_bytes mem a bs)) = bs.
Proof.
  induction bs as [| b bs IH]; intros mem a Hlen; simpl in *.
  - apply take_0.
  - assert (Ha : (a < length (store_bytes (<[a:=b]> mem) (S a) bs))%nat)
      by (rewrite length_store_bytes, length_insert; lia).
    destruct (lookup_lt_is_Some_2 _ _ Ha) as [x Hx].
    rewrite (drop_S _ x a Hx). cbn [take]. f_equal.
    + rewrite store_bytes_lookup_below in Hx by lia.
      rewrite list_lookup_insert_eq in Hx by lia. congruence.
    + apply IH. rewrite length_insert. lia.
Qed.

Lemma register_of_agree e cfg cfg' :
  (forall i, register_bytes e i -> cfg' !! i = cfg !! i) ->
  register_of e cfg' = register_of e cfg.
Proof.
  intros Hagree. unfold register_of. apply list_eq. intros k.
  rewrite !lookup_take.
  destruct (decide (k < Z.to_nat (hi_len e))%nat) as [Hk | Hk]; [| reflexivity].
  rewrite !lookup_drop. apply Hagree. unfold register_bytes. lia.
Qed.

Lemma register_fits_length cfg cfg' e :
  length cfg' = length cfg -> register_fits cfg e -> register_fits cfg' e.
Proof. unfold register_fits. intros ->. auto. Qed.

Lemma igd_copy_all_read K info l : forall p w d,
  deref w p = Some d ->
  Forall (full_read K info) l ->
  Forall (register_fits (config d)) l ->
  disjoint_registers l ->
  let r := vfio_pci_igd_copy K p info l w in
  fst r = 0 /\
  log (snd r) = log w ++ copy_reads info l /\
  errno (snd r) = errno w /\
  exists d', deref (snd r) p = Some d' /\
             Forall (fun e => register_of e (config d') = kernel_bytes K info e) l.
Proof.
  induction l as [| e rest IH]; intros p w d Hd Hfull Hfits Hdisj; cbn zeta.
  - simpl. rewrite app_nil_r. repeat split; auto. exists d. auto.
  - apply Forall_cons_1 in Hfull as [(data & Hread & Hdata) Hfull].
    apply Forall_cons_1 in Hfits as [[Hlen Hfit] Hfits].
    destruct Hdisj as [Hdis Hdisj].
    set (blob := take (Z.to_nat (hi_len e)) data).
    assert (Hblob : length blob = Z.to_nat (hi_len e))
      by (subst blob; rewrite length_take; lia).
    cbn [vfio_pci_igd_copy]. unfold bind.
    rewrite pread_run, Hread. fold blob. cbn [fst snd].
    set (w1 := with_log _ w).
    assert (Hd1 : deref w1 p = Some d) by (subst w1; rewrite deref_with_log; exact Hd).
    destruct (write_config_deref p (hi_offset e) blob w1 d Hd1)
      as (Hd2 & _ & _ & Hlog2 & Herr2).
    destruct (write_config p (hi_offset e) blob w1) as [[] w2]. cbn [snd] in *.
    set (d2 := set_config (store_bytes (config d) (Z.to_nat (hi_offset e)) blob) d) in *.
    rewrite Hblob, Z2Nat.id, (to_int_small (hi_len e)), Z.eqb_refl by lia.
    cbn [negb].
    assert (Hlen2 : length (config d2) = length (config d))
      by (subst d2; cbn [config set_config]; apply length_store_bytes).
    assert (Hfits2 : Forall (register_fits (config d2)) rest)
      by (eapply Forall_impl; [intros x; apply register_fits_length, Hlen2 | exact Hfits]).
    destruct (IH p w2 d2 Hd2 Hfull Hfits2 Hdisj) as (Hret & Hlog & Herr & d' & Hd' & Hregs).
    destruct (igd_copy_frame K info rest p w2 d2 Hd2)
      as (d'' & Hd'' & _ & _ & _ & _ & Hout & _ & _).
    assert (d'' = d') as -> by congruence.
    split; [exact Hret |].
    split; [rewrite Hlog, Hlog2; subst w1; cbn [log with_log copy_reads map];
            rewrite <- app_assoc; reflexivity |].
    split; [rewrite Herr, Herr2; reflexivity |].
    exists d'. split; [exact Hd' |].
    apply Forall_cons_2; [| exact Hregs].
    rewrite (register_of_agree e (config d2) (config d')).
    + unfold register_of, kernel_bytes. rewrite Hread. fold blob.
      subst d2. cbn [config set_config]. rewrite <- Hblob.
      apply take_drop_store_bytes. lia.
    + intros i Hi. apply Hout. intros Hex.
      apply Exists_exists in Hex as (e' & Hin & Hi').
      rewrite Forall_forall in Hdis. apply (Hdis e' Hin i). auto.
Qed.

Lemma write_config_log p off data w :
  log (snd (write_config p off data w)) = log w /\
  errno (snd (write_config p off data w)) = errno w.
Proof. destruct p; split; reflexivity. Qed.

Lemma igd_copy_step_full K info e rest p w :
  readable K info e ->
  vfio_pci_igd_copy K p info (e :: rest) w =
    vfio_pci_igd_copy K p info rest
      (snd (write_config p (hi_offset e) (kernel_bytes K info e)
              (with_log (fun l => l ++ copy_reads info [e]) w))).
Proof.
  intros [(data & Hread & Hdata) Hlen].
  cbn [vfio_pci_igd_copy]. unfold bind, kernel_bytes.
  rewrite pread_run, Hread. cbn [fst snd copy_reads map].
  destruct (write_config p (hi_offset e) _ _) as [[] w2]. cbn [snd].
  rewrite length_take, Nat.min_l, Z2Nat.id, (to_int_small (hi_len e)), Z.eqb_refl by lia.
  reflexivity.
Qed.

Lemma igd_copy_step_bad K info e rest p w :
  bad_read K info e ->
  vfio_pci_igd_copy K p info (e :: rest) w = vfio_pci_igd_copy K p info [e] w.
Proof.
  intros [Hlen Hbad].
  cbn [vfio_pci_igd_copy]. unfold bind.
  rewrite pread_run.
  destruct (k_pread K _ _) as [data | en]; cbn [fst snd].
  - destruct (write_config p (hi_offset e) _ _) as [[] w2].
    assert (Hne : to_int (Z.of_nat (length (take (Z.to_nat (hi_len e)) data)))
                  <> hi_len e).
    { rewrite length_take, Nat.min_r by lia.
      rewrite to_int_small by lia. lia. }
    destruct (Z.eqb_spec (to_int (Z.of_nat (length (take (Z.to_nat (hi_len e)) data))))
                (hi_len e)); [contradiction | reflexivity].
  - destruct (write_config p (hi_offset e) _ _) as [[] w2].
    change (to_int (-1)) with (-1).
    destruct (Z.eqb_spec (-1) (hi_len e)); [lia | reflexivity].
Qed.

Lemma igd_copy_stops K info pre e post p : forall w,
  Forall (readable K info) pre -> bad_read K info e ->
  vfio_pci_igd_copy K p info (pre ++ e :: post) w =
  vfio_pci_igd_copy K p info (pre ++ [e]) w.
Proof.
  induction pre as [| x pre IH]; intros w Hpre Hbad.
  - apply igd_copy_step_bad. exact Hbad.
  - apply Forall_cons_1 in Hpre as [Hx Hpre].
    rewrite <- !app_comm_cons, !igd_copy_step_full by exact Hx.
    apply IH; assumption.
Qed.

Lemma igd_copy_full_prefix_log K info pre p : forall w rest,
  Forall (readable K info) pre ->
  exists w1, vfio_pci_igd_copy K p info (pre ++ rest) w = vfio_pci_igd_copy K p info rest w1
             /\ log w1 = log w ++ copy_reads info pre /\ errno w1 = errno w.
Proof.
  induction pre as [| x pre IH]; intros w rest Hpre.
  - exists w. simpl. rewrite app_nil_r. auto.
  - apply Forall_cons_1 in Hpre as [Hx Hpre].
    rewrite <- app_comm_cons, igd_copy_step_full by exact Hx.
    destruct (IH (snd (write_config p (hi_offset x) (kernel_bytes K info x)
                          (with_log (fun l => l ++ copy_reads info [x]) w))) rest Hpre)
      as (w1 & Hrun & Hlog & Herr).
    exists w1. split; [exact Hrun |].
    destruct (write_config_log p (hi_offset x) (kernel_bytes K info x)
                (with_log (fun l => l ++ copy_reads info [x]) w)) as [Hl He].
    rewrite Hlog, Herr, Hl, He. cbn [log errno with_log copy_reads map].
    rewrite <- app_assoc. auto.
Qed.

Lemma igd_copy_bad_last K info e p w :
  bad_read K info e ->
  let r := vfio_pci_igd_copy K p info [e] w in
  fst r = to_int (- errno (snd r)) /\
  log (snd r) = log w ++ copy_reads info [e] ++ [EvErrorReport "IGD copy failed: %m"] /\
  errno (snd r) =
    match k_pread K (to_u64 (info_offset info + hi_offset e)) (hi_len e) with
    | PreadData _ => errno w
    | PreadError en => en
    end.
Proof.
  intros [Hlen Hbad]. cbn zeta.
  cbn [vfio_pci_igd_copy]. unfold bind.
  rewrite pread_run.
  destruct (k_pread K _ _) as [data | en]; cbn [fst snd].
  - destruct (write_config_log p (hi_offset e) (take (Z.to_nat (hi_len e)) data)
                (with_log (fun l => l ++ [EvPread (hi_len e)
                   (to_u64 (info_offset info + hi_offset e))]) w)) as [Hl He].
    destruct (write_config p (hi_offset e) _ _) as [[] w2]. cbn [snd] in *.
    assert (Hne : to_int (Z.of_nat (length (take (Z.to_nat (hi_len e)) data)))
                  <> hi_len e).
    { rewrite length_take, Nat.min_r by lia.
      rewrite to_int_small by lia. lia. }
    destruct (Z.eqb_spec (to_int (Z.of_nat (length (take (Z.to_nat (hi_len e)) data))))
                (hi_len e)); [contradiction |].
    cbn [negb]. unfold emit, modify, gets, ret. cbn [fst snd errno log with_log].
    rewrite Hl, He. cbn [log errno with_log copy_reads map].
    rewrite <- app_assoc. auto.
  - destruct (write_config_log p (hi_offset e) []
                (with_errno en (with_log (fun l => l ++ [EvPread (hi_len e)
                   (to_u64 (info_offset info + hi_offset e))]) w))) as [Hl He].
    destruct (write_config p (hi_offset e) _ _) as [[] w2]. cbn [snd] in *.
    change (to_int (-1)) with (-1).
    destruct (Z.eqb_spec (-1) (hi_len e)); [lia |].
    cbn [negb]. unfold emit, modify, gets, ret. cbn [fst snd errno log with_log].
    rewrite Hl, He. cbn [log errno with_log with_errno copy_reads map].
    rewrite <- app_assoc. auto.
Qed.

(** ** The bridge step *)

Lemma lpc_init_create K info w :
  bus w !! PCI_DEVFN 0x1f 0 = None ->
  let c := vfio_pci_igd_copy K (PtrBus (PCI_DEVFN 0x1f 0)) info igd_lpc_bridge_infos
             (lpc_created w) in
  vfio_pci_igd_lpc_init K info w =
    (fst c, if fst c =? 0 then traced "vfio_pci_igd_lpc_bridge_enabled" (snd c)
            else snd c).
Proof.
  intros Hnone. cbv zeta.
  unfold vfio_pci_igd_lpc_init, bind, pci_find_device, gets. rewrite Hnone.
  change (pci_create_simple (PCI_DEVFN 0x1f 0) "vfio-pci-igd-lpc-bridge" w)
    with (PtrBus (PCI_DEVFN 0x1f 0), lpc_created w).
  cbv beta iota. unfold emit, modify, ret.
  destruct (vfio_pci_igd_copy K _ info igd_lpc_bridge_infos (lpc_created w)) as [r w2].
  cbn [fst snd]. destruct (r =? 0); reflexivity.
Qed.

Lemma lpc_init_reuse K info w d :
  bus w !! PCI_DEVFN 0x1f 0 = Some (Companion d) ->
  let c := vfio_pci_igd_copy K (PtrBus (PCI_DEVFN 0x1f 0)) info igd_lpc_bridge_infos w in
  vfio_pci_igd_lpc_init K info w =
    (fst c, if fst c =? 0 then traced "vfio_pci_igd_lpc_bridge_enabled" (snd c)
            else snd c).
Proof.
  intros Hsome. cbv zeta.
  unfold vfio_pci_igd_lpc_init, bind, pci_find_device, gets, ret. rewrite Hsome.
  cbv beta iota. unfold emit, modify.
  destruct (vfio_pci_igd_copy K _ info igd_lpc_bridge_infos w) as [r w2].
  cbn [fst snd]. destruct (r =? 0); reflexivity.
Qed.

Lemma host_init_found K info w d :
  bus w !! PCI_DEVFN 0 0 = Some (Companion d) ->
  let c := vfio_pci_igd_copy K (PtrBus (PCI_DEVFN 0 0)) info igd_host_bridge_infos w in
  vfio_pci_igd_host_init K info w =
    (fst c, if fst c =? 0 then traced "vfio_pci_igd_host_bridge_enabled" (snd c)
            else snd c).
Proof.
  intros Hsome. cbv zeta.
  unfold vfio_pci_igd_host_init, bind, pci_find_device, gets, ret. rewrite Hsome.
  cbv beta iota. unfold emit, modify.
  destruct (vfio_pci_igd_copy K _ info igd_host_bridge_infos w) as [r w2].
  cbn [fst snd]. destruct (r =? 0); reflexivity.
Qed.

Lemma host_init_missing K info w :
  bus w !! PCI_DEVFN 0 0 = None ->
  vfio_pci_igd_host_init K info w =
    (- ENODEV, with_log (fun l => l ++ [EvErrorReport "Can't find host bridge"]) w).
Proof.
  intros Hnone.
  unfold vfio_pci_igd_host_init, bind, pci_find_device, gets, ret, emit, modify.
  rewrite Hnone. reflexivity.
Qed.

Lemma setup_lpc_bridge_run K w :
  hotplugged (pdev (vdev w)) = false ->
  lpc_slot_foreign w = false ->
  vfio_pci_igd_setup_lpc_bridge K w =
    match k_dev_region_info K (fst lpc_query) (snd lpc_query) with
    | RegionError _ =>
        (Failure (error_setg "IGD LPC bridge access is not supported by kernel"),
         queried lpc_query w)
    | RegionFound lpc =>
        match k_dev_region_info K (fst host_query) (snd host_query) with
        | RegionError _ =>
            (Failure (error_setg "IGD host bridge access is not supported by kernel"),
             queried host_query (queried lpc_query w))
        | RegionFound host =>
            let a := vfio_pci_igd_lpc_init K lpc
                       (queried host_query (queried lpc_query w)) in
            if negb (fst a =? 0) then
              (Failure (error_setg "Failed to create/modify LPC bridge for IGD"), snd a)
            else
              let b := vfio_pci_igd_host_init K host (snd a) in
              if negb (fst b =? 0) then
                (Failure (error_setg "Failed to modify host bridge for IGD"), snd b)
              else (Success, snd b)
        end
    end.
Proof.
  intros Hhot Hslot.
  unfold vfio_pci_igd_setup_lpc_bridge, vfio_get_dev_region_info, bind,
    pci_find_device, object_dynamic_cast, gets, emit, modify, ret.
  rewrite Hhot. cbv beta iota zeta.
  unfold lpc_slot_foreign in Hslot. unfold lpc_query, host_query, queried. cbn [fst snd].
  destruct (bus w !! PCI_DEVFN 31 0) as [[| d] |] eqn:Hb; cbn [deref];
    rewrite ?Hb, ?Hslot; cbv beta iota.
  all: destruct (k_dev_region_info K _ VFIO_REGION_SUBTYPE_INTEL_IGD_LPC_CFG)
         as [lpc | r1]; [| reflexivity].
  all: destruct (k_dev_region_info K _ VFIO_REGION_SUBTYPE_INTEL_IGD_HOST_CFG)
         as [host | r2]; [| reflexivity].
  all: destruct (vfio_pci_igd_lpc_init K lpc _) as [a wa]; cbn [fst snd].
  all: destruct (negb (a =? 0)); [reflexivity |].
  all: destruct (vfio_pci_igd_host_init K host wa) as [b wb]; cbn [fst snd].
  all: destruct (negb (b =? 0)); reflexivity.
Qed.

Lemma deref_bus w fn d :
  deref w (PtrBus fn) = Some d <-> bus w !! fn = Some (Companion d).
Proof.
  unfold deref. destruct (bus w !! fn) as [[| d0] |]; split; intros H;
    try discriminate H; congruence.
Qed.

Lemma deref_traced point w p : deref (traced point w) p = deref w p.
Proof. apply deref_with_log. Qed.

Lemma deref_queried q w p : deref (queried q w) p = deref w p.
Proof. apply deref_with_log. Qed.

Lemma igd_copy_bus_target K info fn l : forall w,
  vdev (snd (vfio_pci_igd_copy K (PtrBus fn) info l w)) = vdev w.
Proof.
  induction l as [| e rest IH]; intros w; [reflexivity |].
  cbn [vfio_pci_igd_copy]. unfold bind. rewrite pread_run.
  destruct (k_pread K _ _) as [data | en]; cbn [fst snd];
    match goal with
    | |- context [negb ?c] => destruct c
    end; cbn [negb write_config modify snd];
    try (rewrite IH; reflexivity); reflexivity.
Qed.

Lemma lpc_registers_disjoint : disjoint_registers igd_lpc_bridge_infos.
Proof.
  unfold igd_lpc_bridge_infos. cbn [disjoint_registers].
  repeat split; repeat apply Forall_cons_2; try apply Forall_nil_2;
    intros i; unfold register_bytes, PCI_VENDOR_ID, PCI_DEVICE_ID, PCI_REVISION_ID,
      PCI_SUBSYSTEM_VENDOR_ID, PCI_SUBSYSTEM_ID; simpl; lia.
Qed.

Lemma host_registers_disjoint : disjoint_registers igd_host_bridge_infos.
Proof.
  unfold igd_host_bridge_infos. cbn [disjoint_registers].
  repeat split; repeat apply Forall_cons_2; try apply Forall_nil_2;
    intros i; unfold register_bytes, PCI_VENDOR_ID, PCI_DEVICE_ID, PCI_REVISION_ID,
      PCI_SUBSYSTEM_VENDOR_ID, PCI_SUBSYSTEM_ID; simpl; lia.
Qed.

Lemma lpc_registers_fit cfg :
  (48 <= length cfg)%nat -> Forall (register_fits cfg) igd_lpc_bridge_infos.
Proof.
  intros H. unfold igd_lpc_bridge_infos, register_fits.
  unfold PCI_VENDOR_ID, PCI_DEVICE_ID, PCI_REVISION_ID,
    PCI_SUBSYSTEM_VENDOR_ID, PCI_SUBSYSTEM_ID.
  repeat apply Forall_cons_2; try apply Forall_nil_2; simpl; lia.
Qed.

Lemma host_registers_fit cfg :
  (48 <= length cfg)%nat -> Forall (register_fits cfg) igd_host_bridge_infos.
Proof.
  intros H. unfold igd_host_bridge_infos, register_fits.
  unfold PCI_VENDOR_ID, PCI_DEVICE_ID, PCI_REVISION_ID,
    PCI_SUBSYSTEM_VENDOR_ID, PCI_SUBSYSTEM_ID.
  repeat apply Forall_cons_2; try apply Forall_nil_2; simpl; lia.
Qed.

Lemma readable_full K info l :
  Forall (readable K info) l -> Forall (full_read K info) l.
Proof. apply Forall_impl. intros e [H _]. exact H. Qed.

(** The bridge step of legacy mode, on a machine without a device at 1f.0 *)
Lemma setup_lpc_bridge_creates K w lpc host hb :
  hotplugged (pdev (vdev w)) = false ->
  bus w !! PCI_DEVFN 0x1f 0 = None ->
  bus w !! PCI_DEVFN 0 0 = Some (Companion hb) ->
  (48 <= length (config hb))%nat ->
  k_dev_region_info K (fst lpc_query) (snd lpc_query) = RegionFound lpc ->
  k_dev_region_info K (fst host_query) (snd host_query) = RegionFound host ->
  Forall (readable K lpc) igd_lpc_bridge_infos ->
  Forall (readable K host) igd_host_bridge_infos ->
  let r := vfio_pci_igd_setup_lpc_bridge K w in
  fst r = Success /\
  vdev (snd r) = vdev w /\ fw_cfg (snd r) = fw_cfg w /\
  exists dl dh,
    bus (snd r) !! PCI_DEVFN 0x1f 0 = Some (Companion dl) /\
    qom_types dl = vfio_pci_igd_lpc_bridge_info /\
    Forall (fun e => register_of e (config dl) = kernel_bytes K lpc e)
      igd_lpc_bridge_infos /\
    bus (snd r) !! PCI_DEVFN 0 0 = Some (Companion dh) /\
    Forall (fun e => register_of e (config dh) = kernel_bytes K host e)
      igd_host_bridge_infos /\
    (forall i : nat, ~ Exists (fun e => register_bytes e i) igd_host_bridge_infos ->
                     config dh !! i = config hb !! i).
Proof.
  intros Hhot Hslot Hhb Hlen Hlpc Hhost Hrl Hrh r. subst r.
  rewrite setup_lpc_bridge_run
    by (try exact Hhot; unfold lpc_slot_foreign; rewrite Hslot; reflexivity).
  rewrite Hlpc, Hhost. cbv zeta.
  set (w0 := queried host_query (queried lpc_query w)).
  assert (Hslot0 : bus w0 !! PCI_DEVFN 0x1f 0 = None) by exact Hslot.
  rewrite (lpc_init_create K lpc w0 Hslot0). cbv zeta. cbn [fst snd].
  (* the LPC copy *)
  assert (Hfresh : deref (lpc_created w0) (PtrBus (PCI_DEVFN 0x1f 0))
                   = Some fresh_lpc_bridge).
  { apply deref_bus. unfold lpc_created, with_bus. cbn [bus].
    apply lookup_insert_eq. }
  destruct (igd_copy_all_read K lpc igd_lpc_bridge_infos _ _ _ Hfresh
              (readable_full _ _ _ Hrl)
              (lpc_registers_fit (config fresh_lpc_bridge)
                 ltac:(apply Nat.leb_le; vm_compute; reflexivity)) lpc_registers_disjoint)
    as (Hret & _ & _ & dl & Hdl & Hregs).
  destruct (igd_copy_frame K lpc igd_lpc_bridge_infos _ _ _ Hfresh)
    as (dl' & Hdl' & _ & Htypes & _ & _ & _ & Hothers & Hfw).
  assert (dl' = dl) as -> by congruence.
  pose proof (igd_copy_bus_target K lpc (PCI_DEVFN 0x1f 0) igd_lpc_bridge_infos
                (lpc_created w0)) as Hvdev.
  set (c := vfio_pci_igd_copy K (PtrBus (PCI_DEVFN 0x1f 0)) lpc igd_lpc_bridge_infos
              (lpc_created w0)) in *.
  rewrite Hret. cbn [Z.eqb negb].
  set (wa := traced "vfio_pci_igd_lpc_bridge_enabled" (snd c)).
  (* the host bridge is still where it was *)
  assert (Hhb_a : deref wa (PtrBus (PCI_DEVFN 0 0)) = Some hb).
  { subst wa. rewrite deref_traced, Hothers by discriminate.
    apply deref_bus. unfold lpc_created, with_bus. cbn [bus].
    rewrite lookup_insert_ne by discriminate. exact Hhb. }
  rewrite (host_init_found K host wa hb) by (apply deref_bus; exact Hhb_a).
  cbv zeta. cbn [fst snd].
  destruct (igd_copy_all_read K host igd_host_bridge_infos _ _ _ Hhb_a
              (readable_full _ _ _ Hrh)
              (host_registers_fit _ Hlen) host_registers_disjoint)
    as (Hret2 & _ & _ & dh & Hdh & Hregs2).
  destruct (igd_copy_frame K host igd_host_bridge_infos _ _ _ Hhb_a)
    as (dh' & Hdh' & _ & _ & _ & _ & Hout & Hothers2 & Hfw2).
  assert (dh' = dh) as -> by congruence.
  pose proof (igd_copy_bus_target K host (PCI_DEVFN 0 0) igd_host_bridge_infos wa)
    as Hvdev2.
  set (c2 := vfio_pci_igd_copy K (PtrBus (PCI_DEVFN 0 0)) host igd_host_bridge_infos wa)
    in *.
  rewrite Hret2. cbn [Z.eqb negb fst snd].
  split; [reflexivity |].
  split; [cbn [traced with_log vdev]; rewrite Hvdev2; subst wa;
          cbn [traced with_log vdev]; rewrite Hvdev; reflexivity |].
  split; [cbn [traced with_log fw_cfg]; rewrite Hfw2; subst wa;
          cbn [traced with_log fw_cfg]; rewrite Hfw; reflexivity |].
  exists dl, dh.
  split.
  { apply deref_bus. rewrite deref_traced, Hothers2 by discriminate.
    subst wa. rewrite deref_traced. exact Hdl. }
  split; [rewrite Htypes; reflexivity |].
  split; [exact Hregs |].
  split; [apply deref_bus; rewrite deref_traced; exact Hdh |].
  split; [exact Hregs2 | exact Hout].
Qed.

(** ** Reads that succeed, fail or come back short *)

(** X5: when every listed read is answered in full, the registers lie
    inside the config space and do not overlap, [vfio_pci_igd_copy] returns 0,
    makes one read per list entry in list order and nothing else, leaves
    [errno] alone, and afterwards every listed register of the target holds
    exactly the bytes the kernel handed out for it. *)
Theorem igd_copy_loads_registers (K : Kernel) (info : vfio_region_info)
    (l : list IGDHostInfo) (p : dev_ptr) (w : World) (d : PCIDevice) :
  deref w p = Some d ->
  Forall (full_read K info) l ->
  Forall (register_fits (config d)) l ->
  disjoint_registers l ->
  let r := vfio_pci_igd_copy K p info l w in
  fst r = 0 /\
  log (snd r) = log w ++ copy_reads info l /\
  errno (snd r) = errno w /\
  exists d', deref (snd r) p = Some d' /\
             Forall (fun e => register_of e (config d') = kernel_bytes K info e) l.
Proof. apply igd_copy_all_read. Qed.

Lemma sample_reads_full info l :
  Forall (fun e => 0 <= hi_len e < 2 ^ 31) l ->
  Forall (readable (Sample.kernel 0x1000) info) l.
Proof.
  apply Forall_impl. intros e He. split; [| exact He].
  exists (replicate (Z.to_nat (hi_len e)) 0xAB). split; [reflexivity |].
  rewrite length_replicate. lia.
Qed.

Lemma listed_lengths_small :
  Forall (fun e => 0 <= hi_len e < 2 ^ 31) igd_lpc_bridge_infos /\
  Forall (fun e => 0 <= hi_len e < 2 ^ 31) igd_host_bridge_infos.
Proof.
  split; repeat apply Forall_cons_2; try apply Forall_nil_2; simpl; lia.
Qed.

Lemma igd_copy_loads_registers_witness :
  let K := Sample.kernel 0x1000 in
  let info := {| info_size := 16; info_offset := 0x2000 |} in
  let w := Sample.machine 0x1912 0 false in
  let r := vfio_pci_igd_copy K (PtrBus 0) info igd_host_bridge_infos w in
  fst r = 0 /\
  log (snd r) = log w ++ copy_reads info igd_host_bridge_infos /\
  errno (snd r) = errno w /\
  exists d', deref (snd r) (PtrBus 0) = Some d' /\
             Forall (fun e => register_of e (config d') = kernel_bytes K info e)
               igd_host_bridge_infos.
Proof.
  intros K info w.
  apply (igd_copy_loads_registers K info igd_host_bridge_infos (PtrBus 0) w
           Sample.host_bridge).
  - vm_compute. reflexivity.
  - apply readable_full, sample_reads_full, listed_lengths_small.
  - apply host_registers_fit. apply Nat.leb_le. vm_compute. reflexivity.
  - apply host_registers_disjoint.
Defined.

(** X6: [vfio_pci_igd_copy] stops at the first read that fails or comes
    back short: the entries after it are never read (the run equals the run on
    the list cut after the bad entry), the log ends with the report "IGD copy
    failed: %m", the result is minus [errno], and after a read that failed with
    a positive error number [en] it is [- en], so not 0. *)
Theorem igd_copy_stops_at_bad_read (K : Kernel) (info : vfio_region_info)
    (pre : list IGDHostInfo) (e : IGDHostInfo) (post : list IGDHostInfo)
    (p : dev_ptr) (w : World) :
  Forall (readable K info) pre ->
  bad_read K info e ->
  let r := vfio_pci_igd_copy K p info (pre ++ e :: post) w in
  r = vfio_pci_igd_copy K p info (pre ++ [e]) w /\
  log (snd r) = log w ++ copy_reads info (pre ++ [e])
                  ++ [EvErrorReport "IGD copy failed: %m"] /\
  fst r = to_int (- errno (snd r)) /\
  (forall en, k_pread K (to_u64 (info_offset info + hi_offset e)) (hi_len e)
              = PreadError en -> 0 < en < 2 ^ 31 -> fst r = - en /\ fst r <> 0).
Proof.
  intros Hpre Hbad r. subst r.
  rewrite (igd_copy_stops K info pre e post p w Hpre Hbad).
  split; [reflexivity |].
  destruct (igd_copy_full_prefix_log K info pre p w [e] Hpre) as (w1 & Hrun & Hlog & Herr).
  rewrite Hrun.
  destruct (igd_copy_bad_last K info e p w1 Hbad) as (Hret & Hlog' & Herr').
  split; [| split; [exact Hret |]].
  - rewrite Hlog', Hlog. unfold copy_reads. rewrite map_app, <- !app_assoc. reflexivity.
  - intros en Hen Hrange. rewrite Hret, Herr', Hen.
    rewrite to_int_small by lia. lia.
Qed.

Lemma igd_copy_stops_at_bad_read_witness :
  let K := failing_kernel 5 in
  let info := {| info_size := 16; info_offset := 0x2000 |} in
  let w := Sample.machine 0x1912 0 false in
  let e := {| hi_offset := PCI_REVISION_ID; hi_len := 2 |} in
  let r := vfio_pci_igd_copy K (PtrBus 0) info igd_host_bridge_infos w in
  r = vfio_pci_igd_copy K (PtrBus 0) info [e] w /\
  log (snd r) = log w ++ copy_reads info [e] ++ [EvErrorReport "IGD copy failed: %m"] /\
  fst r = to_int (- errno (snd r)) /\
  (forall en, k_pread K (to_u64 (info_offset info + hi_offset e)) (hi_len e)
              = PreadError en -> 0 < en < 2 ^ 31 -> fst r = - en /\ fst r <> 0).
Proof.
  intros K info w e.
  apply (igd_copy_stops_at_bad_read K info [] e
           [ {| hi_offset := PCI_SUBSYSTEM_VENDOR_ID; hi_len := 2 |};
             {| hi_offset := PCI_SUBSYSTEM_ID; hi_len := 2 |} ] (PtrBus 0) w).
  - apply Forall_nil_2.
  - split; [simpl; lia | exact I].
Defined.

(** X7: a short read does not set [errno], so when [errno] is 0 on entry
    and a read comes back short, [vfio_pci_igd_copy] reports the failure in the
    log, stops after that read, and returns [-errno], which is 0. *)
Theorem igd_copy_short_read_returns_zero (K : Kernel) (info : vfio_region_info)
    (pre : list IGDHostInfo) (e : IGDHostInfo) (post : list IGDHostInfo)
    (p : dev_ptr) (w : World) (data : list Z) :
  Forall (readable K info) pre ->
  0 <= hi_len e < 2 ^ 31 ->
  k_pread K (to_u64 (info_offset info + hi_offset e)) (hi_len e) = PreadData data ->
  (length data < Z.to_nat (hi_len e))%nat ->
  errno w = 0 ->
  let r := vfio_pci_igd_copy K p info (pre ++ e :: post) w in
  fst r = 0 /\
  log (snd r) = log w ++ copy_reads info (pre ++ [e])
                  ++ [EvErrorReport "IGD copy failed: %m"].
Proof.
  intros Hpre Hlen Hread Hshort Herrno r.
  assert (Hbad : bad_read K info e) by (split; [exact Hlen | rewrite Hread; exact Hshort]).
  subst r. rewrite (igd_copy_stops K info pre e post p w Hpre Hbad).
  destruct (igd_copy_full_prefix_log K info pre p w [e] Hpre) as (w1 & Hrun & Hlog & Herr).
  rewrite Hrun.
  destruct (igd_copy_bad_last K info e p w1 Hbad) as (Hret & Hlog' & Herr').
  rewrite Hread in Herr'. split.
  - rewrite Hret, Herr', Herr, Herrno. reflexivity.
  - rewrite Hlog', Hlog. unfold copy_reads. rewrite map_app, <- !app_assoc. reflexivity.
Qed.

Lemma igd_copy_short_read_returns_zero_witness :
  let K := Sample.short_kernel 0x1000 in
  let info := {| info_size := 16; info_offset := 0x2000 |} in
  let w := Sample.machine 0x1912 0 false in
  let e := {| hi_offset := PCI_REVISION_ID; hi_len := 2 |} in
  let r := vfio_pci_igd_copy K (PtrBus 0) info igd_host_bridge_infos w in
  fst r = 0 /\
  log (snd r) = log w ++ copy_reads info [e] ++ [EvErrorReport "IGD copy failed: %m"].
Proof.
  intros K info w e.
  apply (igd_copy_short_read_returns_zero K info [] e
           [ {| hi_offset := PCI_SUBSYSTEM_VENDOR_ID; hi_len := 2 |};
             {| hi_offset := PCI_SUBSYSTEM_ID; hi_len := 2 |} ] (PtrBus 0) w
           (replicate 1 0xAB)).
  - apply Forall_nil_2.
  - simpl. lia.
  - reflexivity.
  - simpl. lia.
  - reflexivity.
Defined.

(** ** Outcomes of the bridge step *)

Lemma setup_lpc_bridge_foreign K w :
  hotplugged (pdev (vdev w)) = false ->
  lpc_slot_foreign w = true ->
  vfio_pci_igd_setup_lpc_bridge K w =
    (Failure (error_setg "Cannot create LPC bridge due to existing device at 1f.0"), w).
Proof.
  intros Hhot Hslot.
  unfold vfio_pci_igd_setup_lpc_bridge, vfio_get_dev_region_info, bind,
    pci_find_device, object_dynamic_cast, gets, emit, modify, ret.
  rewrite Hhot. cbv beta iota zeta.
  unfold lpc_slot_foreign in Hslot.
  destruct (bus w !! PCI_DEVFN 31 0) as [[| d] |] eqn:Hb; cbn [deref];
    rewrite ?Hb, ?Hslot; cbv beta iota; try reflexivity.
  discriminate Hslot.
Qed.

Lemma write_config_bus_other fn off data w fn' :
  fn' <> fn ->
  bus (snd (write_config (PtrBus fn) off data w)) !! fn' = bus w !! fn'.
Proof.
  intros Hne. unfold write_config, modify, with_bus. cbn [snd bus].
  apply lookup_alter_ne. congruence.
Qed.

Lemma igd_copy_bus_other K info fn l fn' : forall w,
  fn' <> fn ->
  bus (snd (vfio_pci_igd_copy K (PtrBus fn) info l w)) !! fn' = bus w !! fn'.
Proof.
  induction l as [| e rest IH]; intros w Hne; [reflexivity |].
  cbn [vfio_pci_igd_copy]. unfold bind.
  assert (Hw1 : bus (snd (pread K (hi_len e) (to_u64 (info_offset info + hi_offset e)) w))
                = bus w)
    by (rewrite pread_run; destruct (k_pread K _ _); reflexivity).
  destruct (pread K (hi_len e) (to_u64 (info_offset info + hi_offset e)) w)
    as [[r data] w1]. cbn [fst snd] in *.
  pose proof (write_config_bus_other fn (hi_offset e) data w1 fn' Hne) as Hw2.
  destruct (write_config (PtrBus fn) (hi_offset e) data w1) as [[] w2]. cbn [snd] in *.
  destruct (negb (to_int r =? hi_len e)).
  - unfold emit, modify, gets, ret. cbn [snd with_log bus]. congruence.
  - rewrite IH by exact Hne. congruence.
Qed.

(** X8: on a cold-plugged machine with nothing at 00:1f.0, a host bridge
    at 00:00.0, both kernel regions and full reads,
    [vfio_pci_igd_setup_lpc_bridge] succeeds: a companion LPC bridge now sits
    at 00:1f.0 and each of its listed registers holds the host bytes, each
    listed register of the host bridge holds the host bytes, every other byte
    of the host bridge config is as before, and the IGD device and fw_cfg are
    untouched. *)
Theorem setup_lpc_bridge_fills_bridges (K : Kernel) (w : World)
    (lpc host : vfio_region_info) (hb : PCIDevice) :
  hotplugged (pdev (vdev w)) = false ->
  bus w !! PCI_DEVFN 0x1f 0 = None ->
  bus w !! PCI_DEVFN 0 0 = Some (Companion hb) ->
  (48 <= length (config hb))%nat ->
  k_dev_region_info K (fst lpc_query) (snd lpc_query) = RegionFound lpc ->
  k_dev_region_info K (fst host_query) (snd host_query) = RegionFound host ->
  Forall (readable K lpc) igd_lpc_bridge_infos ->
  Forall (readable K host) igd_host_bridge_infos ->
  let r := vfio_pci_igd_setup_lpc_bridge K w in
  fst r = Success /\
  vdev (snd r) = vdev w /\ fw_cfg (snd r) = fw_cfg w /\
  exists dl dh,
    bus (snd r) !! PCI_DEVFN 0x1f 0 = Some (Companion dl) /\
    qom_types dl = vfio_pci_igd_lpc_bridge_info /\
    Forall (fun e => register_of e (config dl) = kernel_bytes K lpc e)
      igd_lpc_bridge_infos /\
    bus (snd r) !! PCI_DEVFN 0 0 = Some (Companion dh) /\
    Forall (fun e => register_of e (config dh) = kernel_bytes K host e)
      igd_host_bridge_infos /\
    (forall i : nat, ~ Exists (fun e => register_bytes e i) igd_host_bridge_infos ->
                     config dh !! i = config hb !! i).
Proof. apply setup_lpc_bridge_creates. Qed.

Lemma setup_lpc_bridge_fills_bridges_witness :
  let K := Sample.kernel 0x1000 in
  let w := Sample.machine 0x1912 0 false in
  let lpc := {| info_size := 16; info_offset := 0x3000 |} in
  let host := {| info_size := 16; info_offset := 0x2000 |} in
  let r := vfio_pci_igd_setup_lpc_bridge K w in
  fst r = Success /\
  vdev (snd r) = vdev w /\ fw_cfg (snd r) = fw_cfg w /\
  exists dl dh,
    bus (snd r) !! PCI_DEVFN 0x1f 0 = Some (Companion dl) /\
    qom_types dl = vfio_pci_igd_lpc_bridge_info /\
    Forall (fun e => register_of e (config dl) = kernel_bytes K lpc e)
      igd_lpc_bridge_infos /\
    bus (snd r) !! PCI_DEVFN 0 0 = Some (Companion dh) /\
    Forall (fun e => register_of e (config dh) = kernel_bytes K host e)
      igd_host_bridge_infos /\
    (forall i : nat, ~ Exists (fun e => register_bytes e i) igd_host_bridge_infos ->
                     config dh !! i = config Sample.host_bridge !! i).
Proof.
  intros K w lpc host.
  apply (setup_lpc_bridge_fills_bridges K w lpc host Sample.host_bridge).
  - reflexivity.
  - vm_compute. reflexivity.
  - vm_compute. reflexivity.
  - apply Nat.leb_le. vm_compute. reflexivity.
  - reflexivity.
  - reflexivity.
  - apply sample_reads_full, listed_lengths_small.
  - apply sample_reads_full, listed_lengths_small.
Defined.

(** X9: when the device is hotplugged, a foreign device sits at 00:1f.0, or
    the kernel lacks one of the two regions, [vfio_pci_igd_setup_lpc_bridge]
    fails before it creates or writes anything: bus, device, fw_cfg and [errno]
    are as before, and all it did was region queries. *)
Theorem setup_lpc_bridge_fails_before_touching_bus (K : Kernel) (w : World) :
  hotplugged (pdev (vdev w)) = true \/ lpc_slot_foreign w = true \/
  region_missing K lpc_query \/ region_missing K host_query ->
  let r := vfio_pci_igd_setup_lpc_bridge K w in
  (exists err, fst r = Failure err) /\
  bus (snd r) = bus w /\ vdev (snd r) = vdev w /\ fw_cfg (snd r) = fw_cfg w /\
  errno (snd r) = errno w /\
  exists evs, log (snd r) = log w ++ evs /\ Forall is_region_query evs.
Proof.
  intros Hwhy r. subst r.
  destruct (hotplugged (pdev (vdev w))) eqn:Hhot.
  { unfold vfio_pci_igd_setup_lpc_bridge, bind, gets. rewrite Hhot. cbn [fst snd ret].
    repeat split; eauto. exists []. rewrite app_nil_r. auto. }
  destruct (lpc_slot_foreign w) eqn:Hslot.
  { rewrite setup_lpc_bridge_foreign by assumption. cbn [fst snd].
    repeat split; eauto. exists []. rewrite app_nil_r. auto. }
  destruct Hwhy as [H | [H | Hmiss]]; try discriminate H.
  rewrite setup_lpc_bridge_run by assumption.
  unfold region_missing in Hmiss.
  destruct (k_dev_region_info K (fst lpc_query) (snd lpc_query)) as [lpc | r1].
  - destruct (k_dev_region_info K (fst host_query) (snd host_query)) as [host | r2];
      [destruct Hmiss as [[] | []] |].
    cbn [fst snd queried with_log bus vdev fw_cfg errno log].
    repeat split; eauto.
    exists [EvDevRegionInfo (fst lpc_query) (snd lpc_query);
            EvDevRegionInfo (fst host_query) (snd host_query)].
    split; [rewrite <- app_assoc; reflexivity |].
    repeat apply Forall_cons_2; try apply Forall_nil_2; exact I.
  - cbn [fst snd queried with_log bus vdev fw_cfg errno log].
    repeat split; eauto.
    exists [EvDevRegionInfo (fst lpc_query) (snd lpc_query)].
    split; [reflexivity |].
    repeat apply Forall_cons_2; try apply Forall_nil_2; exact I.
Qed.

Lemma setup_lpc_bridge_fails_before_touching_bus_witness :
  let K := kernel_without_host_region in
  let w := Sample.machine 0x1912 0 false in
  let r := vfio_pci_igd_setup_lpc_bridge K w in
  (exists err, fst r = Failure err) /\
  bus (snd r) = bus w /\ vdev (snd r) = vdev w /\ fw_cfg (snd r) = fw_cfg w /\
  errno (snd r) = errno w /\
  exists evs, log (snd r) = log w ++ evs /\ Forall is_region_query evs.
Proof.
  intros K w.
  apply (setup_lpc_bridge_fails_before_touching_bus K w).
  right. right. right. exact I.
Defined.

(** X10: the bridge setup is not atomic.  With nothing at 00:00.0 it fails
    with "Failed to modify host bridge for IGD", but by then the companion LPC
    bridge has been created at 00:1f.0 and its listed registers filled with the
    host bytes; the failure does not undo this. *)
Theorem setup_lpc_bridge_without_host_bridge (K : Kernel) (w : World)
    (lpc host : vfio_region_info) :
  hotplugged (pdev (vdev w)) = false ->
  bus w !! PCI_DEVFN 0x1f 0 = None ->
  bus w !! PCI_DEVFN 0 0 = None ->
  k_dev_region_info K (fst lpc_query) (snd lpc_query) = RegionFound lpc ->
  k_dev_region_info K (fst host_query) (snd host_query) = RegionFound host ->
  Forall (readable K lpc) igd_lpc_bridge_infos ->
  let r := vfio_pci_igd_setup_lpc_bridge K w in
  fst r = Failure (error_setg "Failed to modify host bridge for IGD") /\
  exists dl,
    bus (snd r) !! PCI_DEVFN 0x1f 0 = Some (Companion dl) /\
    qom_types dl = vfio_pci_igd_lpc_bridge_info /\
    Forall (fun e => register_of e (config dl) = kernel_bytes K lpc e)
      igd_lpc_bridge_infos.
Proof.
  intros Hhot Hslot Hhb Hlpc Hhost Hrl r. subst r.
  rewrite setup_lpc_bridge_run
    by (try exact Hhot; unfold lpc_slot_foreign; rewrite Hslot; reflexivity).
  rewrite Hlpc, Hhost. cbv zeta.
  set (w0 := queried host_query (queried lpc_query w)).
  assert (Hslot0 : bus w0 !! PCI_DEVFN 0x1f 0 = None) by exact Hslot.
  rewrite (lpc_init_create K lpc w0 Hslot0). cbv zeta. cbn [fst snd].
  assert (Hfresh : deref (lpc_created w0) (PtrBus (PCI_DEVFN 0x1f 0))
                   = Some fresh_lpc_bridge).
  { apply deref_bus. unfold lpc_created, with_bus. cbn [bus].
    apply lookup_insert_eq. }
  destruct (igd_copy_all_read K lpc igd_lpc_bridge_infos _ _ _ Hfresh
              (readable_full _ _ _ Hrl)
              (lpc_registers_fit (config fresh_lpc_bridge)
                 ltac:(apply Nat.leb_le; vm_compute; reflexivity))
              lpc_registers_disjoint)
    as (Hret & _ & _ & dl & Hdl & Hregs).
  destruct (igd_copy_frame K lpc igd_lpc_bridge_infos _ _ _ Hfresh)
    as (dl' & Hdl' & _ & Htypes & _ & _ & _ & Hothers & _).
  assert (dl' = dl) as -> by congruence.
  set (c := vfio_pci_igd_copy K (PtrBus (PCI_DEVFN 0x1f 0)) lpc igd_lpc_bridge_infos
              (lpc_created w0)) in *.
  rewrite Hret. cbn [Z.eqb negb].
  set (wa := traced "vfio_pci_igd_lpc_bridge_enabled" (snd c)).
  assert (Hnone : bus wa !! PCI_DEVFN 0 0 = None).
  { subst wa c. cbn [traced with_log bus].
    rewrite igd_copy_bus_other by discriminate.
    unfold lpc_created, with_bus. cbn [bus].
    rewrite lookup_insert_ne by discriminate. exact Hhb. }
  rewrite host_init_missing by exact Hnone. cbn [fst snd].
  change (negb (- ENODEV =? 0)) with true. cbv iota. cbn [fst snd].
  split; [reflexivity |].
  exists dl. split; [| split; [rewrite Htypes; reflexivity | exact Hregs]].
  apply deref_bus. rewrite deref_with_log. subst wa. rewrite deref_traced. exact Hdl.
Qed.

(** ** The stages of the BAR 4 quirk *)

Lemma with_log_app (a b : list Event) (w : World) :
  with_log (fun l => l ++ b) (with_log (fun l => l ++ a) w)
  = with_log (fun l => l ++ a ++ b) w.
Proof. unfold with_log. cbn. rewrite <- app_assoc. reflexivity. Qed.

Lemma bar4_setup_early K nr w :
  igd_bar4_setup K nr w =
    if negb (fst (igd_legacy_candidate 4 nr w)) then (None, w)
    else if igd_gen (vdev w) =? -1 then
      (None, with_log (fun l => l ++ [EvErrorReport
         ("IGD device " ++ vbasedev_name (vdev w) ++
          " is unsupported in legacy mode, try SandyBridge or newer")]) w)
    else if rom_missing K w then
      (None, with_log (fun l => l ++ [EvRegionInfo VFIO_PCI_ROM_REGION_INDEX;
         EvErrorReport ("IGD device " ++ vbasedev_name (vdev w) ++
                        " has no ROM, legacy mode disabled")]) w)
    else if hotplugged (pdev (vdev w)) then
      (None, with_vdev (set_rom_read_failed true)
         (with_log (fun l => l ++ [EvRegionInfo VFIO_PCI_ROM_REGION_INDEX;
            EvErrorReport ("IGD device " ++ vbasedev_name (vdev w) ++
                           " hotplugged, ROM disabled, legacy mode disabled")]) w))
    else
      match vga_step K w with
      | (Failure err, w1) =>
          (None, with_log (fun l => l ++
             [EvErrorReportErr ("vfio " ++ vbasedev_name (vdev w) ++ ": ") err;
              EvErrorReport ("IGD device " ++ vbasedev_name (vdev w) ++
                " failed to enable VGA access, legacy mode disabled")]) w1)
      | (Success, w1) =>
          match vfio_pci_igd_setup_opregion K w1 with
          | (Failure err, w2) => (None, with_log (fun l => l ++ [legacy_hint err]) w2)
          | (Success, w2) =>
              match vfio_pci_igd_setup_lpc_bridge K w2 with
              | (Failure err, w3) =>
                  (None, with_log (fun l => l ++ [legacy_hint err]) w3)
              | (Success, w3) => (Some (igd_gen (vdev w), host_gmch K), w3)
              end
          end
      end.
Proof.
  unfold igd_bar4_setup, bind. rewrite legacy_candidate_run. cbn [fst].
  destruct (_ && is_vdev _); cbn [negb]; [| reflexivity].
  unfold gets at 1. unfold emit, modify, ret.
  destruct (igd_gen (vdev w) =? -1); [reflexivity |].
  unfold vfio_get_region_info, bind, emit, modify, ret. cbv beta iota zeta.
  unfold rom_missing.
  destruct (_ && negb (bool_decide _)); [rewrite with_log_app; reflexivity |].
  destruct (hotplugged (pdev (vdev w))); [rewrite with_log_app; reflexivity |].
  unfold vfio_pci_read_config, bind, emit, modify, ret, gets. cbv beta iota zeta.
  unfold vga_step, host_gmch, gmch_read. cbn [vdev with_log].
  rewrite with_log_app. cbn [app].
  destruct (_ && negb (vga (vdev w))).
  - destruct (vfio_populate_vga K _) as [[| err] w1].
    + destruct (vfio_pci_igd_setup_opregion K w1) as [[| err] w2].
      * destruct (vfio_pci_igd_setup_lpc_bridge K w2) as [[| err] w3]; reflexivity.
      * reflexivity.
    + rewrite with_log_app. reflexivity.
  - destruct (vfio_pci_igd_setup_opregion K _) as [[| err] w2].
    + destruct (vfio_pci_igd_setup_lpc_bridge K w2) as [[| err] w3]; reflexivity.
    + reflexivity.
Qed.

Lemma bar4_override_value gen gmch w :
  fst (igd_bar4_override gen gmch w) = gmch_after_override gen gmch (igd_gms (vdev w)) /\
  fw_cfg (snd (igd_bar4_override gen gmch w)) = fw_cfg w /\
  vdev (snd (igd_bar4_override gen gmch w)) = vdev w /\
  bus (snd (igd_bar4_override gen gmch w)) = bus w.
Proof.
  unfold igd_bar4_override, gmch_after_override, bind, gets, gms_limit, gms_shift,
    gms_width, emit, modify, ret.
  destruct (igd_gms (vdev w) =? 0); cbn [negb fst snd]; [auto |].
  destruct (gen <? 8).
  - destruct (igd_gms (vdev w) <=? 0x10); cbn [fst snd]; auto.
  - destruct (igd_gms (vdev w) <=? 0x40); cbn [fst snd]; auto.
Qed.

Lemma vga_step_ok K w :
  vga_available K w ->
  exists w1, vga_step K w = (Success, w1) /\
    bus w1 = bus w /\ fw_cfg w1 = fw_cfg w /\ pdev (vdev w1) = pdev (vdev w) /\
    emulated_config_bits (vdev w1) = emulated_config_bits (vdev w) /\
    igd_gms (vdev w1) = igd_gms (vdev w).
Proof.
  intros Hvga. unfold vga_step.
  destruct ((Z.land (host_gmch K) 0x2 =? 0) && negb (vga (vdev w))) eqn:Hneed.
  - apply andb_prop in Hneed as [Hbit Hoff].
    destruct Hvga as [Hset | [Hon | Hok]].
    + apply Z.eqb_eq in Hbit. contradiction.
    + rewrite Hon in Hoff. discriminate.
    + unfold vfio_populate_vga, bind, emit, modify_vdev, modify, ret. rewrite Hok.
      eexists. split; [reflexivity |]. repeat split; reflexivity.
  - eexists. split; [reflexivity |]. repeat split; reflexivity.
Qed.

(** With the OpRegion steps ready, the first part of the BAR 4 quirk gets
    to bridge setup in a world [wo] whose firmware entries and ASLS register
    are those of a published OpRegion. *)
Lemma bar4_setup_to_bridges K w opregion data :
  opregion_ready K w opregion data ->
  exists wo,
    igd_bar4_setup K 4 w =
      match vfio_pci_igd_setup_lpc_bridge K wo with
      | (Failure err, w3) => (None, with_log (fun l => l ++ [legacy_hint err]) w3)
      | (Success, w3) => (Some (igd_gen (vdev w), host_gmch K), w3)
      end /\
    bus wo = bus w /\
    hotplugged (pdev (vdev wo)) = false /\
    qom_types (pdev (vdev wo)) = qom_types (pdev (vdev w)) /\
    igd_gms (vdev wo) = igd_gms (vdev w) /\
    fw_cfg wo = fw_cfg w ++
      [("etc/igd-opregion", take (Z.to_nat (info_size opregion)) data)] /\
    igd_opregion (vdev wo) =
      (if info_size opregion =? 0 then None
       else Some (take (Z.to_nat (info_size opregion)) data)) /\
    config (pdev (vdev wo)) = pci_set_long (config (pdev (vdev w))) IGD_ASLS 0 /\
    wmask (pdev (vdev wo)) = pci_set_long (wmask (pdev (vdev w))) IGD_ASLS (Z.lnot 0) /\
    emulated_config_bits (vdev wo)
      = pci_set_long (emulated_config_bits (vdev w)) IGD_ASLS (Z.lnot 0).
Proof.
  intros [].
  rewrite bar4_setup_early. rewrite or_candidate0. cbn [negb].
  destruct (Z.eqb_spec (igd_gen (vdev w)) (-1)) as [| _]; [contradiction |].
  rewrite or_rom0, or_coldplug0.
  destruct (vga_step_ok K w or_vga0)
    as (w1 & Hvga & Hbus1 & Hfw1 & Hpdev1 & Hemu1 & Hgms1).
  rewrite Hvga.
  assert (Hhot1 : hotplugged (pdev (vdev w1)) = false) by (rewrite Hpdev1; assumption).
  rewrite setup_opregion_run by exact Hhot1. cbv zeta. rewrite or_region0.
  rewrite (opregion_init_full_read K opregion _ data or_size0 or_read0 or_full0).
  eexists. split; [reflexivity |].
  cbn [vdev fw_cfg bus with_vdev with_log with_fw_cfg queried set_emulated_config_bits
       set_pdev set_wmask set_config set_igd_opregion igd_opregion pdev config wmask
       emulated_config_bits hotplugged igd_gms qom_types].
  rewrite Hfw1, Hpdev1, Hemu1, Hbus1, Hgms1.
  repeat split; try reflexivity. assumption.
Qed.

Lemma bar4_setup_enables K w opregion lpc host data hb :
  opregion_ready K w opregion data ->
  bridges_ready K w lpc host hb ->
  let r := igd_bar4_setup K 4 w in
  fst r = Some (igd_gen (vdev w), host_gmch K) /\
  igd_gms (vdev (snd r)) = igd_gms (vdev w) /\
  fw_cfg (snd r) = fw_cfg w ++
    [("etc/igd-opregion", take (Z.to_nat (info_size opregion)) data)] /\
  exists dl dh,
    bus (snd r) !! PCI_DEVFN 0x1f 0 = Some (Companion dl) /\
    Forall (fun e => register_of e (config dl) = kernel_bytes K lpc e)
      igd_lpc_bridge_infos /\
    bus (snd r) !! PCI_DEVFN 0 0 = Some (Companion dh) /\
    Forall (fun e => register_of e (config dh) = kernel_bytes K host e)
      igd_host_bridge_infos.
Proof.
  intros Hop [] r. subst r.
  destruct (bar4_setup_to_bridges K w opregion data Hop)
    as (wo & Hrun & Hbus & Hhot & _ & Hgms & Hfw & _).
  rewrite Hrun.
  destruct (setup_lpc_bridge_creates K wo lpc host hb) as
    (Hok & Hvdev & Hfw' & dl & dh & Hdl & _ & Hregs & Hdh & Hregs2 & _);
    try assumption; try (rewrite Hbus; assumption).
  destruct (vfio_pci_igd_setup_lpc_bridge K wo) as [st w3]. cbn [fst snd] in *.
  subst st. cbn [fst snd]. rewrite Hvdev, Hfw', Hfw, Hgms.
  repeat split; try reflexivity. exists dl, dh. auto.
Qed.

Lemma publish_bus gen gmch w : bus (snd (igd_bar4_publish gen gmch w)) = bus w.
Proof.
  unfold igd_bar4_publish, bind, fw_cfg_add_file, modify_vdev, modify, gets, emit, ret.
  destruct (gen <? 11); reflexivity.
Qed.

(** X11: when the OpRegion step and the bridge step are ready, the BAR 4
    quirk goes all the way: the setup part returns the generation and the GMCH
    value read from the host, fw_cfg gains exactly two entries in this order,
    the OpRegion file and "etc/igd-bdsm-size" holding the stolen memory size of
    the GMCH value after the [x-igd-gms] step, and both bridges hold the host
    bytes in their listed registers. *)
Theorem bar4_quirk_enables_legacy_mode (K : Kernel) (w : World)
    (opregion lpc host : vfio_region_info) (data : list Z) (hb : PCIDevice) :
  opregion_ready K w opregion data ->
  bridges_ready K w lpc host hb ->
  let gen := igd_gen (vdev w) in
  let gmch := gmch_after_override gen (host_gmch K) (igd_gms (vdev w)) in
  let wf := snd (vfio_probe_igd_bar4_quirk K 4 w) in
  fst (igd_bar4_setup K 4 w) = Some (gen, host_gmch K) /\
  fw_cfg wf = fw_cfg w ++
    [("etc/igd-opregion", take (Z.to_nat (info_size opregion)) data);
     bdsm_size_entry (igd_stolen_memory_size gen gmch)] /\
  exists dl dh,
    bus wf !! PCI_DEVFN 0x1f 0 = Some (Companion dl) /\
    Forall (fun e => register_of e (config dl) = kernel_bytes K lpc e)
      igd_lpc_bridge_infos /\
    bus wf !! PCI_DEVFN 0 0 = Some (Companion dh) /\
    Forall (fun e => register_of e (config dh) = kernel_bytes K host e)
      igd_host_bridge_infos.
Proof.
  intros Hop Hbr gen gmch wf.
  destruct (bar4_setup_enables K w opregion lpc host data hb Hop Hbr)
    as (Hsome & Hgms & Hfw & dl & dh & Hdl & Hrl & Hdh & Hrh).
  split; [exact Hsome |].
  destruct (igd_bar4_setup K 4 w) as [st w1] eqn:Hsetup. cbn [fst snd] in *. subst st.
  subst wf. rewrite (bar4_run _ _ _ _ _ _ Hsetup).
  destruct (bar4_override_value (igd_gen (vdev w)) (host_gmch K) w1)
    as (Hval & Hfw2 & _ & Hbus2).
  rewrite publish_fw_cfg, publish_bus, Hval, Hfw2, Hbus2, Hfw, Hgms.
  split; [rewrite <- app_assoc; reflexivity |].
  exists dl, dh. auto.
Qed.

Lemma sample_opregion_ready :
  opregion_ready (Sample.kernel 0x1000) (Sample.machine 0x1912 0 false)
    {| info_size := 16; info_offset := 0x1000 |} (replicate 16 0xAB).
Proof.
  split; try reflexivity; try (simpl; lia); try (vm_compute; discriminate);
    try (right; right; reflexivity).
Qed.

Lemma sample_bridges_ready :
  bridges_ready (Sample.kernel 0x1000) (Sample.machine 0x1912 0 false)
    {| info_size := 16; info_offset := 0x3000 |}
    {| info_size := 16; info_offset := 0x2000 |} Sample.host_bridge.
Proof.
  split; try reflexivity;
    try (apply sample_reads_full, listed_lengths_small).
  apply Nat.leb_le. vm_compute. reflexivity.
Qed.

Lemma bar4_quirk_enables_legacy_mode_witness :
  let K := Sample.kernel 0x1000 in
  let w := Sample.machine 0x1912 0 false in
  let lpc := {| info_size := 16; info_offset := 0x3000 |} in
  let host := {| info_size := 16; info_offset := 0x2000 |} in
  let wf := snd (vfio_probe_igd_bar4_quirk K 4 w) in
  fst (igd_bar4_setup K 4 w) = Some (9, 0x1000) /\
  fw_cfg wf = [("etc/igd-opregion", replicate 16 0xAB);
               bdsm_size_entry (512 * MiB)] /\
  exists dl dh,
    bus wf !! PCI_DEVFN 0x1f 0 = Some (Companion dl) /\
    Forall (fun e => register_of e (config dl) = kernel_bytes K lpc e)
      igd_lpc_bridge_infos /\
    bus wf !! PCI_DEVFN 0 0 = Some (Companion dh) /\
    Forall (fun e => register_of e (config dh) = kernel_bytes K host e)
      igd_host_bridge_infos.
Proof.
  intros K w lpc host.
  exact (bar4_quirk_enables_legacy_mode K w {| info_size := 16; info_offset := 0x1000 |}
           lpc host (replicate 16 0xAB) Sample.host_bridge
           sample_opregion_ready sample_bridges_ready).
Defined.

(** X12: when the OpRegion step is ready but a foreign device sits at
    00:1f.0 (as on Q35), the BAR 4 quirk gives up at the bridge step, after the
    OpRegion step: no "etc/igd-bdsm-size" is published and the bus is untouched,
    but the OpRegion file stays in fw_cfg, the device keeps its OpRegion buffer
    (no buffer for a region of size 0, the allocation of 0 bytes being [NULL]),
    and the ASLS register stays zeroed, writable and emulated. *)
Theorem bar4_quirk_foreign_lpc_keeps_opregion (K : Kernel) (w : World)
    (opregion : vfio_region_info) (data : list Z) :
  opregion_ready K w opregion data ->
  lpc_slot_foreign w = true ->
  let wf := snd (vfio_probe_igd_bar4_quirk K 4 w) in
  fst (igd_bar4_setup K 4 w) = None /\
  fw_cfg wf = fw_cfg w ++
    [("etc/igd-opregion", take (Z.to_nat (info_size opregion)) data)] /\
  igd_opregion (vdev wf) =
    (if info_size opregion =? 0 then None
     else Some (take (Z.to_nat (info_size opregion)) data)) /\
  config (pdev (vdev wf)) = pci_set_long (config (pdev (vdev w))) IGD_ASLS 0 /\
  wmask (pdev (vdev wf)) = pci_set_long (wmask (pdev (vdev w))) IGD_ASLS (Z.lnot 0) /\
  emulated_config_bits (vdev wf)
    = pci_set_long (emulated_config_bits (vdev w)) IGD_ASLS (Z.lnot 0) /\
  bus wf = bus w.
Proof.
  intros Hop Hforeign wf.
  destruct (bar4_setup_to_bridges K w opregion data Hop)
    as (wo & Hrun & Hbus & Hhot & Hty & _ & Hfw & Hopr & Hc & Hm & He).
  assert (Hforeign' : lpc_slot_foreign wo = true)
    by (unfold lpc_slot_foreign in *; rewrite Hbus, Hty; exact Hforeign).
  rewrite (setup_lpc_bridge_foreign K wo Hhot Hforeign') in Hrun.
  subst wf. unfold vfio_probe_igd_bar4_quirk, bind. rewrite Hrun.
  cbn [fst snd ret with_log vdev fw_cfg bus]. auto 10.
Qed.

Lemma bar4_quirk_foreign_lpc_keeps_opregion_witness :
  let K := Sample.kernel 0x1000 in
  let w := Sample.machine_q35 0x1912 0 in
  let wf := snd (vfio_probe_igd_bar4_quirk K 4 w) in
  fst (igd_bar4_setup K 4 w) = None /\
  fw_cfg wf = fw_cfg w ++ [("etc/igd-opregion", take 16 (replicate 16 0xAB))] /\
  igd_opregion (vdev wf) = Some (take 16 (replicate 16 0xAB)) /\
  config (pdev (vdev wf)) = pci_set_long (config (pdev (vdev w))) IGD_ASLS 0 /\
  wmask (pdev (vdev wf)) = pci_set_long (wmask (pdev (vdev w))) IGD_ASLS (Z.lnot 0) /\
  emulated_config_bits (vdev wf)
    = pci_set_long (emulated_config_bits (vdev w)) IGD_ASLS (Z.lnot 0) /\
  bus wf = bus w.
Proof.
  intros K w.
  apply (bar4_quirk_foreign_lpc_keeps_opregion K w
           {| info_size := 16; info_offset := 0x1000 |} (replicate 16 0xAB)).
  - split; try reflexivity; try (simpl; lia); try (vm_compute; discriminate);
    try (right; right; reflexivity).
  - vm_compute. reflexivity.
Defined.

(** ** The registers after the BAR 4 quirk *)

Lemma load_le_store_other n : forall mem a b bs,
  (b + n <= a \/ a + length bs <= b)%nat ->
  load_le (store_bytes mem a bs) b n = load_le mem b n.
Proof.
  induction n as [| n IH]; intros mem a b bs Hdis; [reflexivity |].
  cbn [load_le].
  rewrite store_bytes_lookup_outside by lia.
  rewrite IH by lia. reflexivity.
Qed.

Lemma length_le_bytes n v : length (le_bytes n v) = n.
Proof. revert v. induction n as [| n IH]; intros v; simpl; [reflexivity | rewrite IH; reflexivity]. Qed.

Lemma pci_get_long_set_long_other mem a b val :
  0 <= a -> 0 <= b -> (b + 4 <= a \/ a + 4 <= b) ->
  pci_get_long (pci_set_long mem a val) b = pci_get_long mem b.
Proof.
  intros Ha Hb Hdis. unfold pci_get_long, pci_set_long.
  apply load_le_store_other. rewrite length_le_bytes. lia.
Qed.

Lemma pci_get_long_set_quad_other mem a b val :
  0 <= a -> 0 <= b -> (b + 4 <= a \/ a + 8 <= b) ->
  pci_get_long (pci_set_quad mem a val) b = pci_get_long mem b.
Proof.
  intros Ha Hb Hdis. unfold pci_get_long, pci_set_quad.
  apply load_le_store_other. rewrite length_le_bytes. lia.
Qed.

Lemma pci_get_quad_set_long_other mem a b val :
  0 <= a -> 0 <= b -> (b + 8 <= a \/ a + 4 <= b) ->
  pci_get_quad (pci_set_long mem a val) b = pci_get_quad mem b.
Proof.
  intros Ha Hb Hdis. unfold pci_get_quad, pci_set_long.
  apply load_le_store_other. rewrite length_le_bytes. lia.
Qed.

Lemma pci_get_set_quad mem addr val :
  0 <= addr -> (Z.to_nat addr + 8 <= length mem)%nat ->
  pci_get_quad (pci_set_quad mem addr val) addr = Some (to_u64 val).
Proof.
  intros Ha Hlen. unfold pci_get_quad, pci_set_quad.
  rewrite load_store_le by exact Hlen.
  f_equal. change (256 ^ Z.of_nat 8) with (2 ^ 64).
  apply Z.mod_small. unfold to_u64. apply Z.mod_pos_bound. lia.
Qed.

Lemma publish_registers gen gmch w :
  let v' := vdev (snd (igd_bar4_publish gen gmch w)) in
  let arm (mem : list Z) (val : Z) :=
    if gen <? 11 then pci_set_long mem IGD_BDSM val
    else pci_set_quad mem IGD_BDSM_GEN11 val in
  config (pdev v') = arm (pci_set_long (config (pdev (vdev w))) IGD_GMCH gmch) 0 /\
  wmask (pdev v') = arm (pci_set_long (wmask (pdev (vdev w))) IGD_GMCH 0) (Z.lnot 0) /\
  emulated_config_bits v' =
    arm (pci_set_long (emulated_config_bits (vdev w)) IGD_GMCH (Z.lnot 0)) (Z.lnot 0).
Proof.
  cbv zeta.
  unfold igd_bar4_publish, bind, fw_cfg_add_file, modify_vdev, modify, gets, emit, ret.
  destruct (gen <? 11); repeat split; reflexivity.
Qed.

Lemma replace_field_word shift width x v :
  0 <= shift -> 0 <= width -> shift + width <= 32 -> 0 <= v < 2 ^ width ->
  to_u32 (replace_field shift width x v) = replace_field shift width x v.
Proof.
  intros Hs Hw H32 Hv. unfold to_u32 at 1.
  apply Z.bits_inj'. intros n Hn.
  rewrite Z.testbit_mod_pow2 by lia.
  destruct (Z.ltb_spec n 32) as [Hlt | Hge]; [reflexivity |].
  rewrite replace_field_testbit by lia.
  destruct (Z.leb_spec shift n); destruct (Z.ltb_spec n (shift + width)); try lia;
    cbn [andb]; destruct (Z.ltb_spec n 32); try lia; reflexivity.
Qed.

Lemma gmch_after_override_word gen gmch gms :
  is_u32 gmch -> is_u32 gms ->
  to_u32 (gmch_after_override gen gmch gms) = gmch_after_override gen gmch gms.
Proof.
  intros Hg Hm. unfold gmch_after_override.
  destruct (gms =? 0); [apply to_u32_small, Hg |].
  destruct (Z.leb_spec gms (gms_limit gen)); [| apply to_u32_small, Hg].
  destruct (gms_field_in_word gen) as (Hs & Hw & H32 & Hlim).
  apply replace_field_word; try assumption. unfold is_u32 in Hm. lia.
Qed.

(** X13: whenever the setup part of the BAR 4 quirk succeeds (on a device
    with a full config space and a 32-bit [x-igd-gms]), the quirk leaves the
    GMCH register at 0x50 holding the host value after the [x-igd-gms] step,
    read-only for the guest (write mask 0) and fully emulated; the later
    write of the BDSM register does not disturb it. *)
Theorem bar4_gmch_read_only_emulated (K : Kernel) (nr : Z) (w : World)
    (gen gmch : Z) (w1 : World) :
  igd_bar4_setup K nr w = (Some (gen, gmch), w1) ->
  config_space_ok (vdev w) ->
  is_u32 (igd_gms (vdev w)) ->
  let final := gmch_after_override gen gmch (igd_gms (vdev w)) in
  let wf := snd (vfio_probe_igd_bar4_quirk K nr w) in
  pci_get_long (config (pdev (vdev wf))) IGD_GMCH = Some final /\
  pci_get_long (wmask (pdev (vdev wf))) IGD_GMCH = Some 0 /\
  pci_get_long (emulated_config_bits (vdev wf)) IGD_GMCH = Some 0xffffffff.
Proof.
  intros Hsetup (Hc & Hm & He) Hgms final wf.
  pose proof (keeps_bar4_setup K nr w) as Hkeep. rewrite Hsetup in Hkeep.
  cbn [snd] in Hkeep. destruct Hkeep as [_ _ _ Hsame _ Hlc Hlw Hle].
  destruct (bar4_setup_some _ _ _ _ _ _ Hsetup) as (_ & _ & _ & Hgmch).
  assert (Hword : is_u32 gmch) by (rewrite Hgmch; apply to_u32_range).
  destruct (bar4_override_value gen gmch w1) as (Hval & _ & Hvdev & _).
  subst wf. rewrite (bar4_run _ _ _ _ _ _ Hsetup).
  destruct (publish_registers gen (fst (igd_bar4_override gen gmch w1))
              (snd (igd_bar4_override gen gmch w1))) as (Hpc & Hpm & Hpe).
  rewrite Hpc, Hpm, Hpe, Hvdev, Hval, Hsame. fold final.
  change (Z.to_nat PCI_CONFIG_SPACE_SIZE) with 256%nat in *.
  unfold IGD_GMCH, IGD_BDSM, IGD_BDSM_GEN11.
  pose proof (gmch_after_override_word gen gmch (igd_gms (vdev w)) Hword Hgms) as Hfinal.
  fold final in Hfinal.
  destruct (gen <? 11); repeat split.
  all: rewrite ?pci_get_long_set_long_other, ?pci_get_long_set_quad_other by lia.
  all: rewrite pci_get_set_long by (simpl; lia).
  all: rewrite ?Hfinal; reflexivity.
Qed.

Lemma bar4_gmch_read_only_emulated_witness :
  let K := Sample.kernel 0x1000 in
  let w := Sample.machine 0x8A52 0x40 false in
  let final := gmch_after_override 11 0x1000 0x40 in
  let wf := snd (vfio_probe_igd_bar4_quirk K 4 w) in
  pci_get_long (config (pdev (vdev wf))) IGD_GMCH = Some final /\
  pci_get_long (wmask (pdev (vdev wf))) IGD_GMCH = Some 0 /\
  pci_get_long (emulated_config_bits (vdev wf)) IGD_GMCH = Some 0xffffffff.
Proof.
  intros K w.
  apply (bar4_gmch_read_only_emulated K 4 w 11 0x1000 (snd (igd_bar4_setup K 4 w))).
  - vm_compute. reflexivity.
  - unfold config_space_ok. repeat split; apply Nat.leb_le; vm_compute; reflexivity.
  - unfold is_u32. simpl. lia.
Defined.

(** X14: whenever the setup part of the BAR 4 quirk succeeds, the BDSM
    register is armed where the generation has it.  Below generation 11 it is
    the 32-bit register at 0x5C: it reads 0, is writable and emulated, and the
    eight bytes at 0xC0 are not written.  From generation 11 on it is the
    64-bit register at 0xC0: it reads 0, is writable and emulated in all 64
    bits, and the four bytes at 0x5C are not written. *)
Theorem bar4_bdsm_layout_by_generation (K : Kernel) (nr : Z) (w : World)
    (gen gmch : Z) (w1 : World) :
  igd_bar4_setup K nr w = (Some (gen, gmch), w1) ->
  config_space_ok (vdev w) ->
  let wf := snd (vfio_probe_igd_bar4_quirk K nr w) in
  (gen < 11 ->
     pci_get_long (config (pdev (vdev wf))) IGD_BDSM = Some 0 /\
     pci_get_long (wmask (pdev (vdev wf))) IGD_BDSM = Some 0xffffffff /\
     pci_get_long (emulated_config_bits (vdev wf)) IGD_BDSM = Some 0xffffffff /\
     pci_get_quad (config (pdev (vdev wf))) IGD_BDSM_GEN11
       = pci_get_quad (config (pdev (vdev w1))) IGD_BDSM_GEN11) /\
  (11 <= gen ->
     pci_get_quad (config (pdev (vdev wf))) IGD_BDSM_GEN11 = Some 0 /\
     pci_get_quad (wmask (pdev (vdev wf))) IGD_BDSM_GEN11 = Some 0xffffffffffffffff /\
     pci_get_quad (emulated_config_bits (vdev wf)) IGD_BDSM_GEN11
       = Some 0xffffffffffffffff /\
     pci_get_long (config (pdev (vdev wf))) IGD_BDSM
       = pci_get_long (config (pdev (vdev w1))) IGD_BDSM).
Proof.
  intros Hsetup (Hc & Hm & He) wf.
  pose proof (keeps_bar4_setup K nr w) as Hkeep. rewrite Hsetup in Hkeep.
  cbn [snd] in Hkeep. destruct Hkeep as [_ _ _ _ _ Hlc Hlw Hle].
  destruct (bar4_override_value gen gmch w1) as (_ & _ & Hvdev & _).
  subst wf. rewrite (bar4_run _ _ _ _ _ _ Hsetup).
  destruct (publish_registers gen (fst (igd_bar4_override gen gmch w1))
              (snd (igd_bar4_override gen gmch w1))) as (Hpc & Hpm & Hpe).
  rewrite Hpc, Hpm, Hpe, Hvdev.
  change (Z.to_nat PCI_CONFIG_SPACE_SIZE) with 256%nat in *.
  unfold IGD_GMCH, IGD_BDSM, IGD_BDSM_GEN11.
  split; intros Hgen.
  - destruct (Z.ltb_spec gen 11); [| lia].
    repeat split.
    all: rewrite ?pci_get_quad_set_long_other by lia.
    all: rewrite ?pci_get_set_long by (rewrite ?length_pci_set_long; simpl; lia).
    all: reflexivity.
  - destruct (Z.ltb_spec gen 11); [lia |].
    repeat split.
    all: rewrite ?pci_get_long_set_quad_other, ?pci_get_long_set_long_other by lia.
    all: rewrite ?pci_get_set_quad by (rewrite ?length_pci_set_long; simpl; lia).
    all: reflexivity.
Qed.

Lemma bar4_bdsm_layout_by_generation_witness :
  let K := Sample.kernel 0x1000 in
  let w := Sample.machine 0x8A52 0 false in
  let wf := snd (vfio_probe_igd_bar4_quirk K 4 w) in
  pci_get_quad (config (pdev (vdev wf))) IGD_BDSM_GEN11 = Some 0 /\
  pci_get_quad (wmask (pdev (vdev wf))) IGD_BDSM_GEN11 = Some 0xffffffffffffffff /\
  pci_get_quad (emulated_config_bits (vdev wf)) IGD_BDSM_GEN11
    = Some 0xffffffffffffffff /\
  pci_get_long (config (pdev (vdev wf))) IGD_BDSM
    = pci_get_long (config (pdev (vdev (snd (igd_bar4_setup K 4 w))))) IGD_BDSM.
Proof.
  intros K w.
  destruct (bar4_bdsm_layout_by_generation K 4 w 11 0x1000 (snd (igd_bar4_setup K 4 w)))
    as [_ Hquad].
  - vm_compute. reflexivity.
  - unfold config_space_ok. repeat split; apply Nat.leb_le; vm_compute; reflexivity.
  - apply Hquad. lia.
Defined.

(** ** The first checks and the early exits *)

Lemma candidate_rejects expected nr w :
  other_device w \/ nr <> expected ->
  fst (igd_legacy_candidate expected nr w) = false.
Proof.
  rewrite legacy_candidate_run. cbn [fst].
  intros [[Hvendor | [Hvga | Haddr]] | Hnr].
  - unfold vfio_pci_is.
    change (PCI_VENDOR_ID_INTEL =? PCI_ANY_ID) with false.
    apply Z.eqb_neq in Hvendor. rewrite Z.eqb_sym in Hvendor. rewrite Hvendor.
    reflexivity.
  - rewrite Hvga. rewrite andb_false_r. reflexivity.
  - unfold pci_find_device, gets. cbn [fst].
    destruct (bus w !! PCI_DEVFN 2 0) as [[| d] |]; try (rewrite andb_false_r; reflexivity).
    contradiction Haddr. reflexivity.
  - apply Z.eqb_neq in Hnr. rewrite Hnr.
    rewrite andb_false_r. reflexivity.
Qed.

(** X15: both BAR quirks do nothing at all, not even a log line, for a
    device that is not Intel, not of VGA class, or not the device found at
    00:02.0, and for any BAR other than their own (BAR 0, respectively
    BAR 4). *)
Theorem igd_quirks_skip_other_devices (K : Kernel) (nr : Z) (w : World) :
  (other_device w \/ nr <> 0 -> vfio_probe_igd_bar0_quirk nr w = (tt, w)) /\
  (other_device w \/ nr <> 4 -> vfio_probe_igd_bar4_quirk K nr w = (tt, w)).
Proof.
  split; intros H; apply candidate_rejects in H.
  - unfold vfio_probe_igd_bar0_quirk, bind.
    destruct (igd_legacy_candidate 0 nr w) as [ok w0] eqn:Hrun.
    pose proof (legacy_candidate_run 0 nr w) as Hw. rewrite Hrun in Hw.
    cbn [fst] in H. subst ok. cbn [negb]. inversion Hw. reflexivity.
  - unfold vfio_probe_igd_bar4_quirk, bind.
    rewrite bar4_setup_early, H. reflexivity.
Qed.

(** X16: the early exits of the BAR 4 quirk, for a device that passes the
    first checks.  An unsupported generation only logs one error report, before
    any kernel call.  A device without ROM only logs the ROM region query and
    one report.  A hotplugged device with a ROM gets [rom_read_failed] set and
    one report; in all three cases nothing else of the world changes, and in
    particular the host GMCH register is never read. *)
Theorem bar4_quirk_early_exits (K : Kernel) (w : World) :
  fst (igd_legacy_candidate 4 4 w) = true ->
  let wf := snd (vfio_probe_igd_bar4_quirk K 4 w) in
  let name := vbasedev_name (vdev w) in
  (igd_gen (vdev w) = -1 ->
     wf = with_log (fun l => l ++ [EvErrorReport
            ("IGD device " ++ name ++
             " is unsupported in legacy mode, try SandyBridge or newer")]) w) /\
  (igd_gen (vdev w) <> -1 -> rom_missing K w = true ->
     wf = with_log (fun l => l ++ [EvRegionInfo VFIO_PCI_ROM_REGION_INDEX;
            EvErrorReport ("IGD device " ++ name ++
                           " has no ROM, legacy mode disabled")]) w) /\
  (igd_gen (vdev w) <> -1 -> rom_missing K w = false ->
   hotplugged (pdev (vdev w)) = true ->
     wf = with_vdev (set_rom_read_failed true)
            (with_log (fun l => l ++ [EvRegionInfo VFIO_PCI_ROM_REGION_INDEX;
               EvErrorReport ("IGD device " ++ name ++
                  " hotplugged, ROM disabled, legacy mode disabled")]) w)).
Proof.
  intros Hcand wf name. subst wf name.
  unfold vfio_probe_igd_bar4_quirk, bind.
  rewrite bar4_setup_early, Hcand. cbn [negb].
  repeat split.
  - intros Hgen. rewrite Hgen. reflexivity.
  - intros Hgen Hrom. apply Z.eqb_neq in Hgen. rewrite Hgen, Hrom. reflexivity.
  - intros Hgen Hrom Hhot. apply Z.eqb_neq in Hgen. rewrite Hgen, Hrom, Hhot.
    reflexivity.
Qed.

Lemma bar4_quirk_early_exits_witness :
  let K := Sample.kernel 0x1000 in
  let w := Sample.machine 0x8A52 0 true in
  let wf := snd (vfio_probe_igd_bar4_quirk K 4 w) in
  rom_read_failed (vdev wf) = true /\ fw_cfg wf = [] /\
  log wf = [EvRegionInfo VFIO_PCI_ROM_REGION_INDEX;
            EvErrorReport ("IGD device 0000:00:02.0" ++
               " hotplugged, ROM disabled, legacy mode disabled")].
Proof.
  intros K w.
  assert (Hcand : fst (igd_legacy_candidate 4 4 w) = true) by (vm_compute; reflexivity).
  destruct (bar4_quirk_early_exits K w Hcand) as (_ & _ & Hhot).
  cbv zeta. rewrite Hhot.
  - repeat split.
  - vm_compute. discriminate.
  - vm_compute. reflexivity.
  - reflexivity.
Defined.

Lemma setup_opregion_failure_is_clean_witness :
  let K := Sample.short_kernel 0x1000 in
  let w := Sample.machine 0x1912 0 false in
  let w' := snd (vfio_pci_igd_setup_opregion K w) in
  fw_cfg w' = fw_cfg w /\
  pdev (vdev w') = pdev (vdev w) /\
  emulated_config_bits (vdev w') = emulated_config_bits (vdev w) /\
  bus w' = bus w /\
  (igd_opregion (vdev w') = igd_opregion (vdev w) \/ igd_opregion (vdev w') = None).
Proof.
  intros K w.
  apply (setup_opregion_failure_is_clean K w (error_setg "failed to read IGD OpRegion")).
  vm_compute. reflexivity.
Defined.

Lemma setup_lpc_bridge_without_host_bridge_witness :
  let K := Sample.kernel 0x1000 in
  let w := machine_without_host_bridge 0x1912 0 in
  let lpc := {| info_size := 16; info_offset := 0x3000 |} in
  let r := vfio_pci_igd_setup_lpc_bridge K w in
  fst r = Failure (error_setg "Failed to modify host bridge for IGD") /\
  exists dl,
    bus (snd r) !! PCI_DEVFN 0x1f 0 = Some (Companion dl) /\
    qom_types dl = vfio_pci_igd_lpc_bridge_info /\
    Forall (fun e => register_of e (config dl) = kernel_bytes K lpc e)
      igd_lpc_bridge_infos.
Proof.
  intros K w lpc.
  apply (setup_lpc_bridge_without_host_bridge K w lpc
           {| info_size := 16; info_offset := 0x2000 |}).
  - reflexivity.
  - vm_compute. reflexivity.
  - vm_compute. reflexivity.
  - reflexivity.
  - reflexivity.
  - apply sample_reads_full, listed_lengths_small.
Defined.

(** ** A bridge that is already there *)

(** X17: when a companion LPC bridge is already at 00:1f.0,
    [vfio_pci_igd_setup_lpc_bridge] reuses it: with both regions and full
    reads it succeeds, the log holds exactly the two region queries, the
    register reads and the two trace points (no device is created), the bridge
    keeps its type, its listed registers now hold the host bytes and every
    other byte of its config is as before. *)
Theorem setup_lpc_bridge_reuses_companion (K : Kernel) (w : World)
    (lpc host : vfio_region_info) (dl0 hb : PCIDevice) :
  hotplugged (pdev (vdev w)) = false ->
  bus w !! PCI_DEVFN 0x1f 0 = Some (Companion dl0) ->
  "vfio-pci-igd-lpc-bridge" ∈ qom_types dl0 ->
  (48 <= length (config dl0))%nat ->
  bus w !! PCI_DEVFN 0 0 = Some (Companion hb) ->
  (48 <= length (config hb))%nat ->
  k_dev_region_info K (fst lpc_query) (snd lpc_query) = RegionFound lpc ->
  k_dev_region_info K (fst host_query) (snd host_query) = RegionFound host ->
  Forall (readable K lpc) igd_lpc_bridge_infos ->
  Forall (readable K host) igd_host_bridge_infos ->
  let r := vfio_pci_igd_setup_lpc_bridge K w in
  fst r = Success /\
  log (snd r) = log w ++ lpc_bridge_steps (vbasedev_name (vdev w)) lpc host /\
  exists dl,
    bus (snd r) !! PCI_DEVFN 0x1f 0 = Some (Companion dl) /\
    qom_types dl = qom_types dl0 /\
    Forall (fun e => register_of e (config dl) = kernel_bytes K lpc e)
      igd_lpc_bridge_infos /\
    (forall i : nat, ~ Exists (fun e => register_bytes e i) igd_lpc_bridge_infos ->
                     config dl !! i = config dl0 !! i).
Proof.
  intros Hhot Hslot Htype Hlen0 Hhb Hlen Hlpc Hhost Hrl Hrh r. subst r.
  rewrite setup_lpc_bridge_run
    by (try exact Hhot; unfold lpc_slot_foreign; rewrite Hslot;
        rewrite bool_decide_eq_true_2 by exact Htype; reflexivity).
  rewrite Hlpc, Hhost. cbv zeta.
  set (w0 := queried host_query (queried lpc_query w)).
  assert (Hslot0 : bus w0 !! PCI_DEVFN 0x1f 0 = Some (Companion dl0)) by exact Hslot.
  rewrite (lpc_init_reuse K lpc w0 dl0 Hslot0). cbv zeta. cbn [fst snd].
  assert (Hd0 : deref w0 (PtrBus (PCI_DEVFN 0x1f 0)) = Some dl0)
    by (apply deref_bus; exact Hslot0).
  destruct (igd_copy_all_read K lpc igd_lpc_bridge_infos _ _ _ Hd0
              (readable_full _ _ _ Hrl) (lpc_registers_fit _ Hlen0)
              lpc_registers_disjoint)
    as (Hret & Hlog & _ & dl & Hdl & Hregs).
  destruct (igd_copy_frame K lpc igd_lpc_bridge_infos _ _ _ Hd0)
    as (dl' & Hdl' & _ & Htypes & _ & _ & Hout & Hothers & _).
  assert (dl' = dl) as -> by congruence.
  pose proof (igd_copy_bus_target K lpc (PCI_DEVFN 0x1f 0) igd_lpc_bridge_infos w0)
    as Hvdev.
  set (c := vfio_pci_igd_copy K (PtrBus (PCI_DEVFN 0x1f 0)) lpc igd_lpc_bridge_infos w0)
    in *.
  rewrite Hret. cbn [Z.eqb negb].
  set (wa := traced "vfio_pci_igd_lpc_bridge_enabled" (snd c)).
  assert (Hhb_a : deref wa (PtrBus (PCI_DEVFN 0 0)) = Some hb).
  { subst wa. rewrite deref_traced, Hothers by discriminate.
    apply deref_bus. exact Hhb. }
  rewrite (host_init_found K host wa hb) by (apply deref_bus; exact Hhb_a).
  cbv zeta. cbn [fst snd].
  destruct (igd_copy_all_read K host igd_host_bridge_infos _ _ _ Hhb_a
              (readable_full _ _ _ Hrh)
              (host_registers_fit _ Hlen) host_registers_disjoint)
    as (Hret2 & Hlog2 & _ & _).
  destruct (igd_copy_frame K host igd_host_bridge_infos _ _ _ Hhb_a)
    as (_ & _ & _ & _ & _ & _ & _ & Hothers2 & _).
  pose proof (igd_copy_bus_target K host (PCI_DEVFN 0 0) igd_host_bridge_infos wa)
    as Hvdev2.
  set (c2 := vfio_pci_igd_copy K (PtrBus (PCI_DEVFN 0 0)) host igd_host_bridge_infos wa)
    in *.
  rewrite Hret2. cbn [Z.eqb negb fst snd].
  split; [reflexivity |].
  split.
  { unfold traced at 1. cbn [log with_log]. rewrite Hlog2, Hvdev2.
    subst wa. unfold traced. cbn [log with_log vdev]. rewrite Hlog, Hvdev.
    subst w0. unfold queried, lpc_bridge_steps. cbn [log with_log vdev].
    rewrite <- !app_assoc. reflexivity. }
  exists dl.
  split.
  { apply deref_bus. rewrite deref_traced, Hothers2 by discriminate.
    subst wa. rewrite deref_traced. exact Hdl. }
  split; [exact Htypes |].
  split; [exact Hregs | exact Hout].
Qed.

Lemma setup_lpc_bridge_reuses_companion_witness :
  let K := Sample.kernel 0x1000 in
  let w := machine_with_lpc_bridge 0x1912 0 in
  let lpc := {| info_size := 16; info_offset := 0x3000 |} in
  let host := {| info_size := 16; info_offset := 0x2000 |} in
  let dl0 := Sample.bridge (PCI_DEVFN 0x1f 0) vfio_pci_igd_lpc_bridge_info in
  let r := vfio_pci_igd_setup_lpc_bridge K w in
  fst r = Success /\
  log (snd r) = log w ++ lpc_bridge_steps (vbasedev_name (vdev w)) lpc host /\
  exists dl,
    bus (snd r) !! PCI_DEVFN 0x1f 0 = Some (Companion dl) /\
    qom_types dl = qom_types dl0 /\
    Forall (fun e => register_of e (config dl) = kernel_bytes K lpc e)
      igd_lpc_bridge_infos /\
    (forall i : nat, ~ Exists (fun e => register_bytes e i) igd_lpc_bridge_infos ->
                     config dl !! i = config dl0 !! i).
Proof.
  intros K w lpc host dl0.
  apply (setup_lpc_bridge_reuses_companion K w lpc host dl0 Sample.host_bridge).
  - reflexivity.
  - vm_compute. reflexivity.
  - apply (bool_decide_unpack _). vm_compute. exact I.
  - apply Nat.leb_le. vm_compute. reflexivity.
  - vm_compute. reflexivity.
  - apply Nat.leb_le. vm_compute. reflexivity.
  - reflexivity.
  - reflexivity.
  - apply sample_reads_full, listed_lengths_small.
  - apply sample_reads_full, listed_lengths_small.
Defined.

(** X18: for every generation and register value the stolen memory size
    is between 0 and 8160 MiB and a multiple of 4 MiB; below generation 8 it is
    at most 992 MiB, from generation 9 on at most 7648 MiB; and it is 0 exactly
    when the GMS field is 0. *)
Theorem igd_stolen_memory_size_bounds (gen gmch : Z) :
  let size := igd_stolen_memory_size gen gmch in
  let gms := if gen <? 8 then field 3 5 gmch else field 8 8 gmch in
  0 <= size <= 8160 * MiB /\
  size mod (4 * MiB) = 0 /\
  (gen < 8 -> size <= 992 * MiB) /\
  (9 <= gen -> size <= 7648 * MiB) /\
  (size = 0 <-> gms = 0).
Proof.
  cbv zeta. rewrite igd_stolen_memory_size_formula. cbv zeta.
  pose proof (field_range 3 5 gmch) as H5.
  pose proof (field_range 8 8 gmch) as H8.
  change (2 ^ 5) with 32 in H5. change (2 ^ 8) with 256 in H8.
  change MiB with 1048576.
  assert (Hmul : forall f k, (f * (k * 4 * 1048576)) mod (4 * 1048576) = 0).
  { intros f k. replace (f * (k * 4 * 1048576)) with ((f * k) * (4 * 1048576)) by lia.
    apply Z.mod_mul. lia. }
  change (32 * 1048576) with (8 * 4 * 1048576).
  change (4 * 1048576) with (1 * 4 * 1048576) at 3 6.
  destruct (Z.ltb_spec gen 8); destruct (Z.ltb_spec gen 9); try lia.
  - rewrite Hmul. lia.
  - rewrite Hmul. lia.
  - destruct (Z.ltb_spec (field 8 8 gmch) 240); rewrite Hmul; lia.
Qed.
